(** * Classroom manager backend: entity store, domain services and
      authorization resolver

    A shallow embedding of [backend/src/app] (models, repositories and
    services).  The relational store is a record of tables; a table is the
    list of its rows in table order, so that [query.filter_by(..).first()]
    is the first matching row.  A live ORM object is identified by its
    primary key: a setter rewrites the row that carries the key, and a later
    read of the object reads that row again.

    Every setter of the models ends in [orm.session.commit()]; a write is
    therefore durable as soon as the setter returns, and an exception raised
    later in the same service call leaves it in place.  The service monad
    [M] keeps the store next to the error for that reason.

    Out of the model: the width of the [String(n)] columns (enforced by some
    engines only), the JWT plumbing, and the reading of the two date strings
    of a request as timestamps by the database: a request row keeps the
    values it was created with.  The [unique=True] index on
    [Department.manager_id] is modelled, as an [IntegrityError] at commit. *)

From Stdlib Require Import ZArith List String Bool Lia.
Import ListNotations.
Open Scope string_scope.
Open Scope Z_scope.

Set Implicit Arguments.

(** ** Python values, equality, truthiness *)

(** [datetime] values, the readings of [datetime.now()], are points on a
    line. *)
Definition datetime := Z.

(** The start and the end of a request are the values of the JSON payload,
    which the route hands on as they are: strings.  [<] on two Python
    strings is the lexicographic order of their characters. *)
Definition date_string := string.

(** The values that meet in the [==] and [in] tests of the authentication
    service: [None], an [int], or an instance of a mapped class.  A mapped
    class defines no [__eq__], so two instances are equal when they are the
    same object, that is the same class and primary key. *)
Inductive pyval : Type :=
| PyNone
| PyInt (n : Z)
| PyObject (tablename : string) (pk : Z).

Definition py_eq (a b : pyval) : bool :=
  match a, b with
  | PyNone, PyNone => true
  | PyInt x, PyInt y => x =? y
  | PyObject s x, PyObject t y => String.eqb s t && (x =? y)
  | _, _ => false
  end.

(** [x in xs] on a list. *)
Definition py_in (x : pyval) (xs : list pyval) : bool := existsb (py_eq x) xs.

(** A nullable integer column read back into Python. *)
Definition py_int_or_none (o : option Z) : pyval :=
  match o with
  | Some n => PyInt n
  | None => PyNone
  end.

(** [bool(x)], as used by [if x:] and [if not x:]. *)
Class Truthy (A : Type) := truthy : A -> bool.

#[global] Instance Truthy_bool : Truthy bool := fun b => b.
#[global] Instance Truthy_int : Truthy Z := fun n => negb (n =? 0).
#[global] Instance Truthy_str : Truthy string := fun s => negb (String.eqb s "").
#[global] Instance Truthy_list {A} : Truthy (list A) :=
  fun l => match l with [] => false | _ :: _ => true end.

(** An optional argument ([None] by default) that passes [if arg:]. *)
Definition supplied {A} `{Truthy A} (arg : option A) : option A :=
  match arg with
  | Some v => if truthy v then Some v else None
  | None => None
  end.

(** ** Errors *)

(** The services raise [ValueError] with a message; the constructors name
    the kinds of message (the taxonomy of the specification).
    [IntegrityError] is the only exception that is not a [ValueError]. *)
Inductive error : Type :=
| ValidationError (field : string)
| ConflictError
| NotFoundError (entity : string)
| EmptyResultError
| UnauthorizedError (reason : string)
| AccessDeniedError
| IntegrityError.

Definition is_ValueError (e : error) : bool :=
  match e with
  | IntegrityError => false
  | _ => true
  end.

Inductive result (A : Type) : Type :=
| Ok (a : A)
| Raise (e : error).

Arguments Ok {A} a.
Arguments Raise {A} e.

(** ** Models *)

Module User.
Record t : Type := mk {
  id : Z;
  first_name : string;
  last_name : string;
  login : string;
  registration_date : datetime;
  is_admin : bool;
  department_id : option Z
}.

Definition with_first_name (u : t) (v : string) : t :=
  mk (id u) v (last_name u) (login u) (registration_date u) (is_admin u) (department_id u).
Definition with_last_name (u : t) (v : string) : t :=
  mk (id u) (first_name u) v (login u) (registration_date u) (is_admin u) (department_id u).
Definition with_department_id (u : t) (v : option Z) : t :=
  mk (id u) (first_name u) (last_name u) (login u) (registration_date u) (is_admin u) v.

Record serialized : Type := mk_serialized {
  s_id : Z;
  s_first_name : string;
  s_last_name : string;
  s_login : string;
  s_registration_date : datetime;
  s_is_admin : bool;
  s_department : option Z;
  s_managed_classrooms : list Z;
  s_occupied_classrooms : list Z;
  s_authored_requests : list Z;
  s_requests : list Z
}.
End User.

Module Department.
Record t : Type := mk {
  id : Z;
  full_name : string;
  code_name : string;
  manager_id : option Z
}.

Definition with_full_name (d : t) (v : string) : t :=
  mk (id d) v (code_name d) (manager_id d).
Definition with_code_name (d : t) (v : string) : t :=
  mk (id d) (full_name d) v (manager_id d).
Definition with_manager_id (d : t) (v : option Z) : t :=
  mk (id d) (full_name d) (code_name d) v.

Record serialized : Type := mk_serialized {
  s_id : Z;
  s_full_name : string;
  s_code_name : string;
  s_manager : option Z;
  s_users : list Z;
  s_classrooms : list Z
}.
End Department.

Module Building.
Record t : Type := mk {
  id : Z;
  name : string;
  address : string
}.

Definition with_name (b : t) (v : string) : t := mk (id b) v (address b).
Definition with_address (b : t) (v : string) : t := mk (id b) (name b) v.

Record serialized : Type := mk_serialized {
  s_id : Z;
  s_name : string;
  s_address : string;
  s_classrooms : list Z
}.
End Building.

Module Classroom.
Record t : Type := mk {
  id : Z;
  name : string;
  floor : Z;
  is_private : bool;
  building_id : option Z;
  department_id : option Z;
  manager_id : option Z
}.

Definition with_name (c : t) (v : string) : t :=
  mk (id c) v (floor c) (is_private c) (building_id c) (department_id c) (manager_id c).
Definition with_is_private (c : t) (v : bool) : t :=
  mk (id c) (name c) (floor c) v (building_id c) (department_id c) (manager_id c).
Definition with_building_id (c : t) (v : option Z) : t :=
  mk (id c) (name c) (floor c) (is_private c) v (department_id c) (manager_id c).
Definition with_department_id (c : t) (v : option Z) : t :=
  mk (id c) (name c) (floor c) (is_private c) (building_id c) v (manager_id c).
Definition with_manager_id (c : t) (v : option Z) : t :=
  mk (id c) (name c) (floor c) (is_private c) (building_id c) (department_id c) v.

Record serialized : Type := mk_serialized {
  s_id : Z;
  s_name : string;
  s_floor : Z;
  s_is_private : bool;
  s_building : option Z;
  s_department : option Z;
  s_manager : option Z;
  s_occupants : list Z;
  s_requests : list Z
}.
End Classroom.

Module Request.
Record t : Type := mk {
  id : Z;
  start_date : date_string;
  end_date : date_string;
  registration_date : datetime;
  is_approved : bool;
  author_id : option Z;
  classroom_id : option Z
}.

Definition with_is_approved (r : t) (v : bool) : t :=
  mk (id r) (start_date r) (end_date r) (registration_date r) v (author_id r) (classroom_id r).
Definition with_author_id (r : t) (v : option Z) : t :=
  mk (id r) (start_date r) (end_date r) (registration_date r) (is_approved r) v (classroom_id r).
Definition with_classroom_id (r : t) (v : option Z) : t :=
  mk (id r) (start_date r) (end_date r) (registration_date r) (is_approved r) (author_id r) v.

Record serialized : Type := mk_serialized {
  s_id : Z;
  s_start_date : date_string;
  s_end_date : date_string;
  s_registration_date : datetime;
  s_is_approved : bool;
  s_author : option Z;
  s_requesting_users : list Z;
  s_classroom : option Z
}.
End Request.

(** ** The store *)

(** One field per table; the two association tables hold pairs
    [(user_id, classroom_id)] and [(user_id, request_id)]. *)
Record Store : Type := mkStore {
  user_table : list User.t;
  department_table : list Department.t;
  building_table : list Building.t;
  classroom_table : list Classroom.t;
  request_table : list Request.t;
  user_occupied_classroom_association : list (Z * Z);
  user_request_association : list (Z * Z)
}.

Definition set_user_table (st : Store) (t : list User.t) : Store :=
  mkStore t (department_table st) (building_table st) (classroom_table st)
          (request_table st) (user_occupied_classroom_association st)
          (user_request_association st).
Definition set_department_table (st : Store) (t : list Department.t) : Store :=
  mkStore (user_table st) t (building_table st) (classroom_table st)
          (request_table st) (user_occupied_classroom_association st)
          (user_request_association st).
Definition set_building_table (st : Store) (t : list Building.t) : Store :=
  mkStore (user_table st) (department_table st) t (classroom_table st)
          (request_table st) (user_occupied_classroom_association st)
          (user_request_association st).
Definition set_classroom_table (st : Store) (t : list Classroom.t) : Store :=
  mkStore (user_table st) (department_table st) (building_table st) t
          (request_table st) (user_occupied_classroom_association st)
          (user_request_association st).
Definition set_request_table (st : Store) (t : list Request.t) : Store :=
  mkStore (user_table st) (department_table st) (building_table st)
          (classroom_table st) t (user_occupied_classroom_association st)
          (user_request_association st).
Definition set_user_occupied_classroom_association (st : Store) (t : list (Z * Z)) : Store :=
  mkStore (user_table st) (department_table st) (building_table st)
          (classroom_table st) (request_table st) t (user_request_association st).
Definition set_user_request_association (st : Store) (t : list (Z * Z)) : Store :=
  mkStore (user_table st) (department_table st) (building_table st)
          (classroom_table st) (request_table st)
          (user_occupied_classroom_association st) t.

(** [filter_by(id=id).first()]: [id] may be [None] (a nullable foreign key
    passed on), and [id IS NULL] matches no row of a primary key. *)
Definition first_by_id {A} (pk : A -> Z) (id : option Z) (table : list A) : option A :=
  match id with
  | Some i => find (fun row => pk row =? i) table
  | None => None
  end.

(** The row of an object after [setter]: every row with the key is the
    object. *)
Definition update_by_id {A} (pk : A -> Z) (id : Z) (setter : A -> A) (table : list A) : list A :=
  map (fun row => if pk row =? id then setter row else row) table.

(** The key given to an inserted row: above every key of the table. *)
Definition next_id {A} (pk : A -> Z) (table : list A) : Z :=
  1 + fold_right (fun row m => Z.max (pk row) m) 0 table.

(** ** The service monad: store passing with exceptions *)

Definition M (A : Type) : Type := Store -> Store * result A.

Definition ret {A} (a : A) : M A := fun st => (st, Ok a).
Definition raise {A} (e : error) : M A := fun st => (st, Raise e).
Definition bind {A B} (m : M A) (k : A -> M B) : M B :=
  fun st =>
    match m st with
    | (st', Ok a) => k a st'
    | (st', Raise e) => (st', Raise e)
    end.

(** A read of the session. *)
Definition query {A} (q : Store -> A) : M A := fun st => (st, Ok (q st)).
(** [session.add(obj); session.commit()] of a change that cannot fail. *)
Definition commit (change : Store -> Store) : M unit := fun st => (change st, Ok tt).
(** [if not ok: raise e]. *)
Definition check (ok : bool) (e : error) : M unit :=
  if ok then ret tt else raise e.

Declare Scope service_scope.
Delimit Scope service_scope with service.
Notation "x <- m ;; k" := (bind m (fun x => k))
  (at level 100, m at next level, right associativity) : service_scope.
Notation "m ;; k" := (bind m (fun _ => k))
  (at level 100, right associativity) : service_scope.
Open Scope service_scope.

(** [for x in xs: y = f(x); if not y: raise e(x); ys.append(y)]. *)
Fixpoint resolve_all {A B} (f : Store -> A -> option B) (e : A -> error) (xs : list A)
  : M (list B) :=
  match xs with
  | [] => ret []
  | x :: rest =>
      y <- query (fun st => f st x) ;;
      match y with
      | None => raise (e x)
      | Some v => vs <- resolve_all f e rest ;; ret (v :: vs)
      end
  end.

(** The row now carrying the key of [obj]: what a getter reads on a live
    object after earlier setters of the same call. *)
Definition live {A} (pk : A -> Z) (table : list A) (obj : A) : A :=
  match first_by_id pk (Some (pk obj)) table with
  | Some row => row
  | None => obj
  end.

Definition has_pair (a b : Z) (assoc : list (Z * Z)) : bool :=
  existsb (fun p => (fst p =? a) && (snd p =? b)) assoc.

(** ** Model methods (models/*.py) *)

Module user_model.
Definition set_department (self : User.t) (department : Department.t) : M unit :=
  commit (fun st => set_user_table st
    (update_by_id User.id (User.id self)
       (fun u => User.with_department_id u (Some (Department.id department)))
       (user_table st))).

Definition set_first_name (self : User.t) (new_first_name : string) : M unit :=
  commit (fun st => set_user_table st
    (update_by_id User.id (User.id self)
       (fun u => User.with_first_name u new_first_name) (user_table st))).

Definition set_last_name (self : User.t) (new_last_name : string) : M unit :=
  commit (fun st => set_user_table st
    (update_by_id User.id (User.id self)
       (fun u => User.with_last_name u new_last_name) (user_table st))).

(** Assigning the collection replaces the user's rows of the association
    table. *)
Definition set_occupied_classrooms (self : User.t) (classrooms : list Classroom.t) : M unit :=
  commit (fun st => set_user_occupied_classroom_association st
    (filter (fun p => negb (fst p =? User.id self)) (user_occupied_classroom_association st)
     ++ map (fun c => (User.id self, Classroom.id c)) classrooms)).

Definition get_managed_classrooms (st : Store) (self : User.t) : list Classroom.t :=
  filter (fun c => py_eq (py_int_or_none (Classroom.manager_id c)) (PyInt (User.id self)))
         (classroom_table st).

Definition get_occupied_classrooms (st : Store) (self : User.t) : list Classroom.t :=
  filter (fun c => has_pair (User.id self) (Classroom.id c)
                     (user_occupied_classroom_association st))
         (classroom_table st).

Definition get_authored_requests (st : Store) (self : User.t) : list Request.t :=
  filter (fun r => py_eq (py_int_or_none (Request.author_id r)) (PyInt (User.id self)))
         (request_table st).

Definition get_requests (st : Store) (self : User.t) : list Request.t :=
  filter (fun r => has_pair (User.id self) (Request.id r) (user_request_association st))
         (request_table st).
End user_model.

Module department_model.
(** [manager_id] is a plain integer column with a unique index: the commit
    fails when another department already carries the value. *)
Definition set_manager_id (self : Department.t) (user_id : Z) : M unit :=
  fun st =>
    if existsb (fun d => negb (Department.id d =? Department.id self)
                         && py_eq (py_int_or_none (Department.manager_id d)) (PyInt user_id))
               (department_table st)
    then (st, Raise IntegrityError)
    else commit (fun st => set_department_table st
           (update_by_id Department.id (Department.id self)
              (fun d => Department.with_manager_id d (Some user_id))
              (department_table st))) st.

Definition set_full_name (self : Department.t) (new_full_name : string) : M unit :=
  commit (fun st => set_department_table st
    (update_by_id Department.id (Department.id self)
       (fun d => Department.with_full_name d new_full_name) (department_table st))).

Definition set_code_name (self : Department.t) (new_code_name : string) : M unit :=
  commit (fun st => set_department_table st
    (update_by_id Department.id (Department.id self)
       (fun d => Department.with_code_name d new_code_name) (department_table st))).

Definition get_users (st : Store) (self : Department.t) : list User.t :=
  filter (fun u => py_eq (py_int_or_none (User.department_id u)) (PyInt (Department.id self)))
         (user_table st).

Definition get_classrooms (st : Store) (self : Department.t) : list Classroom.t :=
  filter (fun c => py_eq (py_int_or_none (Classroom.department_id c))
                         (PyInt (Department.id self)))
         (classroom_table st).
End department_model.

Module building_model.
Definition set_name (self : Building.t) (new_name : string) : M unit :=
  commit (fun st => set_building_table st
    (update_by_id Building.id (Building.id self)
       (fun b => Building.with_name b new_name) (building_table st))).

Definition set_address (self : Building.t) (new_address : string) : M unit :=
  commit (fun st => set_building_table st
    (update_by_id Building.id (Building.id self)
       (fun b => Building.with_address b new_address) (building_table st))).

Definition get_classrooms (st : Store) (self : Building.t) : list Classroom.t :=
  filter (fun c => py_eq (py_int_or_none (Classroom.building_id c)) (PyInt (Building.id self)))
         (classroom_table st).
End building_model.

Module classroom_model.
Definition set_building (self : Classroom.t) (building : Building.t) : M unit :=
  commit (fun st => set_classroom_table st
    (update_by_id Classroom.id (Classroom.id self)
       (fun c => Classroom.with_building_id c (Some (Building.id building)))
       (classroom_table st))).

Definition set_department (self : Classroom.t) (department : Department.t) : M unit :=
  commit (fun st => set_classroom_table st
    (update_by_id Classroom.id (Classroom.id self)
       (fun c => Classroom.with_department_id c (Some (Department.id department)))
       (classroom_table st))).

Definition set_manager (self : Classroom.t) (user : User.t) : M unit :=
  commit (fun st => set_classroom_table st
    (update_by_id Classroom.id (Classroom.id self)
       (fun c => Classroom.with_manager_id c (Some (User.id user)))
       (classroom_table st))).

Definition set_name (self : Classroom.t) (new_name : string) : M unit :=
  commit (fun st => set_classroom_table st
    (update_by_id Classroom.id (Classroom.id self)
       (fun c => Classroom.with_name c new_name) (classroom_table st))).

Definition set_is_private (self : Classroom.t) (new_value : bool) : M unit :=
  commit (fun st => set_classroom_table st
    (update_by_id Classroom.id (Classroom.id self)
       (fun c => Classroom.with_is_private c new_value) (classroom_table st))).

Definition get_occupants (st : Store) (self : Classroom.t) : list User.t :=
  filter (fun u => has_pair (User.id u) (Classroom.id self)
                     (user_occupied_classroom_association st))
         (user_table st).

Definition get_requests (st : Store) (self : Classroom.t) : list Request.t :=
  filter (fun r => py_eq (py_int_or_none (Request.classroom_id r)) (PyInt (Classroom.id self)))
         (request_table st).
End classroom_model.

Module request_model.
Definition set_author (self : Request.t) (user : User.t) : M unit :=
  commit (fun st => set_request_table st
    (update_by_id Request.id (Request.id self)
       (fun r => Request.with_author_id r (Some (User.id user))) (request_table st))).

Definition set_classroom (self : Request.t) (classroom : Classroom.t) : M unit :=
  commit (fun st => set_request_table st
    (update_by_id Request.id (Request.id self)
       (fun r => Request.with_classroom_id r (Some (Classroom.id classroom)))
       (request_table st))).

Definition set_is_approved (self : Request.t) (new_value : bool) : M unit :=
  commit (fun st => set_request_table st
    (update_by_id Request.id (Request.id self)
       (fun r => Request.with_is_approved r new_value) (request_table st))).

Definition set_requesting_users (self : Request.t) (users : list User.t) : M unit :=
  commit (fun st => set_user_request_association st
    (filter (fun p => negb (snd p =? Request.id self)) (user_request_association st)
     ++ map (fun u => (User.id u, Request.id self)) users)).

Definition get_requesting_users (st : Store) (self : Request.t) : list User.t :=
  filter (fun u => has_pair (User.id u) (Request.id self) (user_request_association st))
         (user_table st).
End request_model.

(** ** Repositories (repositories/*.py) *)

(** [0 < len(s) <= bound]. *)
Definition length_in (bound : nat) (s : string) : bool :=
  (0 <? String.length s)%nat && (String.length s <=? bound)%nat.

Module BuildingRepository.
Definition validate_name (name : string) : bool := length_in 50 name.
Definition validate_address (address : string) : bool := length_in 100 address.

Definition create_building (name address : string) : M Building.t :=
  fun st =>
    let new_building := Building.mk (next_id Building.id (building_table st)) name address in
    (set_building_table st (building_table st ++ [new_building]), Ok new_building).

Definition get_all_buildings (st : Store) : list Building.t := building_table st.

Definition get_building_by_id (st : Store) (id : option Z) : option Building.t :=
  first_by_id Building.id id (building_table st).

Definition get_building_by_name (st : Store) (name : string) : option Building.t :=
  find (fun b => String.eqb (Building.name b) name) (building_table st).

Definition get_building_by_address (st : Store) (address : string) : option Building.t :=
  find (fun b => String.eqb (Building.address b) address) (building_table st).

Definition serialize_building (st : Store) (building : Building.t) : Building.serialized :=
  let b := live Building.id (building_table st) building in
  Building.mk_serialized (Building.id b) (Building.name b) (Building.address b)
    (map Classroom.id (building_model.get_classrooms st b)).
End BuildingRepository.

Module ClassroomRepository.
Definition validate_name (name : string) : bool := length_in 50 name.

Definition create_classroom (name : string) (floor : Z) (is_private : bool) : M Classroom.t :=
  fun st =>
    let new_classroom :=
      Classroom.mk (next_id Classroom.id (classroom_table st)) name floor is_private
                   None None None in
    (set_classroom_table st (classroom_table st ++ [new_classroom]), Ok new_classroom).

Definition get_all_classrooms (st : Store) : list Classroom.t := classroom_table st.

Definition get_classroom_by_id (st : Store) (id : option Z) : option Classroom.t :=
  first_by_id Classroom.id id (classroom_table st).

Definition serialize_classroom (st : Store) (classroom : Classroom.t) : Classroom.serialized :=
  let c := live Classroom.id (classroom_table st) classroom in
  Classroom.mk_serialized (Classroom.id c) (Classroom.name c) (Classroom.floor c)
    (Classroom.is_private c) (Classroom.building_id c) (Classroom.department_id c)
    (Classroom.manager_id c)
    (map User.id (classroom_model.get_occupants st c))
    (map Request.id (classroom_model.get_requests st c)).
End ClassroomRepository.

Module DepartmentRepository.
Definition validate_full_name (full_name : string) : bool := length_in 100 full_name.
Definition validate_code_name (code_name : string) : bool := length_in 50 code_name.

Definition create_department (full_name code_name : string) : M Department.t :=
  fun st =>
    let new_department :=
      Department.mk (next_id Department.id (department_table st)) full_name code_name None in
    (set_department_table st (department_table st ++ [new_department]), Ok new_department).

Definition get_all_departments (st : Store) : list Department.t := department_table st.

Definition get_department_by_id (st : Store) (id : option Z) : option Department.t :=
  first_by_id Department.id id (department_table st).

Definition get_department_by_full_name (st : Store) (full_name : string) : option Department.t :=
  find (fun d => String.eqb (Department.full_name d) full_name) (department_table st).

Definition get_department_by_code_name (st : Store) (code_name : string) : option Department.t :=
  find (fun d => String.eqb (Department.code_name d) code_name) (department_table st).

Definition update_department_full_name (department : Department.t) (new_full_name : string)
  : M Department.t :=
  department_model.set_full_name department new_full_name ;; ret department.

Definition update_department_code_name (department : Department.t) (new_code_name : string)
  : M Department.t :=
  department_model.set_code_name department new_code_name ;; ret department.

Definition update_department_manager (department : Department.t) (new_manager_id : Z)
  : M Department.t :=
  department_model.set_manager_id department new_manager_id ;; ret department.

Definition serialize_department (st : Store) (department : Department.t)
  : Department.serialized :=
  let d := live Department.id (department_table st) department in
  Department.mk_serialized (Department.id d) (Department.full_name d) (Department.code_name d)
    (Department.manager_id d)
    (map User.id (department_model.get_users st d))
    (map Classroom.id (department_model.get_classrooms st d)).
End DepartmentRepository.

Module UserRepository.
Definition validate_name (name : string) : bool := length_in 100 name.
Definition validate_login (login : string) : bool := length_in 50 login.

(** [now] is the reading of [datetime.now()]. *)
Definition create_user (now : datetime) (first_name last_name login : string) (is_admin : bool)
  : M User.t :=
  fun st =>
    let new_user :=
      User.mk (next_id User.id (user_table st)) first_name last_name login now is_admin None in
    (set_user_table st (user_table st ++ [new_user]), Ok new_user).

Definition get_all_users (st : Store) : list User.t := user_table st.

Definition get_user_by_id (st : Store) (id : option Z) : option User.t :=
  first_by_id User.id id (user_table st).

Definition get_user_by_login (st : Store) (login : string) : option User.t :=
  find (fun u => String.eqb (User.login u) login) (user_table st).

Definition update_user_occupied_classrooms (user : User.t)
    (new_occupied_classrooms : list Classroom.t) : M User.t :=
  user_model.set_occupied_classrooms user new_occupied_classrooms ;; ret user.

Definition serialize_user (st : Store) (user : User.t) : User.serialized :=
  let u := live User.id (user_table st) user in
  User.mk_serialized (User.id u) (User.first_name u) (User.last_name u) (User.login u)
    (User.registration_date u) (User.is_admin u) (User.department_id u)
    (map Classroom.id (user_model.get_managed_classrooms st u))
    (map Classroom.id (user_model.get_occupied_classrooms st u))
    (map Request.id (user_model.get_authored_requests st u))
    (map Request.id (user_model.get_requests st u)).
End UserRepository.

Module RequestRepository.
(** [return start_date < end_date], on the two values of the payload. *)
Definition validate_dates (start_date end_date : date_string) : bool :=
  String.ltb start_date end_date.

(** [now] is the reading of [dt.now()]; the caller of [create_request]
    passes the two dates only. *)
Definition create_request (now : datetime) (start_date end_date : date_string)
  : M Request.t :=
  fun st =>
    let new_request :=
      Request.mk (next_id Request.id (request_table st)) start_date end_date now false
                 None None in
    (set_request_table st (request_table st ++ [new_request]), Ok new_request).

Definition get_all_requests (st : Store) : list Request.t := request_table st.

Definition get_request_by_id (st : Store) (id : option Z) : option Request.t :=
  first_by_id Request.id id (request_table st).

Definition update_request_author (request : Request.t) (new_author : User.t) : M Request.t :=
  request_model.set_author request new_author ;; ret request.

Definition update_request_classroom (request : Request.t) (new_classroom : Classroom.t)
  : M Request.t :=
  request_model.set_classroom request new_classroom ;; ret request.

Definition update_requesting_users (request : Request.t) (new_requesting_users : list User.t)
  : M Request.t :=
  request_model.set_requesting_users request new_requesting_users ;; ret request.

Definition update_request_approval (request : Request.t) (is_approved : bool) : M Request.t :=
  request_model.set_is_approved request is_approved ;; ret request.

Definition serialize_request (st : Store) (request : Request.t) : Request.serialized :=
  let r := live Request.id (request_table st) request in
  Request.mk_serialized (Request.id r) (Request.start_date r) (Request.end_date r)
    (Request.registration_date r) (Request.is_approved r) (Request.author_id r)
    (map User.id (request_model.get_requesting_users st r))
    (Request.classroom_id r).

(** [filter_by(author_id=author_id).all()]. *)
Definition get_requests_by_author_id (st : Store) (author_id : Z) : list Request.t :=
  filter (fun r => py_eq (py_int_or_none (Request.author_id r)) (PyInt author_id))
         (request_table st).

Definition get_requests_by_classroom_id (st : Store) (classroom_id : Z) : list Request.t :=
  filter (fun r => py_eq (py_int_or_none (Request.classroom_id r)) (PyInt classroom_id))
         (request_table st).
End RequestRepository.

(** ** Authentication service (services/authentication_service.py)

    The checks only read the store.  [classroom_id] and [department_id] are
    [option Z]: an [int] from the route, or the value of a nullable column
    handed on by another check. *)

Module AuthenticationService.
Import UserRepository DepartmentRepository ClassroomRepository RequestRepository.

Definition classroom_object (c : Classroom.t) : pyval :=
  PyObject "classroom_table" (Classroom.id c).

Definition is_user_authenticated (st : Store) (login : string) : result bool :=
  match get_user_by_login st login with
  | None => Raise (UnauthorizedError "User with such login does not exist.")
  | Some _ => Ok true
  end.

Definition is_user_classroom_occupant (st : Store) (login : string) (classroom_id : option Z)
  : result bool :=
  match get_user_by_login st login with
  | None => Raise (UnauthorizedError "Invalid login.")
  | Some current_user =>
      Ok (py_in (py_int_or_none classroom_id)
                (map classroom_object (user_model.get_occupied_classrooms st current_user)))
  end.

Definition is_user_classroom_manager (st : Store) (login : string) (classroom_id : option Z)
  : result bool :=
  match get_user_by_login st login with
  | None => Raise (UnauthorizedError "Invalid login.")
  | Some current_user =>
      Ok (py_in (py_int_or_none classroom_id)
                (map classroom_object (user_model.get_managed_classrooms st current_user)))
  end.

Definition is_user_department_occupant (st : Store) (login : string) (department_id : option Z)
  : result bool :=
  match get_user_by_login st login with
  | None => Raise (UnauthorizedError "Invalid login.")
  | Some current_user =>
      Ok (py_eq (py_int_or_none (User.department_id current_user))
                (py_int_or_none department_id))
  end.

Definition is_user_department_manager (st : Store) (login : string) (department_id : option Z)
  : result bool :=
  match get_user_by_login st login with
  | None => Raise (UnauthorizedError "Invalid login.")
  | Some current_user =>
      match get_department_by_id st department_id with
      | None => Raise (UnauthorizedError "Department does not exist.")
      | Some department =>
          Ok (py_eq (py_int_or_none (Department.manager_id department))
                    (PyInt (User.id current_user)))
      end
  end.

Definition is_user_manager_of_department_by_classroom (st : Store) (login : string)
    (classroom_id : option Z) : result bool :=
  match get_user_by_login st login with
  | None => Raise (UnauthorizedError "Invalid login.")
  | Some current_user =>
      match get_classroom_by_id st classroom_id with
      | None => Raise (UnauthorizedError "Classroom does not exist.")
      | Some classroom =>
          match get_department_by_id st (Classroom.department_id classroom) with
          | None => Raise (UnauthorizedError "Department does not exist.")
          | Some department =>
              Ok (py_eq (py_int_or_none (Department.manager_id department))
                        (PyInt (User.id current_user)))
          end
      end
  end.

Definition is_user_manager_of_another_user_department (st : Store) (manager_login : string)
    (user_id : option Z) : result bool :=
  match get_user_by_login st manager_login with
  | None => Raise (UnauthorizedError "Manager with such login does not exist.")
  | Some potential_manager =>
      match get_user_by_id st user_id with
      | None => Raise (UnauthorizedError "User with such ID does not exist.")
      | Some user_in_question =>
          match get_department_by_id st (User.department_id user_in_question) with
          | None => Raise (UnauthorizedError "Department for the given user does not exist.")
          | Some department_of_user_in_question =>
              Ok (py_eq (py_int_or_none (Department.manager_id department_of_user_in_question))
                        (PyInt (User.id potential_manager)))
          end
      end
  end.

Definition is_user_classroom_manager_in_request (st : Store) (login : string)
    (request_id : option Z) : result bool :=
  match get_user_by_login st login with
  | None => Raise (UnauthorizedError "Invalid login.")
  | Some manager_user =>
      match get_request_by_id st request_id with
      | None => Raise (UnauthorizedError "Request does not exist.")
      | Some request =>
          let classroom_id := Request.classroom_id request in
          is_user_classroom_manager st login classroom_id
      end
  end.

(** The last line hands [department_id] to a check that takes a classroom
    id. *)
Definition is_user_department_manager_in_request (st : Store) (login : string)
    (request_id : option Z) : result bool :=
  match get_user_by_login st login with
  | None => Raise (UnauthorizedError "Invalid login.")
  | Some manager_user =>
      match get_request_by_id st request_id with
      | None => Raise (UnauthorizedError "Request does not exist.")
      | Some request =>
          let classroom_id := Request.classroom_id request in
          match get_classroom_by_id st classroom_id with
          | None => Raise (UnauthorizedError "Classroom does not exist.")
          | Some classroom =>
              let department_id := Classroom.department_id classroom in
              is_user_manager_of_department_by_classroom st login department_id
          end
      end
  end.

Definition is_user_admin (st : Store) (login : string) : result bool :=
  match get_user_by_login st login with
  | None => Raise (UnauthorizedError "User with such login does not exist.")
  | Some user =>
      if negb (User.is_admin user)
      then Raise (UnauthorizedError "Access denied. User is not an administrator.")
      else Ok true
  end.

(** [try: if check: return True / except ValueError: pass], followed by the
    rest of the function. *)
Definition try_grant (attempt : result bool) (rest : result bool) : result bool :=
  match attempt with
  | Ok true => Ok true
  | Ok false => rest
  | Raise e => if is_ValueError e then rest else Raise e
  end.

Definition is_user_admin_or_manager_of_department_by_classroom (st : Store) (login : string)
    (classroom_id : option Z) : result bool :=
  try_grant (is_user_admin st login)
    (try_grant (is_user_manager_of_department_by_classroom st login classroom_id)
       (Raise AccessDeniedError)).

Definition is_user_admin_or_manager_of_another_user_department (st : Store) (login : string)
    (user_id : option Z) : result bool :=
  try_grant (is_user_admin st login)
    (try_grant (is_user_manager_of_another_user_department st login user_id)
       (Raise AccessDeniedError)).

Definition is_user_admin_or_manager_in_request (st : Store) (login : string)
    (request_id : option Z) : result bool :=
  try_grant (is_user_admin st login)
    (try_grant (is_user_classroom_manager_in_request st login request_id)
       (try_grant (is_user_department_manager_in_request st login request_id)
          (Raise AccessDeniedError))).
End AuthenticationService.

(** ** Domain services (services/*.py) *)

(** [x = q(); if not x: raise e]. *)
Definition lookup {A} (q : Store -> option A) (e : error) : M A :=
  fun st =>
    match q st with
    | Some x => (st, Ok x)
    | None => (st, Raise e)
    end.

(** [if arg: body(arg)] for an optional argument. *)
Definition when_supplied {A} `{Truthy A} (arg : option A) (body : A -> M unit) : M unit :=
  match supplied arg with
  | Some v => body v
  | None => ret tt
  end.

Module BuildingService.
Import BuildingRepository.

Definition create_building (name address : string) : M Building.serialized :=
  check (validate_name name) (ValidationError "name") ;;
  check (validate_address address) (ValidationError "address") ;;
  existing_building_by_name <- query (fun st => get_building_by_name st name) ;;
  existing_building_by_address <- query (fun st => get_building_by_address st address) ;;
  match existing_building_by_name, existing_building_by_address with
  | Some by_name, Some by_address =>
      check (negb (Building.id by_name =? Building.id by_address)) ConflictError
  | _, _ => ret tt
  end ;;
  building <- BuildingRepository.create_building name address ;;
  query (fun st => serialize_building st building).

Definition update_building (building_id : Z) (new_name new_address : option string)
  : M Building.serialized :=
  building <- lookup (fun st => get_building_by_id st (Some building_id))
                     (NotFoundError "building") ;;
  when_supplied new_name (fun new_name =>
    check (validate_name new_name) (ValidationError "name") ;;
    building_model.set_name building new_name) ;;
  when_supplied new_address (fun new_address =>
    check (validate_address new_address) (ValidationError "address") ;;
    building_model.set_address building new_address) ;;
  query (fun st => serialize_building st building).

Definition find_building (building_id : Z) : M Building.serialized :=
  building <- lookup (fun st => get_building_by_id st (Some building_id))
                     (NotFoundError "building") ;;
  query (fun st => serialize_building st building).

Definition find_all_buildings : M (list Building.serialized) :=
  buildings <- query get_all_buildings ;;
  check (truthy buildings) EmptyResultError ;;
  query (fun st => map (serialize_building st) buildings).
End BuildingService.

Module DepartmentService.
Import DepartmentRepository.

Definition create_department (full_name code_name : string) : M Department.serialized :=
  check (validate_full_name full_name) (ValidationError "full_name") ;;
  check (validate_code_name code_name) (ValidationError "code_name") ;;
  existing_department_by_full_name <- query (fun st => get_department_by_full_name st full_name) ;;
  existing_department_by_code_name <- query (fun st => get_department_by_code_name st code_name) ;;
  match existing_department_by_full_name, existing_department_by_code_name with
  | Some by_full_name, Some by_code_name =>
      check (negb (Department.id by_full_name =? Department.id by_code_name)) ConflictError
  | _, _ => ret tt
  end ;;
  department <- DepartmentRepository.create_department full_name code_name ;;
  query (fun st => serialize_department st department).

Definition update_department (department_id : Z) (new_full_name new_code_name : option string)
    (new_manager_id : option Z) : M Department.serialized :=
  department <- lookup (fun st => get_department_by_id st (Some department_id))
                       (NotFoundError "department") ;;
  when_supplied new_full_name (fun new_full_name =>
    check (validate_full_name new_full_name) (ValidationError "full_name") ;;
    update_department_full_name department new_full_name ;; ret tt) ;;
  when_supplied new_code_name (fun new_code_name =>
    check (validate_code_name new_code_name) (ValidationError "code_name") ;;
    update_department_code_name department new_code_name ;; ret tt) ;;
  when_supplied new_manager_id (fun new_manager_id =>
    new_manager <- lookup (fun st => UserRepository.get_user_by_id st (Some new_manager_id))
                          (NotFoundError "manager") ;;
    update_department_manager department new_manager_id ;; ret tt) ;;
  query (fun st => serialize_department st department).

Definition find_department (department_id : Z) : M Department.serialized :=
  department <- lookup (fun st => get_department_by_id st (Some department_id))
                       (NotFoundError "department") ;;
  query (fun st => serialize_department st department).

Definition find_all_departments : M (list Department.serialized) :=
  departments <- query get_all_departments ;;
  check (truthy departments) EmptyResultError ;;
  query (fun st => map (serialize_department st) departments).
End DepartmentService.

Module ClassroomService.
Import ClassroomRepository.

Definition create_classroom (name : string) (floor : Z) (is_private : bool)
  : M Classroom.serialized :=
  check (validate_name name) (ValidationError "name") ;;
  classroom <- ClassroomRepository.create_classroom name floor is_private ;;
  query (fun st => serialize_classroom st classroom).

Definition update_classroom (classroom_id : Z) (new_name : option string)
    (new_building_id new_department_id new_manager_id : option Z)
    (new_is_private : option bool) : M Classroom.serialized :=
  classroom <- lookup (fun st => get_classroom_by_id st (Some classroom_id))
                      (NotFoundError "classroom") ;;
  when_supplied new_name (fun new_name =>
    check (validate_name new_name) (ValidationError "name") ;;
    classroom_model.set_name classroom new_name) ;;
  when_supplied new_building_id (fun new_building_id =>
    new_building <- lookup (fun st => BuildingRepository.get_building_by_id st
                                        (Some new_building_id))
                           (NotFoundError "building") ;;
    classroom_model.set_building classroom new_building) ;;
  when_supplied new_department_id (fun new_department_id =>
    new_department <- lookup (fun st => DepartmentRepository.get_department_by_id st
                                          (Some new_department_id))
                             (NotFoundError "department") ;;
    classroom_model.set_department classroom new_department) ;;
  when_supplied new_manager_id (fun new_manager_id =>
    new_manager <- lookup (fun st => UserRepository.get_user_by_id st (Some new_manager_id))
                          (NotFoundError "manager") ;;
    classroom_model.set_manager classroom new_manager) ;;
  when_supplied new_is_private (fun new_is_private =>
    classroom_model.set_is_private classroom new_is_private) ;;
  query (fun st => serialize_classroom st classroom).

Definition find_classroom (classroom_id : Z) : M Classroom.serialized :=
  classroom <- lookup (fun st => get_classroom_by_id st (Some classroom_id))
                      (NotFoundError "classroom") ;;
  query (fun st => serialize_classroom st classroom).

Definition find_all_classrooms : M (list Classroom.serialized) :=
  classrooms <- query get_all_classrooms ;;
  check (truthy classrooms) EmptyResultError ;;
  query (fun st => map (serialize_classroom st) classrooms).

Definition find_all_non_private_classrooms : M (list Classroom.serialized) :=
  all_classrooms <- query get_all_classrooms ;;
  let non_private_classrooms :=
    filter (fun classroom => negb (Classroom.is_private classroom)) all_classrooms in
  check (truthy non_private_classrooms) EmptyResultError ;;
  query (fun st => map (serialize_classroom st) non_private_classrooms).
End ClassroomService.

Module UserService.
Import UserRepository.

Definition create_user (now : datetime) (first_name last_name login : string) (is_admin : bool)
  : M User.serialized :=
  check (validate_name first_name) (ValidationError "first_name") ;;
  check (validate_name last_name) (ValidationError "last_name") ;;
  check (validate_login login) (ValidationError "login") ;;
  existing_user <- query (fun st => get_user_by_login st login) ;;
  match existing_user with
  | Some _ => raise ConflictError
  | None => ret tt
  end ;;
  user <- UserRepository.create_user now first_name last_name login is_admin ;;
  query (fun st => serialize_user st user).

Definition update_user (user_id : Z) (new_first_name new_last_name : option string)
    (new_department_id : option Z) (new_occupied_classroom_ids : option (list Z))
  : M User.serialized :=
  user <- lookup (fun st => get_user_by_id st (Some user_id)) (NotFoundError "user") ;;
  when_supplied new_first_name (fun new_first_name =>
    check (validate_name new_first_name) (ValidationError "first_name") ;;
    user_model.set_first_name user new_first_name) ;;
  when_supplied new_last_name (fun new_last_name =>
    check (validate_name new_last_name) (ValidationError "last_name") ;;
    user_model.set_last_name user new_last_name) ;;
  when_supplied new_department_id (fun new_department_id =>
    new_department <- lookup (fun st => DepartmentRepository.get_department_by_id st
                                          (Some new_department_id))
                             (NotFoundError "department") ;;
    user_model.set_department user new_department) ;;
  when_supplied new_occupied_classroom_ids (fun new_occupied_classroom_ids =>
    new_occupied_classrooms <-
      resolve_all (fun st classroom_id =>
                     ClassroomRepository.get_classroom_by_id st (Some classroom_id))
                  (fun _ => NotFoundError "classroom") new_occupied_classroom_ids ;;
    update_user_occupied_classrooms user new_occupied_classrooms ;; ret tt) ;;
  query (fun st => serialize_user st user).

(** Returns a list in every case; an unknown id gives the empty list. *)
Definition get_user_requests_by_id (st : Store) (user_id : Z) : list Request.t :=
  match get_user_by_id st (Some user_id) with
  | Some user => user_model.get_requests st user
  | None => []
  end.

Definition find_user (user_id : Z) : M User.serialized :=
  user <- lookup (fun st => get_user_by_id st (Some user_id)) (NotFoundError "user") ;;
  query (fun st => serialize_user st user).

Definition find_all_users : M (list User.serialized) :=
  users <- query get_all_users ;;
  check (truthy users) EmptyResultError ;;
  query (fun st => map (serialize_user st) users).
End UserService.

Module RequestService.
Import RequestRepository.

Definition approve_reservation_request (request_id manager_id : Z) : M Request.serialized :=
  request_to_approve <- lookup (fun st => get_request_by_id st (Some request_id))
                               (NotFoundError "request") ;;
  manager <- lookup (fun st => UserRepository.get_user_by_id st (Some manager_id))
                    (NotFoundError "manager") ;;
  update_request_approval request_to_approve true ;;
  query (fun st => serialize_request st request_to_approve).

Definition create_reservation_request (now : datetime) (start_date end_date : date_string)
    (author_id classroom_id : Z) (requesting_user_logins : list string)
  : M Request.serialized :=
  check (validate_dates start_date end_date) (ValidationError "dates") ;;
  author <- lookup (fun st => UserRepository.get_user_by_id st (Some author_id))
                   (NotFoundError "author") ;;
  classroom <- lookup (fun st => ClassroomRepository.get_classroom_by_id st (Some classroom_id))
                      (NotFoundError "classroom") ;;
  requesting_users <- resolve_all UserRepository.get_user_by_login
                        (fun _ => NotFoundError "user") requesting_user_logins ;;
  new_request <- create_request now start_date end_date ;;
  update_request_author new_request author ;;
  update_request_classroom new_request classroom ;;
  update_requesting_users new_request requesting_users ;;
  query (fun st => serialize_request st new_request).

Definition update_reservation_request (request_id : Z) (new_author_id new_classroom_id : option Z)
    (new_requesting_user_logins : option (list string)) : M Request.serialized :=
  request <- lookup (fun st => get_request_by_id st (Some request_id))
                    (NotFoundError "request") ;;
  when_supplied new_author_id (fun new_author_id =>
    new_author <- lookup (fun st => UserRepository.get_user_by_id st (Some new_author_id))
                         (NotFoundError "user") ;;
    update_request_author request new_author ;; ret tt) ;;
  when_supplied new_classroom_id (fun new_classroom_id =>
    new_classroom <- lookup (fun st => ClassroomRepository.get_classroom_by_id st
                                         (Some new_classroom_id))
                            (NotFoundError "classroom") ;;
    update_request_classroom request new_classroom ;; ret tt) ;;
  when_supplied new_requesting_user_logins (fun new_requesting_user_logins =>
    new_requesting_users <- resolve_all UserRepository.get_user_by_login
                              (fun _ => NotFoundError "user") new_requesting_user_logins ;;
    update_requesting_users request new_requesting_users ;; ret tt) ;;
  query (fun st => serialize_request st request).

Definition find_request (request_id : Z) : M Request.serialized :=
  request <- lookup (fun st => get_request_by_id st (Some request_id))
                    (NotFoundError "request") ;;
  query (fun st => serialize_request st request).

Definition find_all_requests : M (list Request.serialized) :=
  requests <- query get_all_requests ;;
  check (truthy requests) EmptyResultError ;;
  query (fun st => map (serialize_request st) requests).
End RequestService.

(** ** Routes (routes/*.py)

    The body of each handler, from the point where the token identity
    [login] and the fields of the JSON payload are at hand.  The decorators
    ([jwt_required], [expect], [marshal_with]) are outside the model; a
    handler without the [login] parameter is one that reads no identity. *)

(** What a handler hands back: [body, status] from the [try] block,
    [{"message": str(e)}, status] from the [except ValueError] block, or an
    exception of another class, which leaves the handler. *)
Inductive response (A : Type) : Type :=
| Reply (body : A) (status : Z)
| Message (e : error) (status : Z)
| Uncaught (e : error).

Arguments Reply {A} body status.
Arguments Message {A} e status.
Arguments Uncaught {A} e.

Definition rescue {A} (e : error) : response A :=
  if is_ValueError e then Message e 400 else Uncaught e.

(** [try: gate(...); body = service(...); return body, status
     except ValueError as e: return {"message": str(e)}, 400].
    The value returned by the gate is dropped. *)
Definition gated {A} (gate : Store -> result bool) (service : M A) (status : Z)
  : Store -> Store * response A :=
  fun st =>
    match gate st with
    | Raise e => (st, rescue e)
    | Ok _ =>
        match service st with
        | (st', Ok body) => (st', Reply body status)
        | (st', Raise e) => (st', rescue e)
        end
    end.

(** The same with no gate before the service call. *)
Definition ungated {A} (service : M A) (status : Z) : Store -> Store * response A :=
  fun st =>
    match service st with
    | (st', Ok body) => (st', Reply body status)
    | (st', Raise e) => (st', rescue e)
    end.

Module building_routes.
Import AuthenticationService.

Definition BuildingRoute_post (login : string) (name address : string) :=
  gated (fun st => is_user_admin st login)
        (BuildingService.create_building name address) 201.

Definition BuildingIdRoute_get (login : string) (id : Z) :=
  gated (fun st => is_user_authenticated st login) (BuildingService.find_building id) 200.

Definition BuildingIdRoute_put (login : string) (id : Z) (new_name new_address : option string) :=
  gated (fun st => is_user_admin st login)
        (BuildingService.update_building id new_name new_address) 200.

Definition BuildingAllRoute_get := ungated BuildingService.find_all_buildings 200.
End building_routes.

Module classroom_routes.
Import AuthenticationService.

Definition ClassroomRoute_post (login : string) (name : string) (floor : Z) (is_private : bool) :=
  gated (fun st => is_user_admin st login)
        (ClassroomService.create_classroom name floor is_private) 201.

Definition ClassroomIdRoute_get (login : string) (id : Z) :=
  gated (fun st => is_user_authenticated st login) (ClassroomService.find_classroom id) 200.

Definition ClassroomIdRoute_put (login : string) (id : Z) (new_name : option string)
    (new_building_id new_department_id new_manager_id : option Z)
    (new_is_private : option bool) :=
  gated (fun st => is_user_admin_or_manager_of_department_by_classroom st login (Some id))
        (ClassroomService.update_classroom id new_name new_building_id new_department_id
           new_manager_id new_is_private) 200.

Definition ClassroomAllNonPrivateRoute_get :=
  ungated ClassroomService.find_all_non_private_classrooms 200.

Definition ClassroomAllRoute_get (login : string) :=
  gated (fun st => is_user_authenticated st login) ClassroomService.find_all_classrooms 200.
End classroom_routes.

Module department_routes.
Import AuthenticationService.

Definition DepartmentCreateRoute_post (login : string) (full_name code_name : string) :=
  gated (fun st => is_user_admin st login)
        (DepartmentService.create_department full_name code_name) 201.

Definition DepartmentIdRoute_get (login : string) (id : Z) :=
  gated (fun st => is_user_authenticated st login)
        (DepartmentService.find_department id) 200.

Definition DepartmentIdRoute_put (login : string) (id : Z)
    (new_full_name new_code_name : option string) (new_manager_id : option Z) :=
  gated (fun st => is_user_admin st login)
        (DepartmentService.update_department id new_full_name new_code_name new_manager_id)
        200.

Definition DepartmentAllRoute_get := ungated DepartmentService.find_all_departments 200.
End department_routes.

Module request_routes.
Import AuthenticationService.

(** [data.get('start_date')] and [data.get('end_date')] go to the service
    as they come in the payload. *)
Definition RequestRoute_post (now : datetime) (login : string)
    (start_date end_date : date_string)
    (author_id classroom_id : Z) (requesting_user_logins : list string) :=
  gated (fun st => is_user_authenticated st login)
        (RequestService.create_reservation_request now start_date end_date author_id
           classroom_id requesting_user_logins) 201.

Definition RequestIdRoute_get (login : string) (id : Z) :=
  gated (fun st => is_user_authenticated st login) (RequestService.find_request id) 200.

Definition RequestIdRoute_put (login : string) (id : Z) (new_author_id new_classroom_id : option Z)
    (new_requesting_user_logins : option (list string)) :=
  gated (fun st => is_user_admin_or_manager_in_request st login (Some id))
        (RequestService.update_reservation_request id new_author_id new_classroom_id
           new_requesting_user_logins) 200.

Definition RequestIdApproveRoute_put (login : string) (id : Z) (manager_id : Z) :=
  gated (fun st => is_user_admin_or_manager_in_request st login (Some id))
        (RequestService.approve_reservation_request id manager_id) 200.

Definition RequestAllRoute_get := ungated RequestService.find_all_requests 200.
End request_routes.

Module user_routes.
Import AuthenticationService.

(** No identity is read and no check is made before the creation. *)
Definition UserRoute_post (now : datetime) (first_name last_name login : string)
    (is_admin : bool) :=
  ungated (UserService.create_user now first_name last_name login is_admin) 201.

Definition UserIdRoute_get (login : string) (id : Z) :=
  gated (fun st => is_user_authenticated st login) (UserService.find_user id) 200.

Definition UserIdRoute_put (login : string) (id : Z) (new_first_name new_last_name : option string)
    (new_department_id : option Z) (new_occupied_classroom_ids : option (list Z)) :=
  gated (fun st => is_user_admin_or_manager_of_another_user_department st login (Some id))
        (UserService.update_user id new_first_name new_last_name new_department_id
           new_occupied_classroom_ids) 200.

Definition UserAllRoute_get := ungated UserService.find_all_users 200.
End user_routes.

(** ** A small campus

    Three users, two departments, one classroom and one request on it.
    [alice] manages the Mathematics department, which owns classroom
    [A-101]; [bob] manages the classroom itself; [root] is the only
    administrator. *)

Definition alice : User.t := User.mk 1 "Alice" "Liddell" "alice" 100 false (Some 2).
Definition bob : User.t := User.mk 2 "Bob" "Stone" "bob" 101 false (Some 2).
Definition root : User.t := User.mk 3 "Ruth" "Root" "root" 102 true None.

Definition physics : Department.t := Department.mk 1 "Physics" "PHY" None.
Definition mathematics : Department.t := Department.mk 2 "Mathematics" "MAT" (Some 1).

Definition main_hall : Building.t := Building.mk 1 "Main Hall" "1 College Road".

Definition a101 : Classroom.t := Classroom.mk 1 "A-101" 1 false (Some 1) (Some 2) (Some 2).

Definition seminar : Request.t :=
  Request.mk 1 "2024-05-02T10:00:00" "2024-05-02T12:00:00" 150 false (Some 1) (Some 1).

Definition campus : Store :=
  mkStore [alice; bob; root] [physics; mathematics] [main_hall] [a101] [seminar]
          [(2, 1)] [(1, 1)].

(** The campus with a second classroom, [B-202], whose key is the key of
    the Mathematics department and which belongs to Physics, now managed by
    [bob]. *)
Definition b202 : Classroom.t := Classroom.mk 2 "B-202" 2 false (Some 1) (Some 1) None.

Definition campus_two_rooms : Store :=
  mkStore [alice; bob; root]
          [Department.with_manager_id physics (Some 2); mathematics]
          [main_hall] [a101; b202] [seminar] [(2, 1)] [(1, 1)].

(** A store with no rows. *)
Definition empty_store : Store := mkStore [] [] [] [] [] [] [].

(** Two buildings of the same name at two addresses. *)
Definition two_halls : Store :=
  mkStore [] [] [Building.mk 1 "Main Hall" "1 College Road";
                 Building.mk 2 "Main Hall" "2 Station Road"] [] [] [] [].

(** The outcomes a route can work with: [True], or the denial. *)
Definition grants_or_denies (r : result bool) : Prop :=
  r = Ok true \/ r = Raise AccessDeniedError.

(** The rows of a table that do not carry the key [id]. *)
Definition others {A} (pk : A -> Z) (id : Z) (table : list A) : list A :=
  filter (fun row => negb (pk row =? id)) table.

(** ** Frame conditions on service calls *)

(** [keeps proj m]: running [m] does not change the view [proj] of the
    store, whether [m] returns or raises. *)
Definition keeps {X A} (proj : Store -> X) (m : M A) : Prop :=
  forall st, proj (fst (m st)) = proj st.

(** [atomic m]: when [m] raises, it has written nothing. *)
Definition atomic {A} (m : M A) : Prop :=
  forall st st' e, m st = (st', Raise e) -> st' = st.

(** ** What a failed update has written *)

Definition found {A} (o : option A) : bool :=
  match o with
  | Some _ => true
  | None => false
  end.

(** An optional argument passes a check when it is skipped ([None] or a
    falsy value) or its value satisfies the check; it fails the check when
    it is supplied and its value does not satisfy it. *)
Definition passes {A} `{Truthy A} (arg : option A) (ok : A -> bool) : Prop :=
  forall v, supplied arg = Some v -> ok v = true.

Definition fails {A} `{Truthy A} (arg : option A) (ok : A -> bool) : Prop :=
  exists v, supplied arg = Some v /\ ok v = false.

(** The store after the setter of an argument that is supplied; the store
    itself when the argument is skipped. *)
Definition applied {A} `{Truthy A} (arg : option A) (write : A -> Store -> Store)
    (st : Store) : Store :=
  match supplied arg with
  | Some v => write v st
  | None => st
  end.

(** The store after one setter of the object with key [id], committed. *)
Definition set_building_row (id : Z) (setter : Building.t -> Building.t) (st : Store) : Store :=
  set_building_table st (update_by_id Building.id id setter (building_table st)).

Definition set_department_row (id : Z) (setter : Department.t -> Department.t) (st : Store)
  : Store :=
  set_department_table st (update_by_id Department.id id setter (department_table st)).

Definition set_classroom_row (id : Z) (setter : Classroom.t -> Classroom.t) (st : Store)
  : Store :=
  set_classroom_table st (update_by_id Classroom.id id setter (classroom_table st)).

Definition set_user_row (id : Z) (setter : User.t -> User.t) (st : Store) : Store :=
  set_user_table st (update_by_id User.id id setter (user_table st)).

Definition set_request_row (id : Z) (setter : Request.t -> Request.t) (st : Store) : Store :=
  set_request_table st (update_by_id Request.id id setter (request_table st)).

(** Another department already carries [user_id] as its manager: the
    unique index on [manager_id] refuses the commit. *)
Definition manager_taken (st : Store) (department_id user_id : Z) : bool :=
  existsb (fun d => negb (Department.id d =? department_id)
                    && py_eq (py_int_or_none (Department.manager_id d)) (PyInt user_id))
          (department_table st).

(** * Properties *)

(** ** Tables *)

Lemma first_by_id_update_by_id {A} (pk : A -> Z) (setter : A -> A) (id : Z) (i : option Z)
    (table : list A) :
  (forall row, pk (setter row) = pk row) ->
  first_by_id pk i (update_by_id pk id setter table) =
  option_map (fun row => if pk row =? id then setter row else row) (first_by_id pk i table).
Proof.
  intros Hpk. destruct i as [i|]; simpl; [|reflexivity].
  induction table as [|row table IH]; simpl; [reflexivity|].
  destruct (pk row =? id) eqn:E.
  - rewrite Hpk. destruct (pk row =? i); simpl; [rewrite E; reflexivity | exact IH].
  - destruct (pk row =? i); simpl; [rewrite E; reflexivity | exact IH].
Qed.

Lemma first_by_id_key {A} (pk : A -> Z) (i : Z) (table : list A) (row : A) :
  first_by_id pk (Some i) table = Some row -> pk row = i.
Proof.
  simpl. intros H. apply find_some in H. destruct H as [_ H].
  apply Z.eqb_eq. exact H.
Qed.

(** ** The service monad *)

Section Monad.
Context {A B : Type}.

Lemma bind_Ok (m : M A) (k : A -> M B) st st' (b : B) :
  bind m k st = (st', Ok b) ->
  exists st1 a, m st = (st1, Ok a) /\ k a st1 = (st', Ok b).
Proof.
  unfold bind. destruct (m st) as [st1 [a|e]]; [|discriminate].
  intros H. exists st1, a. split; [reflexivity | exact H].
Qed.

Lemma bind_Raise (m : M A) (k : A -> M B) st st' (e : error) :
  bind m k st = (st', Raise e) ->
  m st = (st', Raise e)
  \/ exists st1 a, m st = (st1, Ok a) /\ k a st1 = (st', Raise e).
Proof.
  unfold bind. destruct (m st) as [st1 [a|e1]]; intros H.
  - right. exists st1, a. split; [reflexivity | exact H].
  - left. injection H as <- <-. reflexivity.
Qed.

Lemma bind_ret (a : A) (k : A -> M B) : bind (ret a) k = k a.
Proof. reflexivity. Qed.

Lemma bind_run_Ok (m : M A) (k : A -> M B) st st1 (a : A) :
  m st = (st1, Ok a) -> bind m k st = k a st1.
Proof. unfold bind. intros ->. reflexivity. Qed.

Lemma bind_run_Raise (m : M A) (k : A -> M B) st st1 (e : error) :
  m st = (st1, Raise e) -> bind m k st = (st1, Raise e).
Proof. unfold bind. intros ->. reflexivity. Qed.

Lemma lookup_Ok (q : Store -> option A) (e : error) st st' (x : A) :
  lookup q e st = (st', Ok x) -> st' = st /\ q st = Some x.
Proof.
  unfold lookup. destruct (q st); [|discriminate].
  intros H. injection H as <- <-. split; reflexivity.
Qed.

Lemma lookup_Raise (q : Store -> option A) (e e' : error) st st' :
  lookup q e st = (st', Raise e') -> st' = st /\ e' = e /\ q st = None.
Proof.
  unfold lookup. destruct (q st); [discriminate|].
  intros H. injection H as <- <-. repeat split; reflexivity.
Qed.

Lemma lookup_run_Some (q : Store -> option A) (e : error) st (x : A) :
  q st = Some x -> lookup q e st = (st, Ok x).
Proof. unfold lookup. intros ->. reflexivity. Qed.

Lemma lookup_run_None (q : Store -> option A) (e : error) st :
  q st = None -> lookup q e st = (st, Raise e).
Proof. unfold lookup. intros ->. reflexivity. Qed.

Lemma when_supplied_None `{Truthy A} (body : A -> M unit) :
  when_supplied None body = ret tt.
Proof. reflexivity. Qed.

Lemma when_supplied_truthy `{Truthy A} (v : A) (body : A -> M unit) :
  truthy v = true -> when_supplied (Some v) body = body v.
Proof. unfold when_supplied, supplied. intros ->. reflexivity. Qed.

Lemma when_supplied_falsy `{Truthy A} (v : A) (body : A -> M unit) :
  truthy v = false -> when_supplied (Some v) body = ret tt.
Proof. unfold when_supplied, supplied. intros ->. reflexivity. Qed.
End Monad.

Lemma check_Ok (ok : bool) (e : error) st st' u :
  check ok e st = (st', Ok u) -> st' = st /\ ok = true.
Proof.
  unfold check, ret, raise. destruct ok; [|discriminate].
  intros H. injection H as <-. split; reflexivity.
Qed.

Lemma check_Raise (ok : bool) (e e' : error) st st' :
  check ok e st = (st', Raise e') -> st' = st /\ e' = e /\ ok = false.
Proof.
  unfold check, ret, raise. destruct ok; [discriminate|].
  intros H. injection H as <- <-. repeat split; reflexivity.
Qed.

Lemma truthy_int (n : Z) : truthy n = true <-> n <> 0.
Proof.
  unfold truthy, Truthy_int. rewrite negb_true_iff, Z.eqb_neq. reflexivity.
Qed.

(** ** Authorization resolver *)

Section Resolver.
Import AuthenticationService.
Import UserRepository DepartmentRepository ClassroomRepository RequestRepository.

Lemma int_not_in_objects (x : option Z) (cs : list Classroom.t) :
  py_in (py_int_or_none x) (map classroom_object cs) = false.
Proof.
  unfold py_in.
  induction cs as [|c cs IH]; [reflexivity|].
  destruct x; simpl in *; exact IH.
Qed.

Lemma is_user_classroom_manager_never_grants st login classroom_id :
  is_user_classroom_manager st login classroom_id <> Ok true.
Proof.
  unfold is_user_classroom_manager.
  destruct (get_user_by_login st login); [|discriminate].
  rewrite int_not_in_objects. discriminate.
Qed.

(** C10. For an existing login and any integer classroom id, the
    classroom-manager and the classroom-occupant checks return [False]: the
    id is tested for membership in a list of [Classroom] objects.  Hence the
    classroom-manager check on a request never returns [True], and the
    composite check on a request is never granted through it. *)
Theorem classroom_membership_is_always_false st login (user : User.t) (classroom_id : Z) :
  get_user_by_login st login = Some user ->
  is_user_classroom_manager st login (Some classroom_id) = Ok false
  /\ is_user_classroom_occupant st login (Some classroom_id) = Ok false
  /\ (forall request_id, is_user_classroom_manager_in_request st login request_id <> Ok true)
  /\ (forall request_id,
        is_user_admin_or_manager_in_request st login request_id =
        try_grant (is_user_admin st login)
          (try_grant (is_user_department_manager_in_request st login request_id)
             (Raise AccessDeniedError))).
Proof.
  intros Huser.
  assert (Hnever : forall request_id,
             is_user_classroom_manager_in_request st login request_id <> Ok true).
  { intros request_id. unfold is_user_classroom_manager_in_request.
    rewrite Huser. destruct (get_request_by_id st request_id); [|discriminate].
    apply is_user_classroom_manager_never_grants. }
  unfold is_user_classroom_manager, is_user_classroom_occupant.
  rewrite Huser, !int_not_in_objects.
  repeat split; try exact Hnever.
  intros request_id. unfold is_user_admin_or_manager_in_request.
  f_equal. specialize (Hnever request_id).
  unfold is_user_classroom_manager_in_request in *. rewrite Huser in *.
  destruct (get_request_by_id st request_id); [|reflexivity].
  unfold is_user_classroom_manager in *. rewrite Huser in *.
  rewrite int_not_in_objects. reflexivity.
Qed.

Lemma classroom_membership_is_always_false_witness :
  get_user_by_login campus "bob" = Some bob
  /\ is_user_classroom_manager campus "bob" (Some 1) = Ok false
  /\ is_user_classroom_occupant campus "bob" (Some 1) = Ok false.
Proof.
  split; [reflexivity|].
  destruct (@classroom_membership_is_always_false campus "bob" bob 1 eq_refl)
    as (Hm & Ho & _).
  split; [exact Hm | exact Ho].
Defined.

(** C2. The department-manager check on a request hands the department id
    of the request's classroom to a check that expects a classroom id.  On
    the campus [alice] manages the department of the classroom of request 1,
    and the check fails with the classroom-not-found error; with the second
    classroom it returns [True] for [bob], who manages another department. *)
Example department_manager_in_request_confuses_ids :
  (get_request_by_id campus (Some 1) = Some seminar
   /\ get_classroom_by_id campus (Request.classroom_id seminar) = Some a101
   /\ get_department_by_id campus (Classroom.department_id a101) = Some mathematics
   /\ Department.manager_id mathematics = Some (User.id alice)
   /\ is_user_department_manager_in_request campus "alice" (Some 1)
      = Raise (UnauthorizedError "Classroom does not exist."))
  /\ (get_request_by_id campus_two_rooms (Some 1) = Some seminar
      /\ get_classroom_by_id campus_two_rooms (Request.classroom_id seminar) = Some a101
      /\ get_department_by_id campus_two_rooms (Classroom.department_id a101)
         = Some mathematics
      /\ Department.manager_id mathematics <> Some (User.id bob)
      /\ is_user_department_manager_in_request campus_two_rooms "bob" (Some 1) = Ok true).
Proof.
  repeat split; try reflexivity. discriminate.
Qed.

(** C1. The composite check on a request denies the manager of the
    request's classroom and the manager of that classroom's department: on
    the campus [bob] manages classroom [A-101] of request 1 and [alice]
    manages its department, neither is an administrator, and both get
    [AccessDeniedError]; the administrator is granted. *)
Example request_gate_denies_both_managers :
  get_request_by_id campus (Some 1) = Some seminar
  /\ get_classroom_by_id campus (Request.classroom_id seminar) = Some a101
  /\ get_department_by_id campus (Classroom.department_id a101) = Some mathematics
  /\ Classroom.manager_id a101 = Some (User.id bob)
  /\ Department.manager_id mathematics = Some (User.id alice)
  /\ is_user_admin_or_manager_in_request campus "bob" (Some 1) = Raise AccessDeniedError
  /\ is_user_admin_or_manager_in_request campus "alice" (Some 1) = Raise AccessDeniedError
  /\ is_user_admin_or_manager_in_request campus "root" (Some 1) = Ok true.
Proof.
  repeat split; reflexivity.
Qed.

(** What the department-by-classroom gate computes once the user, the
    classroom and its department are found. *)
Lemma department_gate_value st login (user : User.t) (classroom : Classroom.t)
    (department : Department.t) (classroom_id : option Z) :
  get_user_by_login st login = Some user ->
  User.is_admin user = false ->
  get_classroom_by_id st classroom_id = Some classroom ->
  get_department_by_id st (Classroom.department_id classroom) = Some department ->
  is_user_admin_or_manager_of_department_by_classroom st login classroom_id =
  if py_eq (py_int_or_none (Department.manager_id department)) (PyInt (User.id user))
  then Ok true else Raise AccessDeniedError.
Proof.
  intros Hu Hadm Hc Hd.
  unfold is_user_admin_or_manager_of_department_by_classroom, is_user_admin,
    is_user_manager_of_department_by_classroom.
  rewrite Hu, Hadm, Hc, Hd. simpl.
  destruct (py_eq _ _); reflexivity.
Qed.

(** C7. A non-admin user [A] whose id is the [manager_id] of department [D],
    [D] being the department of classroom [C], passes the
    admin-or-department-manager gate of [C]; once [update_department] has
    stored another user's id as manager of [D], the same call raises
    [AccessDeniedError]. *)
Theorem department_gate_follows_manager_id st (A : User.t) (C : Classroom.t)
    (D : Department.t) :
  get_user_by_login st (User.login A) = Some A ->
  User.is_admin A = false ->
  get_classroom_by_id st (Some (Classroom.id C)) = Some C ->
  Classroom.department_id C = Some (Department.id D) ->
  get_department_by_id st (Some (Department.id D)) = Some D ->
  Department.manager_id D = Some (User.id A) ->
  is_user_admin_or_manager_of_department_by_classroom st (User.login A)
    (Some (Classroom.id C)) = Ok true
  /\ forall (other : Z) st' out,
       other <> User.id A ->
       other <> 0 ->
       DepartmentService.update_department (Department.id D) None None (Some other) st
       = (st', Ok out) ->
       is_user_admin_or_manager_of_department_by_classroom st' (User.login A)
         (Some (Classroom.id C)) = Raise AccessDeniedError.
Proof.
  intros Hu Hadm Hc HCD Hd Hm. split.
  - rewrite (@department_gate_value st (User.login A) A C D (Some (Classroom.id C)));
      try assumption; [|rewrite HCD; exact Hd].
    rewrite Hm. simpl. rewrite Z.eqb_refl. reflexivity.
  - intros other st' out Hneq Hnz Hupd.
    unfold DepartmentService.update_department in Hupd.
    apply bind_Ok in Hupd as (st0 & d & H0 & Hupd).
    apply lookup_Ok in H0 as [-> H0]. cbv beta in H0. rewrite Hd in H0.
    injection H0 as <-.
    rewrite !when_supplied_None, !bind_ret in Hupd.
    rewrite when_supplied_truthy in Hupd by (apply truthy_int; exact Hnz).
    apply bind_Ok in Hupd as (st1 & [] & H1 & Hupd). injection Hupd as <- _.
    apply bind_Ok in H1 as (st2 & manager & H2 & H1).
    apply lookup_Ok in H2 as [-> _].
    apply bind_Ok in H1 as (st3 & d & H3 & H1). injection H1 as <-.
    unfold update_department_manager in H3.
    apply bind_Ok in H3 as (st4 & [] & H4 & H3). injection H3 as <- _.
    unfold department_model.set_manager_id in H4.
    destruct (existsb _ (department_table st)); [discriminate|].
    injection H4 as <-.
    rewrite (@department_gate_value _ (User.login A) A C
               (Department.with_manager_id D (Some other)) (Some (Classroom.id C)));
      try assumption.
    + simpl. destruct (other =? User.id A) eqn:E; [apply Z.eqb_eq in E; contradiction|].
      reflexivity.
    + rewrite HCD. unfold get_department_by_id. simpl department_table.
      rewrite first_by_id_update_by_id by reflexivity.
      fold (get_department_by_id st (Some (Department.id D))). rewrite Hd. simpl.
      rewrite Z.eqb_refl. reflexivity.
Qed.

Lemma department_gate_follows_manager_id_witness :
  is_user_admin_or_manager_of_department_by_classroom campus "alice" (Some 1) = Ok true
  /\ is_user_admin_or_manager_of_department_by_classroom
       (fst (DepartmentService.update_department 2 None None (Some 3) campus))
       "alice" (Some 1) = Raise AccessDeniedError.
Proof.
  destruct (@department_gate_follows_manager_id campus alice a101 mathematics
              eq_refl eq_refl eq_refl eq_refl eq_refl eq_refl) as [Hbefore Hafter].
  split; [exact Hbefore|].
  eapply (Hafter 3); [discriminate | discriminate | reflexivity].
Defined.

End Resolver.

(** ** More on tables *)

Lemma first_by_id_fresh {A} (pk : A -> Z) (table : list A) :
  first_by_id pk (Some (next_id pk table)) table = None.
Proof.
  unfold next_id, first_by_id.
  assert (H : forall bound,
             fold_right (fun row m => Z.max (pk row) m) 0 table < bound ->
             find (fun row => pk row =? bound) table = None).
  { induction table as [|row table IH]; simpl; intros bound Hlt; [reflexivity|].
    destruct (pk row =? bound) eqn:E.
    - apply Z.eqb_eq in E. lia.
    - apply IH. lia. }
  apply H. lia.
Qed.

Lemma first_by_id_insert {A} (pk : A -> Z) (i : Z) (table : list A) (row : A) :
  first_by_id pk (Some i) table = None ->
  first_by_id pk (Some i) (table ++ [row]) = if pk row =? i then Some row else None.
Proof.
  simpl. induction table as [|r table IH]; simpl; [reflexivity|].
  destruct (pk r =? i); [discriminate | exact IH].
Qed.


Lemma live_found {A} (pk : A -> Z) (table : list A) (obj row : A) :
  first_by_id pk (Some (pk obj)) table = Some row -> live pk table obj = row.
Proof. unfold live. intros ->. reflexivity. Qed.

Lemma resolve_all_reads {A B} (f : Store -> A -> option B) (e : A -> error) (xs : list A) st :
  fst (resolve_all f e xs st) = st.
Proof.
  induction xs as [|x xs IH]; simpl; [reflexivity|].
  unfold bind, query. destruct (f st x); [|reflexivity].
  destruct (resolve_all f e xs st) as [st1 [vs|err]]; simpl in *; exact IH.
Qed.

(** ** Request service *)

Section Requests.
Import RequestService RequestRepository.

(** C8. Approval raises [NotFoundError] and leaves the store as it is when
    the request id or the manager id resolves to nothing; for an existing
    request and any existing user it sets [is_approved] to true, whoever
    that user is. *)
Theorem approve_reservation_request_spec st (request_id manager_id : Z) :
  (get_request_by_id st (Some request_id) = None ->
   approve_reservation_request request_id manager_id st
   = (st, Raise (NotFoundError "request")))
  /\ (forall request,
        get_request_by_id st (Some request_id) = Some request ->
        UserRepository.get_user_by_id st (Some manager_id) = None ->
        approve_reservation_request request_id manager_id st
        = (st, Raise (NotFoundError "manager")))
  /\ (forall request manager,
        get_request_by_id st (Some request_id) = Some request ->
        UserRepository.get_user_by_id st (Some manager_id) = Some manager ->
        exists st' out,
          approve_reservation_request request_id manager_id st = (st', Ok out)
          /\ get_request_by_id st' (Some request_id)
             = Some (Request.with_is_approved request true)
          /\ Request.s_id out = request_id
          /\ Request.s_is_approved out = true).
Proof.
  unfold approve_reservation_request. repeat split.
  - intros Hr. apply bind_run_Raise. apply lookup_run_None. exact Hr.
  - intros request Hr Hm.
    erewrite bind_run_Ok by (apply lookup_run_Some; exact Hr).
    apply bind_run_Raise. apply lookup_run_None. exact Hm.
  - intros request manager Hr Hm.
    erewrite bind_run_Ok by (apply lookup_run_Some; exact Hr).
    erewrite bind_run_Ok by (apply lookup_run_Some; exact Hm).
    pose proof (first_by_id_key _ _ _ Hr) as Hid. subst request_id.
    assert (Hnew : get_request_by_id
                     (set_request_table st
                        (update_by_id Request.id (Request.id request)
                           (fun r => Request.with_is_approved r true) (request_table st)))
                     (Some (Request.id request))
                   = Some (Request.with_is_approved request true)).
    { unfold get_request_by_id in *. simpl request_table.
      rewrite first_by_id_update_by_id by reflexivity.
      rewrite Hr. simpl. rewrite Z.eqb_refl. reflexivity. }
    eexists. eexists. split; [reflexivity|].
    split; [exact Hnew|].
    unfold serialize_request.
    rewrite (@live_found _ Request.id _ request (Request.with_is_approved request true))
      by exact Hnew.
    split; reflexivity.
Qed.

Lemma approve_reservation_request_spec_witness :
  approve_reservation_request 9 2 campus = (campus, Raise (NotFoundError "request"))
  /\ approve_reservation_request 1 9 campus = (campus, Raise (NotFoundError "manager"))
  /\ exists st' out,
       approve_reservation_request 1 1 campus = (st', Ok out)
       /\ get_request_by_id st' (Some 1) = Some (Request.with_is_approved seminar true)
       /\ Request.s_id out = 1
       /\ Request.s_is_approved out = true.
Proof.
  split; [|split].
  - apply (proj1 (approve_reservation_request_spec campus 9 2)). reflexivity.
  - apply (proj1 (proj2 (approve_reservation_request_spec campus 1 9)) seminar);
      reflexivity.
  - apply (proj2 (proj2 (approve_reservation_request_spec campus 1 1)) seminar alice);
      reflexivity.
Defined.

(** C5. The two dates are compared as the route hands them on, as strings.
    A request whose start, [2024-06-01 11:00:00], is an hour after its end,
    [2024-06-01T10:00:00], passes the check (a blank is below a [T]) and is
    stored.  What holds for every input: creation raises the validation
    error, writing nothing, exactly when the start string is not below the
    end string; and every created request is stored, and returned, with
    [is_approved = False] and with the clock reading [now] as
    [registration_date], for which the operation has no parameter. *)
Theorem create_reservation_request_compares_strings :
  (exists st' out request,
     create_reservation_request 300 "2024-06-01 11:00:00" "2024-06-01T10:00:00" 1 1 ["bob"]
       campus = (st', Ok out)
     /\ get_request_by_id st' (Some (Request.s_id out)) = Some request
     /\ Request.start_date request = "2024-06-01 11:00:00"
     /\ Request.end_date request = "2024-06-01T10:00:00")
  /\ (forall now start_date end_date author_id classroom_id logins st,
        String.ltb start_date end_date = false ->
        create_reservation_request now start_date end_date author_id classroom_id logins st
        = (st, Raise (ValidationError "dates")))
  /\ (forall now start_date end_date author_id classroom_id logins st st' out,
        create_reservation_request now start_date end_date author_id classroom_id logins st
        = (st', Ok out) ->
        String.ltb start_date end_date = true
        /\ Request.s_is_approved out = false
        /\ Request.s_registration_date out = now
        /\ get_request_by_id st (Some (Request.s_id out)) = None
        /\ exists request,
             get_request_by_id st' (Some (Request.s_id out)) = Some request
             /\ Request.is_approved request = false
             /\ Request.registration_date request = now).
Proof.
  split; [|split].
  - do 3 eexists. repeat split.
  - intros now start_date end_date author_id classroom_id logins st Hdates.
    unfold create_reservation_request, validate_dates. rewrite Hdates. reflexivity.
  - intros now start_date end_date author_id classroom_id logins st st' out Hrun.
    unfold create_reservation_request in Hrun.
    apply bind_Ok in Hrun as (st1 & [] & H1 & Hrun).
    apply check_Ok in H1 as [-> Hdates].
    apply bind_Ok in Hrun as (st1 & author & H1 & Hrun). apply lookup_Ok in H1 as [-> _].
    apply bind_Ok in Hrun as (st1 & classroom & H1 & Hrun). apply lookup_Ok in H1 as [-> _].
    apply bind_Ok in Hrun as (st1 & users & H1 & Hrun).
    apply (f_equal fst) in H1. rewrite resolve_all_reads in H1. simpl in H1. subst st1.
    apply bind_Ok in Hrun as (st1 & new_request & H1 & Hrun).
    unfold create_request in H1. injection H1 as <- <-.
    cbv beta iota delta [bind commit ret query update_request_author
      update_request_classroom update_requesting_users request_model.set_author
      request_model.set_classroom request_model.set_requesting_users] in Hrun.
    injection Hrun as <- <-.
    set (nid := next_id Request.id (request_table st)).
    set (new := Request.mk nid start_date end_date now false None None).
    set (f1 := fun r => Request.with_author_id r (Some (User.id author))).
    set (f2 := fun r => Request.with_classroom_id r (Some (Classroom.id classroom))).
    match goal with |- context [serialize_request ?s new] => set (final := s) end.
    assert (Hrow : get_request_by_id final (Some nid) = Some (f2 (f1 new))).
    { unfold get_request_by_id, final. simpl request_table.
      rewrite !first_by_id_update_by_id by reflexivity.
      rewrite first_by_id_insert by apply first_by_id_fresh.
      change (Request.id new) with nid. rewrite Z.eqb_refl. cbn [option_map].
      change (Request.id new) with nid. rewrite Z.eqb_refl.
      change (Request.id (f1 new)) with nid. rewrite Z.eqb_refl. reflexivity. }
    unfold serialize_request.
    rewrite (@live_found _ Request.id (request_table final) new (f2 (f1 new)) Hrow).
    cbn [Request.s_is_approved Request.s_registration_date Request.s_id].
    repeat split.
    + exact Hdates.
    + apply first_by_id_fresh.
    + exists (f2 (f1 new)). repeat split. exact Hrow.
Qed.

End Requests.

(** ** What a service call leaves alone *)

Section Keeps.
Context {X : Type} (proj : Store -> X).

Lemma keeps_ret {A} (a : A) : keeps proj (ret a).
Proof. intros st. reflexivity. Qed.

Lemma keeps_raise {A} (e : error) : keeps proj (@raise A e).
Proof. intros st. reflexivity. Qed.

Lemma keeps_query {A} (q : Store -> A) : keeps proj (query q).
Proof. intros st. reflexivity. Qed.

Lemma keeps_check ok e : keeps proj (check ok e).
Proof. intros st. destruct ok; reflexivity. Qed.

Lemma keeps_lookup {A} (q : Store -> option A) e : keeps proj (lookup q e).
Proof. intros st. unfold lookup. destruct (q st); reflexivity. Qed.

Lemma keeps_resolve_all {A B} (f : Store -> A -> option B) e xs :
  keeps proj (resolve_all f e xs).
Proof. intros st. rewrite resolve_all_reads. reflexivity. Qed.

Lemma keeps_bind {A B} (m : M A) (k : A -> M B) :
  keeps proj m -> (forall a, keeps proj (k a)) -> keeps proj (bind m k).
Proof.
  intros Hm Hk st. unfold bind. specialize (Hm st).
  destruct (m st) as [st1 [a|e]]; simpl in *.
  - rewrite Hk. exact Hm.
  - exact Hm.
Qed.

Lemma keeps_when_supplied {A} `{Truthy A} (arg : option A) (body : A -> M unit) :
  (forall v, keeps proj (body v)) -> keeps proj (when_supplied arg body).
Proof.
  intros Hbody. unfold when_supplied. destruct (supplied arg); [apply Hbody|].
  apply keeps_ret.
Qed.

Lemma keeps_commit (change : Store -> Store) :
  (forall st, proj (change st) = proj st) -> keeps proj (commit change).
Proof. intros H st. apply H. Qed.
End Keeps.

Lemma map_update_by_id {A Y} (pk : A -> Z) (id : Z) (setter : A -> A) (view : A -> Y)
    (table : list A) :
  (forall row, view (setter row) = view row) ->
  map view (update_by_id pk id setter table) = map view table.
Proof.
  intros Hview. unfold update_by_id. rewrite map_map. apply map_ext.
  intros row. destruct (pk row =? id); [apply Hview | reflexivity].
Qed.

Lemma first_by_id_view {A Y} (pk : A -> Z) (view : A -> Y) (i : option Z) (t t' : list A) :
  map (fun row => (pk row, view row)) t' = map (fun row => (pk row, view row)) t ->
  option_map view (first_by_id pk i t') = option_map view (first_by_id pk i t).
Proof.
  destruct i as [i|]; [|reflexivity]. simpl. revert t'.
  induction t as [|row t IH]; intros [|row' t'] Heq; try discriminate; [reflexivity|].
  simpl in Heq. injection Heq as Hpk Hview Hrest. simpl. rewrite Hpk.
  destruct (pk row =? i); simpl; [rewrite Hview; reflexivity | apply IH; exact Hrest].
Qed.

Ltac keeps_steps :=
  repeat first
    [ apply keeps_bind; [|intros ?]
    | apply keeps_ret
    | apply keeps_when_supplied; intros ?
    | apply keeps_lookup
    | apply keeps_check
    | apply keeps_query
    | apply keeps_raise
    | apply keeps_resolve_all ].

(** ** Classroom service *)

Section Classrooms.
Import ClassroomService ClassroomRepository.

Lemma update_classroom_without_flag_keeps_is_private classroom_id new_name new_building_id
    new_department_id new_manager_id :
  keeps (fun st => map (fun c => (Classroom.id c, Classroom.is_private c)) (classroom_table st))
        (update_classroom classroom_id new_name new_building_id new_department_id
           new_manager_id None).
Proof.
  unfold update_classroom. keeps_steps;
    apply keeps_commit; intros st; simpl classroom_table;
    apply map_update_by_id; reflexivity.
Qed.

(** C9. An update called with [new_is_private=False] is the update called
    without [new_is_private], and it leaves the stored [is_private] of every
    classroom as it was, whatever its value and whatever the other
    arguments are. *)
Theorem update_classroom_false_keeps_is_private st classroom_id new_name new_building_id
    new_department_id new_manager_id :
  update_classroom classroom_id new_name new_building_id new_department_id new_manager_id
    (Some false) st
  = update_classroom classroom_id new_name new_building_id new_department_id new_manager_id
      None st
  /\ forall id,
       option_map Classroom.is_private
         (get_classroom_by_id
            (fst (update_classroom classroom_id new_name new_building_id new_department_id
                    new_manager_id (Some false) st)) id)
       = option_map Classroom.is_private (get_classroom_by_id st id).
Proof.
  split; [reflexivity|].
  intros id. unfold get_classroom_by_id. apply first_by_id_view.
  change (update_classroom classroom_id new_name new_building_id new_department_id
            new_manager_id (Some false))
    with (update_classroom classroom_id new_name new_building_id new_department_id
            new_manager_id None).
  apply (update_classroom_without_flag_keeps_is_private classroom_id new_name
           new_building_id new_department_id new_manager_id st).
Qed.

End Classrooms.

(** ** Department service *)

Section Departments.
Import DepartmentService DepartmentRepository.

Lemma update_department_names_keep_managers (department : Department.t)
    (new_full_name new_code_name : option string) :
  let view := fun st => (user_table st, map Department.manager_id (department_table st)) in
  keeps view
    (when_supplied new_full_name (fun new_full_name =>
       check (validate_full_name new_full_name) (ValidationError "full_name") ;;
       update_department_full_name department new_full_name ;; ret tt))
  /\ keeps view
       (when_supplied new_code_name (fun new_code_name =>
          check (validate_code_name new_code_name) (ValidationError "code_name") ;;
          update_department_code_name department new_code_name ;; ret tt)).
Proof.
  intros view. unfold update_department_full_name, update_department_code_name.
  split; keeps_steps; apply keeps_commit; intros st; unfold view; simpl;
    f_equal; apply map_update_by_id; reflexivity.
Qed.

Lemma update_department_unknown_manager st department_id new_full_name new_code_name
    (new_manager_id : Z) st' r :
  new_manager_id <> 0 ->
  UserRepository.get_user_by_id st (Some new_manager_id) = None ->
  update_department department_id new_full_name new_code_name (Some new_manager_id) st
  = (st', r) ->
  (exists e, r = Raise e)
  /\ map Department.manager_id (department_table st')
     = map Department.manager_id (department_table st).
Proof.
  intros Hnz Huser Hrun. unfold update_department in Hrun.
  destruct (get_department_by_id st (Some department_id)) as [d|] eqn:Hd.
  2:{ erewrite bind_run_Raise in Hrun by (apply lookup_run_None; exact Hd).
      injection Hrun as <- <-. split; [eexists|]; reflexivity. }
  erewrite bind_run_Ok in Hrun by (apply lookup_run_Some; exact Hd).
  destruct (update_department_names_keep_managers d new_full_name new_code_name)
    as [K1 K2].
  match type of Hrun with bind ?m _ _ = _ =>
    destruct (m st) as [st1 [[]|e1]] eqn:E1; specialize (K1 st); rewrite E1 in K1
  end.
  2:{ erewrite bind_run_Raise in Hrun by exact E1. injection Hrun as <- <-.
      injection K1 as _ K1. split; [eexists; reflexivity | exact K1]. }
  erewrite bind_run_Ok in Hrun by exact E1.
  match type of Hrun with bind ?m _ _ = _ =>
    destruct (m st1) as [st2 [[]|e2]] eqn:E2; specialize (K2 st1); rewrite E2 in K2
  end.
  2:{ erewrite bind_run_Raise in Hrun by exact E2. injection Hrun as <- <-.
      injection K1 as _ K1. injection K2 as _ K2.
      split; [eexists; reflexivity | congruence]. }
  erewrite bind_run_Ok in Hrun by exact E2.
  injection K1 as U1 K1. injection K2 as U2 K2.
  rewrite when_supplied_truthy in Hrun by (apply truthy_int; exact Hnz).
  erewrite bind_run_Raise in Hrun.
  2:{ apply bind_run_Raise. apply lookup_run_None.
      unfold UserRepository.get_user_by_id in *. rewrite U2, U1. exact Huser. }
  injection Hrun as <- <-. split; [eexists; reflexivity | congruence].
Qed.

Lemma no_other_department_managed (table : list Department.t) (department_id user_id : Z) :
  (forall other, In other table ->
                 Department.manager_id other = Some user_id ->
                 Department.id other = department_id) ->
  existsb (fun d => negb (Department.id d =? department_id)
                    && py_eq (py_int_or_none (Department.manager_id d)) (PyInt user_id))
          table = false.
Proof.
  intros Hothers. apply not_true_is_false. intros Hex.
  apply existsb_exists in Hex. destruct Hex as (d & Hin & Hd).
  apply andb_true_iff in Hd. destruct Hd as [Hid Hm].
  apply negb_true_iff, Z.eqb_neq in Hid. apply Hid, Hothers; [exact Hin|].
  destruct (Department.manager_id d) as [m|]; simpl in Hm; [|discriminate].
  apply Z.eqb_eq in Hm. congruence.
Qed.

(** C6 (as the code has it). The department update checks a supplied
    manager id like the other relational fields: when the id (non-zero, so
    that it counts as supplied) refers to no user, the update raises, with
    [NotFoundError] for the manager when nothing fails before, and no
    department's [manager_id] changes; when it refers to a user who manages
    no other department, the id is stored. *)
Theorem update_department_checks_manager st (department_id new_manager_id : Z) :
  new_manager_id <> 0 ->
  (UserRepository.get_user_by_id st (Some new_manager_id) = None ->
   (forall new_full_name new_code_name st' r,
      update_department department_id new_full_name new_code_name (Some new_manager_id) st
      = (st', r) ->
      (exists e, r = Raise e)
      /\ map Department.manager_id (department_table st')
         = map Department.manager_id (department_table st))
   /\ (forall department,
         get_department_by_id st (Some department_id) = Some department ->
         update_department department_id None None (Some new_manager_id) st
         = (st, Raise (NotFoundError "manager"))))
  /\ (forall department manager,
        get_department_by_id st (Some department_id) = Some department ->
        UserRepository.get_user_by_id st (Some new_manager_id) = Some manager ->
        (forall other, In other (department_table st) ->
                       Department.manager_id other = Some new_manager_id ->
                       Department.id other = department_id) ->
        exists st' out,
          update_department department_id None None (Some new_manager_id) st = (st', Ok out)
          /\ get_department_by_id st' (Some department_id)
             = Some (Department.with_manager_id department (Some new_manager_id))
          /\ Department.s_manager out = Some new_manager_id).
Proof.
  intros Hnz. split.
  - intros Huser. split.
    + intros new_full_name new_code_name st' r Hrun.
      exact (@update_department_unknown_manager _ _ _ _ _ _ _ Hnz Huser Hrun).
    + intros department Hd. unfold update_department.
      erewrite bind_run_Ok by (apply lookup_run_Some; exact Hd).
      rewrite !when_supplied_None, !bind_ret.
      rewrite when_supplied_truthy by (apply truthy_int; exact Hnz).
      apply bind_run_Raise. apply bind_run_Raise. apply lookup_run_None. exact Huser.
  - intros department manager Hd Huser Hothers.
    pose proof (first_by_id_key _ _ _ Hd) as Hid. subst department_id.
    unfold update_department.
    erewrite bind_run_Ok by (apply lookup_run_Some; exact Hd).
    rewrite !when_supplied_None, !bind_ret.
    rewrite when_supplied_truthy by (apply truthy_int; exact Hnz).
    set (st' := set_department_table st
                  (update_by_id Department.id (Department.id department)
                     (fun d => Department.with_manager_id d (Some new_manager_id))
                     (department_table st))).
    assert (Hset : department_model.set_manager_id department new_manager_id st
                   = (st', Ok tt)).
    { unfold department_model.set_manager_id.
      rewrite (@no_other_department_managed _ _ _ Hothers). reflexivity. }
    assert (Hnew : get_department_by_id st' (Some (Department.id department))
                   = Some (Department.with_manager_id department (Some new_manager_id))).
    { unfold get_department_by_id in *. unfold st'. simpl department_table.
      rewrite first_by_id_update_by_id by reflexivity.
      rewrite Hd. simpl. rewrite Z.eqb_refl. reflexivity. }
    exists st'. eexists. split; [|split; [exact Hnew|]].
    + erewrite bind_run_Ok; [reflexivity|].
      erewrite bind_run_Ok by (apply lookup_run_Some; exact Huser).
      unfold update_department_manager.
      erewrite bind_run_Ok; [reflexivity|].
      erewrite bind_run_Ok by exact Hset. reflexivity.
    + unfold serialize_department.
      rewrite (@live_found _ Department.id (department_table st') department _ Hnew).
      reflexivity.
Qed.

Lemma update_department_checks_manager_witness :
  update_department 1 None None (Some 99) campus = (campus, Raise (NotFoundError "manager"))
  /\ exists st' out,
       update_department 1 None None (Some 3) campus = (st', Ok out)
       /\ Department.s_manager out = Some 3.
Proof.
  split.
  - destruct (@update_department_checks_manager campus 1 99) as [Hmissing _];
      [discriminate|].
    apply (proj2 (Hmissing eq_refl) physics). reflexivity.
  - destruct (@update_department_checks_manager campus 1 3) as [_ Hfound];
      [discriminate|].
    destruct (Hfound physics root eq_refl eq_refl) as (st' & out & Hrun & _ & Hout).
    + intros other [<-|[<-|[]]]; simpl; intros H; [discriminate H | discriminate H].
    + exists st', out. split; [exact Hrun | exact Hout].
Defined.

(** C6 (as the specification has it) fails: a manager id that refers to no
    user is refused, and nothing is stored. *)
Lemma update_department_refuses_unknown_manager :
  UserRepository.get_user_by_id campus (Some 99) = None
  /\ update_department 1 None None (Some 99) campus
     = (campus, Raise (NotFoundError "manager"))
  /\ ~ (exists st' out,
          update_department 1 None None (Some 99) campus = (st', Ok out)).
Proof.
  repeat split. intros (st' & out & H). discriminate H.
Qed.

End Departments.

(** ** Building service *)

Section Buildings.
Import BuildingService BuildingRepository.

Lemma same_key_same_row {A} (pk : A -> Z) (table : list A) (a b : A) :
  NoDup (map pk table) -> In a table -> In b table -> pk a = pk b -> a = b.
Proof.
  induction table as [|row table IH]; simpl; intros Hnd Ha Hb Hpk; [contradiction|].
  inversion Hnd as [|? ? Hnotin Hnd']; subst.
  destruct Ha as [<-|Ha], Hb as [<-|Hb]; auto.
  - exfalso. apply Hnotin. rewrite Hpk. apply in_map. exact Hb.
  - exfalso. apply Hnotin. rewrite <- Hpk. apply in_map. exact Ha.
Qed.

(** With unique keys, a pair carried by no stored building is accepted. *)
Lemma create_building_new_pair_succeeds st (name address : string) :
  NoDup (map Building.id (building_table st)) ->
  validate_name name = true ->
  validate_address address = true ->
  (forall b, In b (building_table st) ->
             Building.name b <> name \/ Building.address b <> address) ->
  exists st' out,
    BuildingService.create_building name address st = (st', Ok out)
    /\ Building.s_name out = name
    /\ Building.s_address out = address
    /\ building_table st'
       = (building_table st
          ++ [Building.mk (next_id Building.id (building_table st)) name address])%list.
Proof.
  intros Hnd Hname Haddress Hnew. unfold BuildingService.create_building.
  rewrite Hname, Haddress. cbn [check]. rewrite !bind_ret.
  cbv beta iota delta [bind query].
  assert (Hpass : (match get_building_by_name st name, get_building_by_address st address with
                   | Some by_name, Some by_address =>
                       check (negb (Building.id by_name =? Building.id by_address))
                             ConflictError
                   | _, _ => ret tt
                   end) st = (st, Ok tt)).
  { destruct (get_building_by_name st name) as [a|] eqn:Ha; [|reflexivity].
    destruct (get_building_by_address st address) as [b|] eqn:Hb; [|reflexivity].
    apply find_some in Ha, Hb. destruct Ha as [Ha Hna], Hb as [Hb Hab].
    apply String.eqb_eq in Hna, Hab.
    destruct (Building.id a =? Building.id b) eqn:E; [|reflexivity].
    apply Z.eqb_eq in E.
    pose proof (same_key_same_row Building.id _ _ _ Hnd Ha Hb E) as Heq. subst b.
    destruct (Hnew a Ha); contradiction. }
  rewrite Hpass.
  unfold BuildingRepository.create_building, serialize_building.
  set (new_building := Building.mk (next_id Building.id (building_table st)) name address).
  eexists. eexists. split; [reflexivity|].
  rewrite (@live_found _ Building.id _ new_building new_building).
  - repeat split.
  - simpl building_table. rewrite first_by_id_insert by apply first_by_id_fresh.
    simpl. rewrite Z.eqb_refl. reflexivity.
Qed.

(** A conflict is reported only for a pair that some stored building
    carries. *)
Lemma create_building_conflict_is_sound st (name address : string) st' :
  NoDup (map Building.id (building_table st)) ->
  BuildingService.create_building name address st = (st', Raise ConflictError) ->
  st' = st
  /\ exists b, In b (building_table st)
               /\ Building.name b = name /\ Building.address b = address.
Proof.
  intros Hnd Hrun. unfold BuildingService.create_building in Hrun.
  apply bind_Raise in Hrun as [H|(st1 & [] & H1 & Hrun)];
    [apply check_Raise in H as (_ & H & _); discriminate H|].
  apply check_Ok in H1 as [-> _].
  apply bind_Raise in Hrun as [H|(st1 & [] & H1 & Hrun)];
    [apply check_Raise in H as (_ & H & _); discriminate H|].
  apply check_Ok in H1 as [-> _].
  cbv beta iota delta [bind query] in Hrun.
  destruct (get_building_by_name st name) as [a|] eqn:Ha;
    [|discriminate Hrun].
  destruct (get_building_by_address st address) as [b|] eqn:Hb;
    [|discriminate Hrun].
  unfold check in Hrun.
  destruct (Building.id a =? Building.id b) eqn:E; [|discriminate Hrun].
  simpl in Hrun. injection Hrun as <-.
  apply find_some in Ha, Hb. destruct Ha as [Ha Hna], Hb as [Hb Hab].
  apply String.eqb_eq in Hna, Hab. apply Z.eqb_eq in E.
  pose proof (same_key_same_row Building.id _ _ _ Hnd Ha Hb E) as Heq. subst b.
  split; [reflexivity|]. exists a. auto.
Qed.

(** C4. The conflict test compares the first building of that name with the
    first building at that address.  From the empty store, a second building
    of the same name at another address is accepted, and then the pair of
    that second building is accepted again: two stored buildings carry the
    same name and address. *)
Example create_building_accepts_repeated_pair :
  exists st1 out1 st2 out2 st3 out3,
    BuildingService.create_building "Main Hall" "1 College Road" empty_store = (st1, Ok out1)
    /\ BuildingService.create_building "Main Hall" "2 Station Road" st1 = (st2, Ok out2)
    /\ st2 = two_halls
    /\ BuildingService.create_building "Main Hall" "2 Station Road" st2 = (st3, Ok out3)
    /\ building_table st3
       = [Building.mk 1 "Main Hall" "1 College Road";
          Building.mk 2 "Main Hall" "2 Station Road";
          Building.mk 3 "Main Hall" "2 Station Road"].
Proof.
  do 6 eexists. repeat split.
Qed.

End Buildings.

(** ** Failed updates *)

Section Atomic.

Lemma atomic_bind_keeps {A B} (m : M A) (k : A -> M B) :
  keeps (fun st => st) m -> (forall a, atomic (k a)) -> atomic (bind m k).
Proof.
  intros Hm Hk st st' e Hrun. specialize (Hm st).
  apply bind_Raise in Hrun as [H|(st1 & a & H1 & H)].
  - rewrite H in Hm. exact Hm.
  - rewrite H1 in Hm. simpl in Hm. subst st1. exact (Hk a _ _ _ H).
Qed.

Lemma atomic_bind_ret {A B} (m : M A) (b : B) :
  atomic m -> atomic (bind m (fun _ => ret b)).
Proof.
  intros Hm st st' e Hrun.
  apply bind_Raise in Hrun as [H|(st1 & a & _ & H)]; [exact (Hm _ _ _ H) | discriminate H].
Qed.

Lemma atomic_commit (change : Store -> Store) : atomic (commit change).
Proof. intros st st' e H. discriminate H. Qed.

Lemma atomic_when_supplied {A} `{Truthy A} (arg : option A) (body : A -> M unit) :
  (forall v, atomic (body v)) -> atomic (when_supplied arg body).
Proof.
  intros Hbody. unfold when_supplied. destruct (supplied arg); [apply Hbody|].
  intros st st' e H'. discriminate H'.
Qed.

Lemma atomic_set_manager_id (department : Department.t) (user_id : Z) :
  atomic (department_model.set_manager_id department user_id).
Proof.
  intros st st' e. unfold department_model.set_manager_id.
  destruct (existsb _ _); intros H; [injection H as <- _; reflexivity | discriminate H].
Qed.

End Atomic.

(** One step of an update, [if arg: check; write], run from a store. *)
Section Steps.
Context {A : Type} `{Truthy A}.

Lemma check_step_fails (arg : option A) (ok : A -> bool) (e : error) (write_m : A -> M unit)
    st :
  fails arg ok ->
  when_supplied arg (fun v => check (ok v) e ;; write_m v) st = (st, Raise e).
Proof.
  intros (v & Hv & Hok). unfold when_supplied. rewrite Hv.
  cbv beta delta [bind]. rewrite Hok. reflexivity.
Qed.

Lemma check_step_passes (arg : option A) (ok : A -> bool) (e : error) (write_m : A -> M unit)
    (write : A -> Store -> Store) st :
  passes arg ok ->
  (forall v, write_m v st = (write v st, Ok tt)) ->
  when_supplied arg (fun v => check (ok v) e ;; write_m v) st = (applied arg write st, Ok tt).
Proof.
  intros Hp Hw. unfold when_supplied, applied.
  destruct (supplied arg) as [v|] eqn:Hv; [|reflexivity].
  cbv beta delta [bind]. rewrite (Hp v Hv). cbn [check ret]. apply Hw.
Qed.

Lemma lookup_step_fails {B} (arg : option A) (q : Store -> A -> option B) (ok : A -> bool)
    (e : error) (k : A -> B -> M unit) st :
  fails arg ok ->
  (forall v, found (q st v) = ok v) ->
  when_supplied arg (fun v => x <- lookup (fun st => q st v) e ;; k v x) st = (st, Raise e).
Proof.
  intros (v & Hv & Hok) Hq. unfold when_supplied. rewrite Hv. cbv beta.
  apply bind_run_Raise. apply lookup_run_None.
  rewrite <- Hq in Hok. destruct (q st v); [discriminate | reflexivity].
Qed.

Lemma lookup_step_passes {B} (arg : option A) (q : Store -> A -> option B) (ok : A -> bool)
    (e : error) (k : A -> B -> M unit) (write : A -> Store -> Store) st :
  passes arg ok ->
  (forall v, found (q st v) = ok v) ->
  (forall v x, q st v = Some x -> k v x st = (write v st, Ok tt)) ->
  when_supplied arg (fun v => x <- lookup (fun st => q st v) e ;; k v x) st
  = (applied arg write st, Ok tt).
Proof.
  intros Hp Hq Hk. unfold when_supplied, applied.
  destruct (supplied arg) as [v|] eqn:Hv; [|reflexivity].
  specialize (Hp v Hv). rewrite <- Hq in Hp.
  destruct (q st v) as [x|] eqn:Hx; [|discriminate].
  cbv beta. erewrite bind_run_Ok by (apply lookup_run_Some; exact Hx).
  apply Hk. exact Hx.
Qed.

Lemma applied_frame {X} (proj : Store -> X) (arg : option A) (write : A -> Store -> Store) st :
  (forall v s, proj (write v s) = proj s) ->
  proj (applied arg write st) = proj st.
Proof.
  intros Hw. unfold applied. destruct (supplied arg); [apply Hw | reflexivity].
Qed.
End Steps.

Lemma resolve_all_fails {A B} (f : Store -> A -> option B) (err : error) (xs : list A) st :
  forallb (fun x => found (f st x)) xs = false ->
  resolve_all f (fun _ => err) xs st = (st, Raise err).
Proof.
  induction xs as [|x xs IH]; simpl; [discriminate|].
  intros Hf. unfold bind at 1, query.
  destruct (f st x) as [y|]; simpl in Hf; [|reflexivity].
  apply bind_run_Raise. apply IH. exact Hf.
Qed.

Lemma resolve_step_fails {A B} (arg : option (list A)) (f : Store -> A -> option B)
    (ok : list A -> bool) (err : error) (k : list A -> list B -> M unit) st :
  fails arg ok ->
  (forall xs, forallb (fun x => found (f st x)) xs = ok xs) ->
  when_supplied arg (fun xs => ys <- resolve_all f (fun _ => err) xs ;; k xs ys) st
  = (st, Raise err).
Proof.
  intros (xs & Hxs & Hok) Hf. unfold when_supplied. rewrite Hxs. cbv beta.
  apply bind_run_Raise. apply resolve_all_fails. rewrite Hf. exact Hok.
Qed.

Lemma resolve_all_succeeds {A B} (f : Store -> A -> option B) (e : A -> error) (xs : list A)
    st :
  forallb (fun x => found (f st x)) xs = true ->
  exists ys, resolve_all f e xs st = (st, Ok ys).
Proof.
  induction xs as [|x xs IH]; simpl; [exists []; reflexivity|].
  intros Hf. apply andb_prop in Hf as [Hx Hxs]. destruct (IH Hxs) as (ys & Hys).
  unfold bind at 1, query. destruct (f st x) as [y|]; [|discriminate].
  exists (y :: ys). erewrite bind_run_Ok by exact Hys. reflexivity.
Qed.

Lemma resolve_step_passes {A B} (arg : option (list A)) (f : Store -> A -> option B)
    (ok : list A -> bool) (e : A -> error) (k : list A -> list B -> M unit) st :
  passes arg ok ->
  (forall xs, forallb (fun x => found (f st x)) xs = ok xs) ->
  (forall xs ys, exists st1, k xs ys st = (st1, Ok tt)) ->
  exists st1,
    when_supplied arg (fun xs => ys <- resolve_all f e xs ;; k xs ys) st = (st1, Ok tt).
Proof.
  intros Hp Hf Hk. unfold when_supplied.
  destruct (supplied arg) as [xs|] eqn:Hxs; [|exists st; reflexivity].
  specialize (Hp xs Hxs). rewrite <- Hf in Hp.
  destruct (resolve_all_succeeds f e xs st Hp) as (ys & Hys).
  destruct (Hk xs ys) as (st1 & Hst1). exists st1.
  erewrite bind_run_Ok by exact Hys. exact Hst1.
Qed.

Lemma passes_or_fails {A} `{Truthy A} (arg : option A) (ok : A -> bool) :
  passes arg ok \/ fails arg ok.
Proof.
  unfold passes, fails. destruct (supplied arg) as [v|]; [destruct (ok v) eqn:E|].
  - left. intros v' Hv'. injection Hv' as <-. exact E.
  - right. exists v. split; [reflexivity | exact E].
  - left. intros v' Hv'. discriminate Hv'.
Qed.

Lemma existsb_update_by_id {A} (pk : A -> Z) (id : Z) (setter : A -> A) (P : A -> bool)
    (table : list A) :
  (forall row, P (setter row) = P row) ->
  existsb P (update_by_id pk id setter table) = existsb P table.
Proof.
  intros HP. induction table as [|row table IH]; simpl; [reflexivity|].
  rewrite IH. destruct (pk row =? id); [rewrite HP|]; reflexivity.
Qed.

(** The tables read by the checks of a step are the ones of the initial
    store: the earlier steps wrote the row of the entity only. *)
Ltac same_tables :=
  intros; cbv beta;
  unfold BuildingRepository.get_building_by_id, DepartmentRepository.get_department_by_id,
    ClassroomRepository.get_classroom_by_id, UserRepository.get_user_by_id,
    UserRepository.get_user_by_login;
  rewrite ?applied_frame by (intros; reflexivity);
  reflexivity.

Ltac key_write :=
  let v := fresh "v" in
  let x := fresh "x" in
  let Hx := fresh "Hx" in
  intros v x Hx; apply first_by_id_key in Hx; subst v; reflexivity.

Ltac entity_found H id :=
  match type of H with
  | ?q <> None =>
      let row := fresh "row" in
      let Hrow := fresh "Hrow" in
      destruct q as [row|] eqn:Hrow; [clear H | contradiction H; reflexivity];
      let Hid := fresh "Hid" in
      pose proof (first_by_id_key _ _ _ Hrow) as Hid; subst id;
      erewrite bind_run_Ok by (apply lookup_run_Some; exact Hrow);
      cbv beta
  end.

Ltac entity_missing H :=
  apply bind_run_Raise; apply lookup_run_None; exact H.

Ltac passed_check Hp w :=
  erewrite bind_run_Ok
    by (eapply check_step_passes with (write := w); [exact Hp | reflexivity]);
  cbv beta.

Ltac passed_lookup Hp w :=
  erewrite bind_run_Ok
    by (eapply lookup_step_passes with (write := w); [exact Hp | same_tables | key_write]);
  cbv beta.

Ltac failed_check Hf :=
  apply bind_run_Raise; eapply check_step_fails; exact Hf.

Ltac failed_lookup Hf :=
  apply bind_run_Raise; eapply lookup_step_fails; [exact Hf | same_tables].

Ltac failed_resolve Hf :=
  apply bind_run_Raise; eapply resolve_step_fails; [exact Hf | same_tables].

Section Updates.

(** An update whose entity is stored and whose fields all pass returns. *)
Lemma update_building_returns st building_id new_name new_address :
  BuildingRepository.get_building_by_id st (Some building_id) <> None ->
  passes new_name BuildingRepository.validate_name ->
  passes new_address BuildingRepository.validate_address ->
  exists st' out,
    BuildingService.update_building building_id new_name new_address st = (st', Ok out).
Proof.
  intros Hsome Hp1 Hp2. unfold BuildingService.update_building.
  entity_found Hsome building_id.
  passed_check Hp1
    (fun v => set_building_row (Building.id row) (fun b => Building.with_name b v)).
  passed_check Hp2
    (fun v => set_building_row (Building.id row) (fun b => Building.with_address b v)).
  do 2 eexists. reflexivity.
Qed.

Lemma update_department_returns st department_id new_full_name new_code_name new_manager_id :
  DepartmentRepository.get_department_by_id st (Some department_id) <> None ->
  passes new_full_name DepartmentRepository.validate_full_name ->
  passes new_code_name DepartmentRepository.validate_code_name ->
  passes new_manager_id (fun v => found (UserRepository.get_user_by_id st (Some v))) ->
  (forall v, supplied new_manager_id = Some v -> manager_taken st department_id v = false) ->
  exists st' out,
    DepartmentService.update_department department_id new_full_name new_code_name
      new_manager_id st = (st', Ok out).
Proof.
  intros Hsome Hp1 Hp2 Hp3 Hfree. unfold DepartmentService.update_department.
  entity_found Hsome department_id.
  passed_check Hp1
    (fun v => set_department_row (Department.id row) (fun d => Department.with_full_name d v)).
  passed_check Hp2
    (fun v => set_department_row (Department.id row) (fun d => Department.with_code_name d v)).
  unfold when_supplied. destruct (supplied new_manager_id) as [v|] eqn:Hv;
    [|do 2 eexists; reflexivity].
  specialize (Hp3 v Hv). specialize (Hfree v eq_refl). cbv beta in Hp3.
  destruct (UserRepository.get_user_by_id st (Some v)) as [user|] eqn:Hu; [|discriminate].
  erewrite bind_run_Ok; [do 2 eexists; reflexivity|].
  erewrite bind_run_Ok
    by (apply lookup_run_Some; unfold UserRepository.get_user_by_id;
        rewrite ?applied_frame by (intros; reflexivity); exact Hu).
  erewrite bind_run_Ok; [reflexivity|].
  unfold DepartmentRepository.update_department_manager.
  erewrite bind_run_Ok; [reflexivity|].
  unfold department_model.set_manager_id.
  match goal with
  | |- (if ?c then _ else _) = _ => replace c with false; [reflexivity|]
  end.
  symmetry. unfold applied, set_department_row.
  destruct (supplied new_full_name), (supplied new_code_name);
    cbn [department_table set_department_table];
    rewrite ?existsb_update_by_id by (intros; reflexivity);
    exact Hfree.
Qed.

Lemma update_classroom_returns st classroom_id new_name new_building_id new_department_id
    new_manager_id new_is_private :
  ClassroomRepository.get_classroom_by_id st (Some classroom_id) <> None ->
  passes new_name ClassroomRepository.validate_name ->
  passes new_building_id (fun v => found (BuildingRepository.get_building_by_id st (Some v))) ->
  passes new_department_id
    (fun v => found (DepartmentRepository.get_department_by_id st (Some v))) ->
  passes new_manager_id (fun v => found (UserRepository.get_user_by_id st (Some v))) ->
  exists st' out,
    ClassroomService.update_classroom classroom_id new_name new_building_id
      new_department_id new_manager_id new_is_private st = (st', Ok out).
Proof.
  intros Hsome Hp1 Hp2 Hp3 Hp4. unfold ClassroomService.update_classroom.
  entity_found Hsome classroom_id.
  passed_check Hp1
    (fun v => set_classroom_row (Classroom.id row) (fun c => Classroom.with_name c v)).
  passed_lookup Hp2
    (fun v => set_classroom_row (Classroom.id row)
                (fun c => Classroom.with_building_id c (Some v))).
  passed_lookup Hp3
    (fun v => set_classroom_row (Classroom.id row)
                (fun c => Classroom.with_department_id c (Some v))).
  passed_lookup Hp4
    (fun v => set_classroom_row (Classroom.id row)
                (fun c => Classroom.with_manager_id c (Some v))).
  unfold when_supplied. destruct (supplied new_is_private); do 2 eexists; reflexivity.
Qed.

Lemma update_user_returns st user_id new_first_name new_last_name new_department_id
    new_occupied_classroom_ids :
  UserRepository.get_user_by_id st (Some user_id) <> None ->
  passes new_first_name UserRepository.validate_name ->
  passes new_last_name UserRepository.validate_name ->
  passes new_department_id
    (fun v => found (DepartmentRepository.get_department_by_id st (Some v))) ->
  passes new_occupied_classroom_ids
    (forallb (fun id => found (ClassroomRepository.get_classroom_by_id st (Some id)))) ->
  exists st' out,
    UserService.update_user user_id new_first_name new_last_name new_department_id
      new_occupied_classroom_ids st = (st', Ok out).
Proof.
  intros Hsome Hp1 Hp2 Hp3 Hp4. unfold UserService.update_user.
  entity_found Hsome user_id.
  passed_check Hp1 (fun v => set_user_row (User.id row) (fun u => User.with_first_name u v)).
  passed_check Hp2 (fun v => set_user_row (User.id row) (fun u => User.with_last_name u v)).
  passed_lookup Hp3
    (fun v => set_user_row (User.id row) (fun u => User.with_department_id u (Some v))).
  match goal with
  | |- exists st' out, bind (when_supplied _ ?body) _ ?s = _ =>
      destruct (@resolve_step_passes _ _ new_occupied_classroom_ids
                  (fun st classroom_id =>
                     ClassroomRepository.get_classroom_by_id st (Some classroom_id))
                  (forallb (fun id => found (ClassroomRepository.get_classroom_by_id st
                                               (Some id))))
                  (fun _ => NotFoundError "classroom")
                  (fun _ ys => UserRepository.update_user_occupied_classrooms row ys ;; ret tt)
                  s Hp4) as (st1 & Hst1);
        [same_tables | intros; eexists; reflexivity |]
  end.
  erewrite bind_run_Ok by exact Hst1. do 2 eexists. reflexivity.
Qed.

Lemma update_reservation_request_returns st request_id new_author_id new_classroom_id
    new_requesting_user_logins :
  RequestRepository.get_request_by_id st (Some request_id) <> None ->
  passes new_author_id (fun v => found (UserRepository.get_user_by_id st (Some v))) ->
  passes new_classroom_id
    (fun v => found (ClassroomRepository.get_classroom_by_id st (Some v))) ->
  passes new_requesting_user_logins
    (forallb (fun login => found (UserRepository.get_user_by_login st login))) ->
  exists st' out,
    RequestService.update_reservation_request request_id new_author_id new_classroom_id
      new_requesting_user_logins st = (st', Ok out).
Proof.
  intros Hsome Hp1 Hp2 Hp3. unfold RequestService.update_reservation_request.
  entity_found Hsome request_id.
  passed_lookup Hp1
    (fun v => set_request_row (Request.id row) (fun r => Request.with_author_id r (Some v))).
  passed_lookup Hp2
    (fun v => set_request_row (Request.id row)
                (fun r => Request.with_classroom_id r (Some v))).
  match goal with
  | |- exists st' out, bind (when_supplied _ ?body) _ ?s = _ =>
      destruct (@resolve_step_passes _ _ new_requesting_user_logins
                  UserRepository.get_user_by_login
                  (forallb (fun login => found (UserRepository.get_user_by_login st login)))
                  (fun _ => NotFoundError "user")
                  (fun _ ys => RequestRepository.update_requesting_users row ys ;; ret tt)
                  s Hp3) as (st1 & Hst1);
        [same_tables | intros; eexists; reflexivity |]
  end.
  erewrite bind_run_Ok by exact Hst1. do 2 eexists. reflexivity.
Qed.

(** A run that returns does not raise. *)
Ltac returns_not_raises Hret Hrun :=
  let Hreturns := fresh "Hreturns" in
  exfalso; destruct Hret as (? & ? & Hreturns); rewrite Hreturns in Hrun;
  discriminate Hrun.

Lemma valid_length_is_truthy (bound : nat) (s : string) :
  length_in bound s = true -> truthy s = true.
Proof. destruct s; [discriminate | reflexivity]. Qed.

(** C3 (as the code has it). A failed update has written the fields that
    come before the failing one, and nothing else.  For each of the five
    update operations, and for each field in the order of the operation:
    when the entity is stored, the fields before it pass their checks (they
    are skipped, or valid) and the field itself fails its check, the
    operation raises the error of that field and leaves the store in which
    the supplied fields before it have been set; when the entity is not
    stored it raises the not-found error of the entity and leaves the
    store as it was.  For a department the last step also fails, after the
    two names have been written, when another department already has the
    new manager.  An update raises in these cases only.  In particular
    [update_user] with a valid new first name and the id of a department
    that does not exist raises [NotFoundError] and the stored first name is
    the new one. *)
Theorem failed_update_keeps_earlier_fields :
  (forall st building_id new_name new_address,
      let run := BuildingService.update_building building_id new_name new_address st in
      let name_written :=
        applied new_name
          (fun v => set_building_row building_id (fun b => Building.with_name b v)) st in
      (BuildingRepository.get_building_by_id st (Some building_id) = None ->
       run = (st, Raise (NotFoundError "building")))
      /\ (BuildingRepository.get_building_by_id st (Some building_id) <> None ->
          fails new_name BuildingRepository.validate_name ->
          run = (st, Raise (ValidationError "name")))
      /\ (BuildingRepository.get_building_by_id st (Some building_id) <> None ->
          passes new_name BuildingRepository.validate_name ->
          fails new_address BuildingRepository.validate_address ->
          run = (name_written, Raise (ValidationError "address"))))
  /\ (forall st department_id new_full_name new_code_name new_manager_id,
      let run := DepartmentService.update_department department_id new_full_name new_code_name
                   new_manager_id st in
      let full_name_written :=
        applied new_full_name
          (fun v => set_department_row department_id (fun d => Department.with_full_name d v))
          st in
      let code_name_written :=
        applied new_code_name
          (fun v => set_department_row department_id (fun d => Department.with_code_name d v))
          full_name_written in
      (DepartmentRepository.get_department_by_id st (Some department_id) = None ->
       run = (st, Raise (NotFoundError "department")))
      /\ (DepartmentRepository.get_department_by_id st (Some department_id) <> None ->
          fails new_full_name DepartmentRepository.validate_full_name ->
          run = (st, Raise (ValidationError "full_name")))
      /\ (DepartmentRepository.get_department_by_id st (Some department_id) <> None ->
          passes new_full_name DepartmentRepository.validate_full_name ->
          fails new_code_name DepartmentRepository.validate_code_name ->
          run = (full_name_written, Raise (ValidationError "code_name")))
      /\ (DepartmentRepository.get_department_by_id st (Some department_id) <> None ->
          passes new_full_name DepartmentRepository.validate_full_name ->
          passes new_code_name DepartmentRepository.validate_code_name ->
          fails new_manager_id (fun v => found (UserRepository.get_user_by_id st (Some v))) ->
          run = (code_name_written, Raise (NotFoundError "manager")))
      /\ (DepartmentRepository.get_department_by_id st (Some department_id) <> None ->
          passes new_full_name DepartmentRepository.validate_full_name ->
          passes new_code_name DepartmentRepository.validate_code_name ->
          forall v,
            supplied new_manager_id = Some v ->
            UserRepository.get_user_by_id st (Some v) <> None ->
            manager_taken st department_id v = true ->
            run = (code_name_written, Raise IntegrityError)))
  /\ (forall st classroom_id new_name new_building_id new_department_id new_manager_id
             new_is_private,
      let run := ClassroomService.update_classroom classroom_id new_name new_building_id
                   new_department_id new_manager_id new_is_private st in
      let name_written :=
        applied new_name
          (fun v => set_classroom_row classroom_id (fun c => Classroom.with_name c v)) st in
      let building_written :=
        applied new_building_id
          (fun v => set_classroom_row classroom_id
                      (fun c => Classroom.with_building_id c (Some v)))
          name_written in
      let department_written :=
        applied new_department_id
          (fun v => set_classroom_row classroom_id
                      (fun c => Classroom.with_department_id c (Some v)))
          building_written in
      (ClassroomRepository.get_classroom_by_id st (Some classroom_id) = None ->
       run = (st, Raise (NotFoundError "classroom")))
      /\ (ClassroomRepository.get_classroom_by_id st (Some classroom_id) <> None ->
          fails new_name ClassroomRepository.validate_name ->
          run = (st, Raise (ValidationError "name")))
      /\ (ClassroomRepository.get_classroom_by_id st (Some classroom_id) <> None ->
          passes new_name ClassroomRepository.validate_name ->
          fails new_building_id
            (fun v => found (BuildingRepository.get_building_by_id st (Some v))) ->
          run = (name_written, Raise (NotFoundError "building")))
      /\ (ClassroomRepository.get_classroom_by_id st (Some classroom_id) <> None ->
          passes new_name ClassroomRepository.validate_name ->
          passes new_building_id
            (fun v => found (BuildingRepository.get_building_by_id st (Some v))) ->
          fails new_department_id
            (fun v => found (DepartmentRepository.get_department_by_id st (Some v))) ->
          run = (building_written, Raise (NotFoundError "department")))
      /\ (ClassroomRepository.get_classroom_by_id st (Some classroom_id) <> None ->
          passes new_name ClassroomRepository.validate_name ->
          passes new_building_id
            (fun v => found (BuildingRepository.get_building_by_id st (Some v))) ->
          passes new_department_id
            (fun v => found (DepartmentRepository.get_department_by_id st (Some v))) ->
          fails new_manager_id (fun v => found (UserRepository.get_user_by_id st (Some v))) ->
          run = (department_written, Raise (NotFoundError "manager"))))
  /\ (forall st user_id new_first_name new_last_name new_department_id
             new_occupied_classroom_ids,
      let run := UserService.update_user user_id new_first_name new_last_name new_department_id
                   new_occupied_classroom_ids st in
      let first_name_written :=
        applied new_first_name
          (fun v => set_user_row user_id (fun u => User.with_first_name u v)) st in
      let last_name_written :=
        applied new_last_name
          (fun v => set_user_row user_id (fun u => User.with_last_name u v))
          first_name_written in
      let department_written :=
        applied new_department_id
          (fun v => set_user_row user_id (fun u => User.with_department_id u (Some v)))
          last_name_written in
      (UserRepository.get_user_by_id st (Some user_id) = None ->
       run = (st, Raise (NotFoundError "user")))
      /\ (UserRepository.get_user_by_id st (Some user_id) <> None ->
          fails new_first_name UserRepository.validate_name ->
          run = (st, Raise (ValidationError "first_name")))
      /\ (UserRepository.get_user_by_id st (Some user_id) <> None ->
          passes new_first_name UserRepository.validate_name ->
          fails new_last_name UserRepository.validate_name ->
          run = (first_name_written, Raise (ValidationError "last_name")))
      /\ (UserRepository.get_user_by_id st (Some user_id) <> None ->
          passes new_first_name UserRepository.validate_name ->
          passes new_last_name UserRepository.validate_name ->
          fails new_department_id
            (fun v => found (DepartmentRepository.get_department_by_id st (Some v))) ->
          run = (last_name_written, Raise (NotFoundError "department")))
      /\ (UserRepository.get_user_by_id st (Some user_id) <> None ->
          passes new_first_name UserRepository.validate_name ->
          passes new_last_name UserRepository.validate_name ->
          passes new_department_id
            (fun v => found (DepartmentRepository.get_department_by_id st (Some v))) ->
          fails new_occupied_classroom_ids
            (forallb (fun id => found (ClassroomRepository.get_classroom_by_id st (Some id)))) ->
          run = (department_written, Raise (NotFoundError "classroom"))))
  /\ (forall st request_id new_author_id new_classroom_id new_requesting_user_logins,
      let run := RequestService.update_reservation_request request_id new_author_id
                   new_classroom_id new_requesting_user_logins st in
      let author_written :=
        applied new_author_id
          (fun v => set_request_row request_id (fun r => Request.with_author_id r (Some v))) st in
      let classroom_written :=
        applied new_classroom_id
          (fun v => set_request_row request_id (fun r => Request.with_classroom_id r (Some v)))
          author_written in
      (RequestRepository.get_request_by_id st (Some request_id) = None ->
       run = (st, Raise (NotFoundError "request")))
      /\ (RequestRepository.get_request_by_id st (Some request_id) <> None ->
          fails new_author_id (fun v => found (UserRepository.get_user_by_id st (Some v))) ->
          run = (st, Raise (NotFoundError "user")))
      /\ (RequestRepository.get_request_by_id st (Some request_id) <> None ->
          passes new_author_id (fun v => found (UserRepository.get_user_by_id st (Some v))) ->
          fails new_classroom_id
            (fun v => found (ClassroomRepository.get_classroom_by_id st (Some v))) ->
          run = (author_written, Raise (NotFoundError "classroom")))
      /\ (RequestRepository.get_request_by_id st (Some request_id) <> None ->
          passes new_author_id (fun v => found (UserRepository.get_user_by_id st (Some v))) ->
          passes new_classroom_id
            (fun v => found (ClassroomRepository.get_classroom_by_id st (Some v))) ->
          fails new_requesting_user_logins
            (forallb (fun login => found (UserRepository.get_user_by_login st login))) ->
          run = (classroom_written, Raise (NotFoundError "user"))))
  /\ ((forall st building_id new_name new_address st' e,
         BuildingService.update_building building_id new_name new_address st
         = (st', Raise e) ->
         BuildingRepository.get_building_by_id st (Some building_id) = None
         \/ fails new_name BuildingRepository.validate_name
         \/ fails new_address BuildingRepository.validate_address)
      /\ (forall st department_id new_full_name new_code_name new_manager_id st' e,
            DepartmentService.update_department department_id new_full_name new_code_name
              new_manager_id st = (st', Raise e) ->
            DepartmentRepository.get_department_by_id st (Some department_id) = None
            \/ fails new_full_name DepartmentRepository.validate_full_name
            \/ fails new_code_name DepartmentRepository.validate_code_name
            \/ fails new_manager_id
                 (fun v => found (UserRepository.get_user_by_id st (Some v)))
            \/ exists v,
                 supplied new_manager_id = Some v
                 /\ manager_taken st department_id v = true)
      /\ (forall st classroom_id new_name new_building_id new_department_id new_manager_id
                 new_is_private st' e,
            ClassroomService.update_classroom classroom_id new_name new_building_id
              new_department_id new_manager_id new_is_private st = (st', Raise e) ->
            ClassroomRepository.get_classroom_by_id st (Some classroom_id) = None
            \/ fails new_name ClassroomRepository.validate_name
            \/ fails new_building_id
                 (fun v => found (BuildingRepository.get_building_by_id st (Some v)))
            \/ fails new_department_id
                 (fun v => found (DepartmentRepository.get_department_by_id st (Some v)))
            \/ fails new_manager_id
                 (fun v => found (UserRepository.get_user_by_id st (Some v))))
      /\ (forall st user_id new_first_name new_last_name new_department_id
                 new_occupied_classroom_ids st' e,
            UserService.update_user user_id new_first_name new_last_name new_department_id
              new_occupied_classroom_ids st = (st', Raise e) ->
            UserRepository.get_user_by_id st (Some user_id) = None
            \/ fails new_first_name UserRepository.validate_name
            \/ fails new_last_name UserRepository.validate_name
            \/ fails new_department_id
                 (fun v => found (DepartmentRepository.get_department_by_id st (Some v)))
            \/ fails new_occupied_classroom_ids
                 (forallb (fun id =>
                             found (ClassroomRepository.get_classroom_by_id st (Some id)))))
      /\ (forall st request_id new_author_id new_classroom_id new_requesting_user_logins
                 st' e,
            RequestService.update_reservation_request request_id new_author_id
              new_classroom_id new_requesting_user_logins st = (st', Raise e) ->
            RequestRepository.get_request_by_id st (Some request_id) = None
            \/ fails new_author_id
                 (fun v => found (UserRepository.get_user_by_id st (Some v)))
            \/ fails new_classroom_id
                 (fun v => found (ClassroomRepository.get_classroom_by_id st (Some v)))
            \/ fails new_requesting_user_logins
                 (forallb (fun login => found (UserRepository.get_user_by_login st login)))))
  /\ (forall st user_id user new_first_name new_department_id new_occupied_classroom_ids,
        UserRepository.get_user_by_id st (Some user_id) = Some user ->
        UserRepository.validate_name new_first_name = true ->
        new_department_id <> 0 ->
        DepartmentRepository.get_department_by_id st (Some new_department_id) = None ->
        exists st',
          UserService.update_user user_id (Some new_first_name) None (Some new_department_id)
            new_occupied_classroom_ids st
          = (st', Raise (NotFoundError "department"))
          /\ UserRepository.get_user_by_id st' (Some user_id)
             = Some (User.with_first_name user new_first_name)).
Proof.
  split; [|split; [|split; [|split; [|split; [|split]]]]].
  - intros st building_id new_name new_address.
    cbv zeta. unfold BuildingService.update_building.
    repeat apply conj.
    + intros Hnone. entity_missing Hnone.
    + intros Hsome Hf1. entity_found Hsome building_id. failed_check Hf1.
    + intros Hsome Hp1 Hf2. entity_found Hsome building_id.
      passed_check Hp1
        (fun v => set_building_row (Building.id row) (fun b => Building.with_name b v)).
      failed_check Hf2.
  - intros st department_id new_full_name new_code_name new_manager_id.
    cbv zeta. unfold DepartmentService.update_department.
    repeat apply conj.
    + intros Hnone. entity_missing Hnone.
    + intros Hsome Hf1. entity_found Hsome department_id. failed_check Hf1.
    + intros Hsome Hp1 Hf2. entity_found Hsome department_id.
      passed_check Hp1
        (fun v => set_department_row (Department.id row) (fun d => Department.with_full_name d v)).
      failed_check Hf2.
    + intros Hsome Hp1 Hp2 Hf3. entity_found Hsome department_id.
      passed_check Hp1
        (fun v => set_department_row (Department.id row) (fun d => Department.with_full_name d v)).
      passed_check Hp2
        (fun v => set_department_row (Department.id row) (fun d => Department.with_code_name d v)).
      failed_lookup Hf3.
    + intros Hsome Hp1 Hp2 v Hv Huser Htaken. entity_found Hsome department_id.
      passed_check Hp1
        (fun v => set_department_row (Department.id row) (fun d => Department.with_full_name d v)).
      passed_check Hp2
        (fun v => set_department_row (Department.id row) (fun d => Department.with_code_name d v)).
      apply bind_run_Raise. unfold when_supplied. rewrite Hv. cbv beta.
      destruct (UserRepository.get_user_by_id st (Some v)) as [user|] eqn:Hu;
        [clear Huser | contradiction Huser; reflexivity].
      erewrite bind_run_Ok
        by (apply lookup_run_Some; unfold UserRepository.get_user_by_id;
            rewrite ?applied_frame by (intros; reflexivity); exact Hu).
      apply bind_run_Raise. apply bind_run_Raise.
      unfold department_model.set_manager_id.
      match goal with
      | |- (if ?c then _ else _) = _ => replace c with true; [reflexivity|]
      end.
      symmetry. unfold applied, set_department_row.
      destruct (supplied new_full_name), (supplied new_code_name);
        cbn [department_table set_department_table];
        rewrite ?existsb_update_by_id by (intros; reflexivity);
        exact Htaken.
  - intros st classroom_id new_name new_building_id new_department_id new_manager_id new_is_private.
    cbv zeta. unfold ClassroomService.update_classroom.
    repeat apply conj.
    + intros Hnone. entity_missing Hnone.
    + intros Hsome Hf1. entity_found Hsome classroom_id. failed_check Hf1.
    + intros Hsome Hp1 Hf2. entity_found Hsome classroom_id.
      passed_check Hp1
        (fun v => set_classroom_row (Classroom.id row) (fun c => Classroom.with_name c v)).
      failed_lookup Hf2.
    + intros Hsome Hp1 Hp2 Hf3. entity_found Hsome classroom_id.
      passed_check Hp1
        (fun v => set_classroom_row (Classroom.id row) (fun c => Classroom.with_name c v)).
      passed_lookup Hp2
        (fun v => set_classroom_row (Classroom.id row)
                    (fun c => Classroom.with_building_id c (Some v))).
      failed_lookup Hf3.
    + intros Hsome Hp1 Hp2 Hp3 Hf4. entity_found Hsome classroom_id.
      passed_check Hp1
        (fun v => set_classroom_row (Classroom.id row) (fun c => Classroom.with_name c v)).
      passed_lookup Hp2
        (fun v => set_classroom_row (Classroom.id row)
                    (fun c => Classroom.with_building_id c (Some v))).
      passed_lookup Hp3
        (fun v => set_classroom_row (Classroom.id row)
                    (fun c => Classroom.with_department_id c (Some v))).
      failed_lookup Hf4.
  - intros st user_id new_first_name new_last_name new_department_id new_occupied_classroom_ids.
    cbv zeta. unfold UserService.update_user.
    repeat apply conj.
    + intros Hnone. entity_missing Hnone.
    + intros Hsome Hf1. entity_found Hsome user_id. failed_check Hf1.
    + intros Hsome Hp1 Hf2. entity_found Hsome user_id.
      passed_check Hp1 (fun v => set_user_row (User.id row) (fun u => User.with_first_name u v)).
      failed_check Hf2.
    + intros Hsome Hp1 Hp2 Hf3. entity_found Hsome user_id.
      passed_check Hp1 (fun v => set_user_row (User.id row) (fun u => User.with_first_name u v)).
      passed_check Hp2 (fun v => set_user_row (User.id row) (fun u => User.with_last_name u v)).
      failed_lookup Hf3.
    + intros Hsome Hp1 Hp2 Hp3 Hf4. entity_found Hsome user_id.
      passed_check Hp1 (fun v => set_user_row (User.id row) (fun u => User.with_first_name u v)).
      passed_check Hp2 (fun v => set_user_row (User.id row) (fun u => User.with_last_name u v)).
      passed_lookup Hp3
        (fun v => set_user_row (User.id row) (fun u => User.with_department_id u (Some v))).
      failed_resolve Hf4.
  - intros st request_id new_author_id new_classroom_id new_requesting_user_logins.
    cbv zeta. unfold RequestService.update_reservation_request.
    repeat apply conj.
    + intros Hnone. entity_missing Hnone.
    + intros Hsome Hf1. entity_found Hsome request_id. failed_lookup Hf1.
    + intros Hsome Hp1 Hf2. entity_found Hsome request_id.
      passed_lookup Hp1
        (fun v => set_request_row (Request.id row) (fun r => Request.with_author_id r (Some v))).
      failed_lookup Hf2.
    + intros Hsome Hp1 Hp2 Hf3. entity_found Hsome request_id.
      passed_lookup Hp1
        (fun v => set_request_row (Request.id row) (fun r => Request.with_author_id r (Some v))).
      passed_lookup Hp2
        (fun v => set_request_row (Request.id row)
                    (fun r => Request.with_classroom_id r (Some v))).
      failed_resolve Hf3.
  - repeat apply conj.
    + intros st building_id new_name new_address st' e Hrun.
      destruct (BuildingRepository.get_building_by_id st (Some building_id)) eqn:Hrow;
        [right | left; reflexivity].
      destruct (passes_or_fails new_name BuildingRepository.validate_name) as [P1|F1];
        [right | left; exact F1].
      destruct (passes_or_fails new_address BuildingRepository.validate_address)
        as [P2|F2]; [|exact F2].
      returns_not_raises
        (@update_building_returns st building_id new_name new_address
           ltac:(rewrite Hrow; discriminate) P1 P2) Hrun.
    + intros st department_id new_full_name new_code_name new_manager_id st' e Hrun.
      destruct (DepartmentRepository.get_department_by_id st (Some department_id)) eqn:Hrow;
        [right | left; reflexivity].
      destruct (passes_or_fails new_full_name DepartmentRepository.validate_full_name)
        as [P1|F1]; [right | left; exact F1].
      destruct (passes_or_fails new_code_name DepartmentRepository.validate_code_name)
        as [P2|F2]; [right | left; exact F2].
      destruct (passes_or_fails new_manager_id
                  (fun v => found (UserRepository.get_user_by_id st (Some v))))
        as [P3|F3]; [right | left; exact F3].
      assert (Hfree : (forall v, supplied new_manager_id = Some v ->
                                 manager_taken st department_id v = false)
                      \/ exists v, supplied new_manager_id = Some v
                                   /\ manager_taken st department_id v = true).
      { destruct (supplied new_manager_id) as [v|];
          [destruct (manager_taken st department_id v) eqn:Htaken|].
        - right. exists v. split; [reflexivity | exact Htaken].
        - left. intros v' Hv'. injection Hv' as <-. exact Htaken.
        - left. intros v' Hv'. discriminate Hv'. }
      destruct Hfree as [Hfree|Htaken]; [|exact Htaken].
      returns_not_raises
        (@update_department_returns st department_id new_full_name new_code_name
           new_manager_id ltac:(rewrite Hrow; discriminate) P1 P2 P3 Hfree) Hrun.
    + intros st classroom_id new_name new_building_id new_department_id new_manager_id
        new_is_private st' e Hrun.
      destruct (ClassroomRepository.get_classroom_by_id st (Some classroom_id)) eqn:Hrow;
        [right | left; reflexivity].
      destruct (passes_or_fails new_name ClassroomRepository.validate_name) as [P1|F1];
        [right | left; exact F1].
      destruct (passes_or_fails new_building_id
                  (fun v => found (BuildingRepository.get_building_by_id st (Some v))))
        as [P2|F2]; [right | left; exact F2].
      destruct (passes_or_fails new_department_id
                  (fun v => found (DepartmentRepository.get_department_by_id st (Some v))))
        as [P3|F3]; [right | left; exact F3].
      destruct (passes_or_fails new_manager_id
                  (fun v => found (UserRepository.get_user_by_id st (Some v))))
        as [P4|F4]; [|exact F4].
      returns_not_raises
        (@update_classroom_returns st classroom_id new_name new_building_id
           new_department_id new_manager_id new_is_private
           ltac:(rewrite Hrow; discriminate) P1 P2 P3 P4) Hrun.
    + intros st user_id new_first_name new_last_name new_department_id
        new_occupied_classroom_ids st' e Hrun.
      destruct (UserRepository.get_user_by_id st (Some user_id)) eqn:Hrow;
        [right | left; reflexivity].
      destruct (passes_or_fails new_first_name UserRepository.validate_name) as [P1|F1];
        [right | left; exact F1].
      destruct (passes_or_fails new_last_name UserRepository.validate_name) as [P2|F2];
        [right | left; exact F2].
      destruct (passes_or_fails new_department_id
                  (fun v => found (DepartmentRepository.get_department_by_id st (Some v))))
        as [P3|F3]; [right | left; exact F3].
      destruct (passes_or_fails new_occupied_classroom_ids
                  (forallb (fun id =>
                              found (ClassroomRepository.get_classroom_by_id st (Some id)))))
        as [P4|F4]; [|exact F4].
      returns_not_raises
        (@update_user_returns st user_id new_first_name new_last_name new_department_id
           new_occupied_classroom_ids ltac:(rewrite Hrow; discriminate) P1 P2 P3 P4) Hrun.
    + intros st request_id new_author_id new_classroom_id new_requesting_user_logins
        st' e Hrun.
      destruct (RequestRepository.get_request_by_id st (Some request_id)) eqn:Hrow;
        [right | left; reflexivity].
      destruct (passes_or_fails new_author_id
                  (fun v => found (UserRepository.get_user_by_id st (Some v))))
        as [P1|F1]; [right | left; exact F1].
      destruct (passes_or_fails new_classroom_id
                  (fun v => found (ClassroomRepository.get_classroom_by_id st (Some v))))
        as [P2|F2]; [right | left; exact F2].
      destruct (passes_or_fails new_requesting_user_logins
                  (forallb (fun login => found (UserRepository.get_user_by_login st login))))
        as [P3|F3]; [|exact F3].
      returns_not_raises
        (@update_reservation_request_returns st request_id new_author_id new_classroom_id
           new_requesting_user_logins ltac:(rewrite Hrow; discriminate) P1 P2 P3) Hrun.
  - intros st user_id user new_first_name new_department_id cids Huser Hvalid Hnz Hdept.
    pose proof (first_by_id_key _ _ _ Huser) as Hid. subst user_id.
    set (st1 := set_user_table st
                  (update_by_id User.id (User.id user)
                     (fun u => User.with_first_name u new_first_name) (user_table st))).
    exists st1. split.
    + unfold UserService.update_user.
      erewrite bind_run_Ok by (apply lookup_run_Some; exact Huser).
      rewrite when_supplied_truthy by exact (valid_length_is_truthy _ _ Hvalid).
      erewrite bind_run_Ok with (st1 := st1) (a := tt).
      2:{ rewrite Hvalid. reflexivity. }
      rewrite when_supplied_None, bind_ret.
      rewrite when_supplied_truthy by (apply truthy_int; exact Hnz).
      apply bind_run_Raise. apply bind_run_Raise. apply lookup_run_None. exact Hdept.
    + unfold UserRepository.get_user_by_id in *. unfold st1. simpl user_table.
      rewrite first_by_id_update_by_id by reflexivity.
      rewrite Huser. simpl. rewrite Z.eqb_refl. reflexivity.
Qed.

Lemma failed_update_keeps_earlier_fields_witness :
  UserService.update_user 1 (Some "Alicia") None (Some 99) None campus
  = (set_user_row 1 (fun u => User.with_first_name u "Alicia") campus,
     Raise (NotFoundError "department")).
Proof.
  apply (proj1 (proj2 (proj2 (proj2
           (proj1 (proj2 (proj2 (proj2 failed_update_keeps_earlier_fields)))
              campus 1 (Some "Alicia") None (Some 99) None))))).
  - discriminate.
  - intros v Hv. injection Hv as <-. reflexivity.
  - intros v Hv. discriminate Hv.
  - exists 99. split; reflexivity.
Defined.

(** C3 (as the specification has it) fails: the update raises on the
    department id after the new first name has been written. *)
Lemma update_user_writes_before_it_fails :
  exists st',
    UserService.update_user 1 (Some "Alicia") None (Some 99) None campus
    = (st', Raise (NotFoundError "department"))
    /\ option_map User.first_name (UserRepository.get_user_by_id campus (Some 1))
       = Some "Alice"
    /\ option_map User.first_name (UserRepository.get_user_by_id st' (Some 1))
       = Some "Alicia".
Proof.
  eexists. repeat split.
Qed.

End Updates.

(** ** More on the authorization resolver *)

Section Gates.
Import AuthenticationService.
Import UserRepository DepartmentRepository ClassroomRepository RequestRepository.

Lemma py_eq_column (column : option Z) (id : Z) :
  py_eq (py_int_or_none column) (PyInt id) = true <-> column = Some id.
Proof.
  destruct column as [m|]; simpl.
  - rewrite Z.eqb_eq. split; [intros ->; reflexivity | intros H; injection H; trivial].
  - split; discriminate.
Qed.

Lemma try_grant_outcome (attempt rest : result bool) :
  (forall e, attempt = Raise e -> is_ValueError e = true) ->
  grants_or_denies rest -> grants_or_denies (try_grant attempt rest).
Proof.
  intros Hval Hrest. unfold try_grant. destruct attempt as [[|]|e].
  - left. reflexivity.
  - exact Hrest.
  - rewrite (Hval e eq_refl). exact Hrest.
Qed.

Ltac raised_value_error :=
  intros ? ?;
  repeat match goal with
         | H : match ?x with _ => _ end = Raise _ |- _ => destruct x
         | H : (if ?x then _ else _) = Raise _ |- _ => destruct x
         | H : (let _ := _ in _) = Raise _ |- _ => cbv zeta in H
         | H : Raise _ = Raise _ |- _ => injection H as <-; reflexivity
         | H : Ok _ = Raise _ |- _ => discriminate H
         end.

Lemma is_user_admin_raises_ValueError st login e :
  is_user_admin st login = Raise e -> is_ValueError e = true.
Proof. revert e. unfold is_user_admin. raised_value_error. Qed.

Lemma is_user_manager_of_department_by_classroom_raises_ValueError st login id e :
  is_user_manager_of_department_by_classroom st login id = Raise e -> is_ValueError e = true.
Proof. revert e. unfold is_user_manager_of_department_by_classroom. raised_value_error. Qed.

Lemma is_user_manager_of_another_user_department_raises_ValueError st login id e :
  is_user_manager_of_another_user_department st login id = Raise e ->
  is_ValueError e = true.
Proof. revert e. unfold is_user_manager_of_another_user_department. raised_value_error. Qed.

Lemma is_user_classroom_manager_in_request_raises_ValueError st login id e :
  is_user_classroom_manager_in_request st login id = Raise e -> is_ValueError e = true.
Proof.
  revert e. unfold is_user_classroom_manager_in_request, is_user_classroom_manager.
  raised_value_error.
Qed.

Lemma is_user_department_manager_in_request_raises_ValueError st login id e :
  is_user_department_manager_in_request st login id = Raise e -> is_ValueError e = true.
Proof.
  revert e. unfold is_user_department_manager_in_request.
  intros e H.
  destruct (get_user_by_login st login); [|injection H as <-; reflexivity].
  destruct (get_request_by_id st id); [|injection H as <-; reflexivity].
  cbv zeta in H.
  destruct (get_classroom_by_id st _); [|injection H as <-; reflexivity].
  exact (is_user_manager_of_department_by_classroom_raises_ValueError _ _ _ H).
Qed.

(** The checks that a route calls for their exception only (the returned
    value is dropped) return [True] or raise: none of them returns [False],
    and the three composite checks raise nothing but the denial. *)
Theorem route_gates_return_true_or_raise st login (classroom_id user_id request_id : option Z) :
  is_user_authenticated st login <> Ok false
  /\ is_user_admin st login <> Ok false
  /\ grants_or_denies
       (is_user_admin_or_manager_of_department_by_classroom st login classroom_id)
  /\ grants_or_denies
       (is_user_admin_or_manager_of_another_user_department st login user_id)
  /\ grants_or_denies (is_user_admin_or_manager_in_request st login request_id).
Proof.
  split; [|split; [|split; [|split]]].
  - unfold is_user_authenticated. destruct (get_user_by_login st login); discriminate.
  - unfold is_user_admin. destruct (get_user_by_login st login) as [u|]; [|discriminate].
    destruct (negb (User.is_admin u)); discriminate.
  - apply try_grant_outcome; [apply is_user_admin_raises_ValueError|].
    apply try_grant_outcome;
      [apply is_user_manager_of_department_by_classroom_raises_ValueError|].
    right. reflexivity.
  - apply try_grant_outcome; [apply is_user_admin_raises_ValueError|].
    apply try_grant_outcome;
      [apply is_user_manager_of_another_user_department_raises_ValueError|].
    right. reflexivity.
  - apply try_grant_outcome; [apply is_user_admin_raises_ValueError|].
    apply try_grant_outcome; [apply is_user_classroom_manager_in_request_raises_ValueError|].
    apply try_grant_outcome; [apply is_user_department_manager_in_request_raises_ValueError|].
    right. reflexivity.
Qed.

(** An administrator passes the three composite checks whatever the target
    id is, also when it names nothing. *)
Theorem administrator_passes_every_gate st login (user : User.t) (id : option Z) :
  get_user_by_login st login = Some user ->
  User.is_admin user = true ->
  is_user_admin_or_manager_of_department_by_classroom st login id = Ok true
  /\ is_user_admin_or_manager_of_another_user_department st login id = Ok true
  /\ is_user_admin_or_manager_in_request st login id = Ok true.
Proof.
  intros Hu Hadm.
  unfold is_user_admin_or_manager_of_department_by_classroom,
    is_user_admin_or_manager_of_another_user_department,
    is_user_admin_or_manager_in_request, is_user_admin.
  rewrite Hu, Hadm. repeat split.
Qed.

Lemma administrator_passes_every_gate_witness :
  is_user_admin_or_manager_of_department_by_classroom campus "root" (Some 77) = Ok true
  /\ is_user_admin_or_manager_of_another_user_department campus "root" (Some 77) = Ok true
  /\ is_user_admin_or_manager_in_request campus "root" (Some 77) = Ok true.
Proof.
  apply (@administrator_passes_every_gate campus "root" root (Some 77)); reflexivity.
Defined.

(** A login that names no user is denied by the three composite checks with
    the one generic denial: the message of the failed lookup is dropped. *)
Theorem unknown_login_is_denied st login (id : option Z) :
  get_user_by_login st login = None ->
  is_user_admin_or_manager_of_department_by_classroom st login id = Raise AccessDeniedError
  /\ is_user_admin_or_manager_of_another_user_department st login id
     = Raise AccessDeniedError
  /\ is_user_admin_or_manager_in_request st login id = Raise AccessDeniedError.
Proof.
  intros Hu.
  unfold is_user_admin_or_manager_of_department_by_classroom,
    is_user_admin_or_manager_of_another_user_department,
    is_user_admin_or_manager_in_request, is_user_admin,
    is_user_manager_of_department_by_classroom,
    is_user_manager_of_another_user_department,
    is_user_classroom_manager_in_request, is_user_department_manager_in_request.
  rewrite Hu. repeat split.
Qed.

Lemma unknown_login_is_denied_witness :
  is_user_admin_or_manager_of_department_by_classroom campus "mallory" (Some 1)
  = Raise AccessDeniedError
  /\ is_user_admin_or_manager_of_another_user_department campus "mallory" (Some 1)
     = Raise AccessDeniedError
  /\ is_user_admin_or_manager_in_request campus "mallory" (Some 1) = Raise AccessDeniedError.
Proof.
  apply (@unknown_login_is_denied campus "mallory" (Some 1)). reflexivity.
Defined.

(** For a caller who is not an administrator, the classroom gate is passed
    exactly when the classroom exists, its department exists and that
    department's [manager_id] is the caller's id; the user gate exactly when
    the target user exists, the target's department exists and its
    [manager_id] is the caller's id. *)
Theorem department_manager_gates_characterised st login (caller : User.t)
    (classroom_id user_id : option Z) :
  get_user_by_login st login = Some caller ->
  User.is_admin caller = false ->
  (is_user_admin_or_manager_of_department_by_classroom st login classroom_id = Ok true
   <-> exists classroom department,
         get_classroom_by_id st classroom_id = Some classroom
         /\ get_department_by_id st (Classroom.department_id classroom) = Some department
         /\ Department.manager_id department = Some (User.id caller))
  /\ (is_user_admin_or_manager_of_another_user_department st login user_id = Ok true
      <-> exists target department,
            get_user_by_id st user_id = Some target
            /\ get_department_by_id st (User.department_id target) = Some department
            /\ Department.manager_id department = Some (User.id caller)).
Proof.
  intros Hu Hadm.
  unfold is_user_admin_or_manager_of_department_by_classroom,
    is_user_admin_or_manager_of_another_user_department, is_user_admin,
    is_user_manager_of_department_by_classroom,
    is_user_manager_of_another_user_department.
  rewrite Hu, Hadm. simpl. split.
  - destruct (get_classroom_by_id st classroom_id) as [classroom|] eqn:Hc; simpl.
    2:{ split; [discriminate | intros (c & d & H & _); discriminate H]. }
    destruct (get_department_by_id st (Classroom.department_id classroom))
      as [department|] eqn:Hd; simpl.
    2:{ split; [discriminate | intros (c & d & H & H' & _)].
        injection H as <-. rewrite Hd in H'. discriminate H'. }
    destruct (py_eq _ _) eqn:E; simpl.
    + split; [intros _ | reflexivity].
      exists classroom, department. repeat split; try assumption.
      apply py_eq_column. exact E.
    + split; [discriminate | intros (c & d & H & H' & Hm)].
      injection H as <-. rewrite Hd in H'. injection H' as <-.
      apply py_eq_column in Hm. congruence.
  - destruct (get_user_by_id st user_id) as [target|] eqn:Ht; simpl.
    2:{ split; [discriminate | intros (c & d & H & _); discriminate H]. }
    destruct (get_department_by_id st (User.department_id target))
      as [department|] eqn:Hd; simpl.
    2:{ split; [discriminate | intros (c & d & H & H' & _)].
        injection H as <-. rewrite Hd in H'. discriminate H'. }
    destruct (py_eq _ _) eqn:E; simpl.
    + split; [intros _ | reflexivity].
      exists target, department. repeat split; try assumption.
      apply py_eq_column. exact E.
    + split; [discriminate | intros (c & d & H & H' & Hm)].
      injection H as <-. rewrite Hd in H'. injection H' as <-.
      apply py_eq_column in Hm. congruence.
Qed.

Lemma department_manager_gates_characterised_witness :
  is_user_admin_or_manager_of_department_by_classroom campus "alice" (Some 1) = Ok true
  /\ is_user_admin_or_manager_of_another_user_department campus "alice" (Some 2) = Ok true.
Proof.
  destruct (@department_manager_gates_characterised campus "alice" alice (Some 1) (Some 2)
              eq_refl eq_refl) as [Hroom Huser].
  split.
  - apply Hroom. exists a101, mathematics. repeat split.
  - apply Huser. exists bob, mathematics. repeat split.
Defined.

(** For a caller who is not an administrator, the request gate is passed
    exactly when the request and its classroom exist, a classroom exists
    whose id is the department id of that classroom, and the department of
    this second classroom has the caller's id as [manager_id]. *)
Theorem request_gate_characterised st login (caller : User.t) (request_id : option Z) :
  get_user_by_login st login = Some caller ->
  User.is_admin caller = false ->
  (is_user_admin_or_manager_in_request st login request_id = Ok true
   <-> exists request classroom reached department,
         get_request_by_id st request_id = Some request
         /\ get_classroom_by_id st (Request.classroom_id request) = Some classroom
         /\ get_classroom_by_id st (Classroom.department_id classroom) = Some reached
         /\ get_department_by_id st (Classroom.department_id reached) = Some department
         /\ Department.manager_id department = Some (User.id caller)).
Proof.
  intros Hu Hadm.
  unfold is_user_admin_or_manager_in_request, is_user_admin,
    is_user_classroom_manager_in_request, is_user_classroom_manager,
    is_user_department_manager_in_request, is_user_manager_of_department_by_classroom.
  rewrite Hu, Hadm. simpl.
  destruct (get_request_by_id st request_id) as [request|] eqn:Hq; simpl.
  2:{ split; [discriminate | intros (r & c & c' & d & H & _); discriminate H]. }
  rewrite int_not_in_objects. simpl.
  destruct (get_classroom_by_id st (Request.classroom_id request)) as [classroom|] eqn:Hc;
    simpl.
  2:{ split; [discriminate | intros (r & c & c' & d & H & H' & _)].
      injection H as <-. rewrite Hc in H'. discriminate H'. }
  destruct (get_classroom_by_id st (Classroom.department_id classroom)) as [reached|] eqn:Hr;
    simpl.
  2:{ split; [discriminate | intros (r & c & c' & d & H & H' & H'' & _)].
      injection H as <-. rewrite Hc in H'. injection H' as <-.
      rewrite Hr in H''. discriminate H''. }
  destruct (get_department_by_id st (Classroom.department_id reached)) as [department|] eqn:Hd;
    simpl.
  2:{ split; [discriminate | intros (r & c & c' & d & H & H' & H'' & H3 & _)].
      injection H as <-. rewrite Hc in H'. injection H' as <-.
      rewrite Hr in H''. injection H'' as <-.
      rewrite Hd in H3. discriminate H3. }
  destruct (py_eq _ _) eqn:E; simpl.
  - split; [intros _ | reflexivity].
    exists request, classroom, reached, department. repeat split; try assumption.
    apply py_eq_column. exact E.
  - split; [discriminate | intros (r & c & c' & d & H & H' & H'' & H3 & Hm)].
    injection H as <-. rewrite Hc in H'. injection H' as <-.
    rewrite Hr in H''. injection H'' as <-.
    rewrite Hd in H3. injection H3 as <-.
    apply py_eq_column in Hm. congruence.
Qed.

Lemma request_gate_characterised_witness :
  is_user_admin_or_manager_in_request campus_two_rooms "bob" (Some 1) = Ok true.
Proof.
  apply (proj2 (@request_gate_characterised campus_two_rooms "bob" bob (Some 1)
                  eq_refl eq_refl)).
  exists seminar, a101, b202, (Department.with_manager_id physics (Some 2)).
  repeat split.
Defined.

End Gates.

(** ** Resolving a list of references *)

Section ResolveAll.
Context {A B : Type} (f : Store -> A -> option B) (e : A -> error).

Lemma resolve_all_Ok (xs : list A) st st' (vs : list B) :
  resolve_all f e xs st = (st', Ok vs) ->
  st' = st /\ Forall2 (fun x v => f st x = Some v) xs vs.
Proof.
  revert st' vs. induction xs as [|x xs IH]; simpl; intros st' vs H.
  - injection H as <- <-. split; [reflexivity | constructor].
  - unfold bind, query in H. destruct (f st x) as [v|] eqn:Hx; [|discriminate H].
    destruct (resolve_all f e xs st) as [st1 [ws|err]] eqn:Hrest; [|discriminate H].
    destruct (IH st1 ws eq_refl) as [-> Hall]. injection H as <- <-.
    split; [reflexivity | constructor; assumption].
Qed.

Lemma resolve_all_Raise (xs : list A) st st' (err : error) :
  resolve_all f e xs st = (st', Raise err) ->
  st' = st /\ exists x, In x xs /\ f st x = None /\ err = e x.
Proof.
  revert st' err. induction xs as [|x xs IH]; simpl; intros st' err H; [discriminate H|].
  unfold bind, query in H. destruct (f st x) as [v|] eqn:Hx.
  - destruct (resolve_all f e xs st) as [st1 [ws|err1]] eqn:Hrest; [discriminate H|].
    injection H as <- <-. destruct (IH st1 err1 eq_refl) as (-> & y & Hin & Hy & Herr).
    split; [reflexivity|]. exists y. auto.
  - injection H as <- <-. split; [reflexivity|]. exists x. auto.
Qed.

End ResolveAll.

(** ** Creation *)

Section Creation.

Lemma conflict_guard_reads {A} (pk : A -> Z) (first second : option A) :
  keeps (fun st => st)
        (match first, second with
         | Some a, Some b => check (negb (pk a =? pk b)) ConflictError
         | _, _ => ret tt
         end).
Proof.
  destruct first, second; try apply keeps_ret. apply keeps_check.
Qed.

Lemma create_building_atomic name address :
  atomic (BuildingService.create_building name address).
Proof.
  unfold BuildingService.create_building.
  repeat (apply atomic_bind_keeps; [solve [keeps_steps] | intros ?]).
  apply atomic_bind_keeps; [apply conflict_guard_reads | intros ?].
  intros st st' e H. discriminate H.
Qed.

Lemma create_department_atomic full_name code_name :
  atomic (DepartmentService.create_department full_name code_name).
Proof.
  unfold DepartmentService.create_department.
  repeat (apply atomic_bind_keeps; [solve [keeps_steps] | intros ?]).
  apply atomic_bind_keeps; [apply conflict_guard_reads | intros ?].
  intros st st' e H. discriminate H.
Qed.

Lemma create_classroom_atomic name floor is_private :
  atomic (ClassroomService.create_classroom name floor is_private).
Proof.
  unfold ClassroomService.create_classroom.
  apply atomic_bind_keeps; [solve [keeps_steps] | intros ?].
  intros st st' e H. discriminate H.
Qed.

Lemma create_user_atomic now first_name last_name login is_admin :
  atomic (UserService.create_user now first_name last_name login is_admin).
Proof.
  unfold UserService.create_user.
  repeat (apply atomic_bind_keeps; [solve [keeps_steps] | intros ?]).
  apply atomic_bind_keeps; [|intros ?].
  - match goal with |- keeps _ (match ?x with _ => _ end) => destruct x end;
      [apply keeps_raise | apply keeps_ret].
  - intros st st' e H. discriminate H.
Qed.

Lemma create_reservation_request_atomic now start_date end_date author_id classroom_id
    requesting_user_logins :
  atomic (RequestService.create_reservation_request now start_date end_date author_id
            classroom_id requesting_user_logins).
Proof.
  unfold RequestService.create_reservation_request.
  repeat (apply atomic_bind_keeps; [solve [keeps_steps] | intros ?]).
  intros st st' e H. discriminate H.
Qed.

(** A creation that raises has written nothing: every check of the five
    creating operations comes before their single insertion. *)
Theorem creation_writes_nothing_when_it_fails :
  (forall name address, atomic (BuildingService.create_building name address))
  /\ (forall full_name code_name,
        atomic (DepartmentService.create_department full_name code_name))
  /\ (forall name floor is_private,
        atomic (ClassroomService.create_classroom name floor is_private))
  /\ (forall now first_name last_name login is_admin,
        atomic (UserService.create_user now first_name last_name login is_admin))
  /\ (forall now start_date end_date author_id classroom_id requesting_user_logins,
        atomic (RequestService.create_reservation_request now start_date end_date
                  author_id classroom_id requesting_user_logins)).
Proof.
  split; [exact create_building_atomic|].
  split; [exact create_department_atomic|].
  split; [exact create_classroom_atomic|].
  split; [exact create_user_atomic|].
  exact create_reservation_request_atomic.
Qed.

Lemma inserted_row_is_live {A} (pk : A -> Z) (table : list A) (row : A) :
  pk row = next_id pk table ->
  first_by_id pk (Some (pk row)) (table ++ [row]) = Some row
  /\ live pk (table ++ [row]) row = row.
Proof.
  intros Hpk.
  assert (H : first_by_id pk (Some (pk row)) (table ++ [row]) = Some row).
  { rewrite first_by_id_insert by (rewrite Hpk; apply first_by_id_fresh).
    rewrite Z.eqb_refl. reflexivity. }
  split; [exact H | apply live_found; exact H].
Qed.

Lemma create_building_Ok st name address st' out :
  BuildingService.create_building name address st = (st', Ok out) ->
  let new_building := Building.mk (next_id Building.id (building_table st)) name address in
  st' = set_building_table st (building_table st ++ [new_building])
  /\ out = BuildingRepository.serialize_building st' new_building
  /\ BuildingRepository.validate_name name = true
  /\ BuildingRepository.validate_address address = true.
Proof.
  unfold BuildingService.create_building. intros H.
  apply bind_Ok in H as (st1 & [] & H1 & H). apply check_Ok in H1 as [-> Hname].
  apply bind_Ok in H as (st1 & [] & H1 & H). apply check_Ok in H1 as [-> Haddress].
  apply bind_Ok in H as (st1 & by_name & H1 & H). injection H1 as <- <-; try clear H1.
  apply bind_Ok in H as (st1 & by_address & H1 & H). injection H1 as <- <-; try clear H1.
  apply bind_Ok in H as (st1 & [] & H1 & H).
  pose proof (conflict_guard_reads Building.id
                (BuildingRepository.get_building_by_name st name)
                (BuildingRepository.get_building_by_address st address) st) as Hst.
  rewrite H1 in Hst. simpl in Hst. subst st1. clear H1.
  apply bind_Ok in H as (st1 & building & H1 & H).
  unfold BuildingRepository.create_building in H1. injection H1 as <- <-; try clear H1.
  injection H as <- <-. repeat split; assumption.
Qed.

Lemma create_department_Ok st full_name code_name st' out :
  DepartmentService.create_department full_name code_name st = (st', Ok out) ->
  let new_department :=
    Department.mk (next_id Department.id (department_table st)) full_name code_name None in
  st' = set_department_table st (department_table st ++ [new_department])
  /\ out = DepartmentRepository.serialize_department st' new_department
  /\ DepartmentRepository.validate_full_name full_name = true
  /\ DepartmentRepository.validate_code_name code_name = true.
Proof.
  unfold DepartmentService.create_department. intros H.
  apply bind_Ok in H as (st1 & [] & H1 & H). apply check_Ok in H1 as [-> Hname].
  apply bind_Ok in H as (st1 & [] & H1 & H). apply check_Ok in H1 as [-> Hcode].
  apply bind_Ok in H as (st1 & by_name & H1 & H). injection H1 as <- <-; try clear H1.
  apply bind_Ok in H as (st1 & by_address & H1 & H). injection H1 as <- <-; try clear H1.
  apply bind_Ok in H as (st1 & [] & H1 & H).
  pose proof (conflict_guard_reads Department.id
                (DepartmentRepository.get_department_by_full_name st full_name)
                (DepartmentRepository.get_department_by_code_name st code_name) st) as Hst.
  rewrite H1 in Hst. simpl in Hst. subst st1. clear H1.
  apply bind_Ok in H as (st1 & department & H1 & H).
  unfold DepartmentRepository.create_department in H1. injection H1 as <- <-; try clear H1.
  injection H as <- <-. repeat split; assumption.
Qed.

Lemma create_classroom_Ok st name floor is_private st' out :
  ClassroomService.create_classroom name floor is_private st = (st', Ok out) ->
  let new_classroom :=
    Classroom.mk (next_id Classroom.id (classroom_table st)) name floor is_private
                 None None None in
  st' = set_classroom_table st (classroom_table st ++ [new_classroom])
  /\ out = ClassroomRepository.serialize_classroom st' new_classroom
  /\ ClassroomRepository.validate_name name = true.
Proof.
  unfold ClassroomService.create_classroom. intros H.
  apply bind_Ok in H as (st1 & [] & H1 & H). apply check_Ok in H1 as [-> Hname].
  apply bind_Ok in H as (st1 & classroom & H1 & H).
  unfold ClassroomRepository.create_classroom in H1. injection H1 as <- <-; try clear H1.
  injection H as <- <-. repeat split; assumption.
Qed.

Lemma create_user_Ok st now first_name last_name login is_admin st' out :
  UserService.create_user now first_name last_name login is_admin st = (st', Ok out) ->
  let new_user :=
    User.mk (next_id User.id (user_table st)) first_name last_name login now is_admin None in
  st' = set_user_table st (user_table st ++ [new_user])
  /\ out = UserRepository.serialize_user st' new_user
  /\ UserRepository.get_user_by_login st login = None
  /\ UserRepository.validate_login login = true.
Proof.
  unfold UserService.create_user. intros H.
  apply bind_Ok in H as (st1 & [] & H1 & H). apply check_Ok in H1 as [-> _].
  apply bind_Ok in H as (st1 & [] & H1 & H). apply check_Ok in H1 as [-> _].
  apply bind_Ok in H as (st1 & [] & H1 & H). apply check_Ok in H1 as [-> Hvalid].
  apply bind_Ok in H as (st1 & existing & H1 & H). injection H1 as <- <-; try clear H1.
  apply bind_Ok in H as (st1 & [] & H1 & H).
  destruct (UserRepository.get_user_by_login st login) eqn:Hlogin; [discriminate H1|].
  injection H1 as <-; try clear H1.
  apply bind_Ok in H as (st1 & user & H1 & H).
  unfold UserRepository.create_user in H1. injection H1 as <- <-; try clear H1.
  injection H as <- <-. repeat split. exact Hvalid.
Qed.

Lemma create_reservation_request_Ok st now start_date end_date author_id classroom_id
    requesting_user_logins st' out :
  RequestService.create_reservation_request now start_date end_date author_id classroom_id
    requesting_user_logins st = (st', Ok out) ->
  exists author classroom users,
    UserRepository.get_user_by_id st (Some author_id) = Some author
    /\ ClassroomRepository.get_classroom_by_id st (Some classroom_id) = Some classroom
    /\ Forall2 (fun login user => UserRepository.get_user_by_login st login = Some user)
               requesting_user_logins users
    /\ let id := next_id Request.id (request_table st) in
       let stored :=
         Request.mk id start_date end_date now false (Some (User.id author))
                    (Some (Classroom.id classroom)) in
       let other_pairs :=
         filter (fun p => negb (snd p =? id)) (user_request_association st) in
       request_table st' = (request_table st ++ [stored])%list
       /\ user_request_association st'
          = (other_pairs ++ map (fun u => (User.id u, id)) users)%list
       /\ user_table st' = user_table st
       /\ classroom_table st' = classroom_table st
       /\ out = RequestRepository.serialize_request st' stored.
Proof.
  unfold RequestService.create_reservation_request. intros H.
  apply bind_Ok in H as (st1 & [] & H1 & H). apply check_Ok in H1 as [-> _].
  apply bind_Ok in H as (st1 & author & H1 & H). apply lookup_Ok in H1 as [-> Ha].
  apply bind_Ok in H as (st1 & classroom & H1 & H). apply lookup_Ok in H1 as [-> Hc].
  apply bind_Ok in H as (st1 & users & H1 & H).
  apply resolve_all_Ok in H1 as [-> Hu].
  exists author, classroom, users. repeat (split; [assumption|]).
  cbv beta iota delta [bind commit ret query RequestRepository.create_request
    RequestRepository.update_request_author RequestRepository.update_request_classroom
    RequestRepository.update_requesting_users request_model.set_author
    request_model.set_classroom request_model.set_requesting_users] in H.
  injection H as <- <-.
  set (id := next_id Request.id (request_table st)).
  set (new := Request.mk id start_date end_date now false None None).
  assert (Htable :
            update_by_id Request.id id
              (fun r => Request.with_classroom_id r (Some (Classroom.id classroom)))
              (update_by_id Request.id id
                 (fun r => Request.with_author_id r (Some (User.id author)))
                 (request_table st ++ [new]))
            = (request_table st
               ++ [Request.mk id start_date end_date now false (Some (User.id author))
                              (Some (Classroom.id classroom))])%list).
  { unfold update_by_id. rewrite map_map, map_app. simpl.
    change (Request.id new) with id. rewrite Z.eqb_refl. simpl. rewrite Z.eqb_refl.
    f_equal. rewrite <- (map_id (request_table st)) at 2. apply map_ext_in.
    intros r Hin. destruct (Request.id r =? id) eqn:E; [|rewrite E; reflexivity].
    exfalso. apply Z.eqb_eq in E.
    pose proof (first_by_id_fresh Request.id (request_table st)) as Hfresh.
    simpl in Hfresh. fold id in Hfresh.
    apply (find_none _ _ Hfresh) in Hin. rewrite E, Z.eqb_refl in Hin. discriminate Hin. }
  cbv zeta. unfold RequestRepository.serialize_request.
  cbn [request_table user_request_association user_table classroom_table
       set_request_table set_user_request_association].
  rewrite Htable. repeat split.
  set (stored := Request.mk id start_date end_date now false (Some (User.id author))
                            (Some (Classroom.id classroom))).
  destruct (inserted_row_is_live Request.id (request_table st) stored eq_refl) as [Hf Hl].
  rewrite Hl.
  rewrite (@live_found _ Request.id _ new stored Hf). reflexivity.
Qed.

(** The serialization returned by a creation is the one that a find by the
    new id returns right after it, for the five entities. *)
Theorem created_entity_is_found :
  (forall st name address st' out,
     BuildingService.create_building name address st = (st', Ok out) ->
     BuildingService.find_building (Building.s_id out) st' = (st', Ok out))
  /\ (forall st full_name code_name st' out,
        DepartmentService.create_department full_name code_name st = (st', Ok out) ->
        DepartmentService.find_department (Department.s_id out) st' = (st', Ok out))
  /\ (forall st name floor is_private st' out,
        ClassroomService.create_classroom name floor is_private st = (st', Ok out) ->
        ClassroomService.find_classroom (Classroom.s_id out) st' = (st', Ok out))
  /\ (forall st now first_name last_name login is_admin st' out,
        UserService.create_user now first_name last_name login is_admin st = (st', Ok out) ->
        UserService.find_user (User.s_id out) st' = (st', Ok out))
  /\ (forall st now start_date end_date author_id classroom_id logins st' out,
        RequestService.create_reservation_request now start_date end_date author_id
          classroom_id logins st = (st', Ok out) ->
        RequestService.find_request (Request.s_id out) st' = (st', Ok out)).
Proof.
  split; [|split; [|split; [|split]]].
  - intros st name address st' out H.
    apply create_building_Ok in H. cbv zeta in H. destruct H as (-> & -> & _).
    set (new := Building.mk _ name address).
    destruct (inserted_row_is_live Building.id (building_table st) new eq_refl) as [Hf Hl].
    unfold BuildingService.find_building, BuildingRepository.serialize_building at 1.
    cbn [building_table set_building_table]. rewrite Hl. cbn [Building.s_id].
    erewrite bind_run_Ok by (apply lookup_run_Some; exact Hf). reflexivity.
  - intros st full_name code_name st' out H.
    apply create_department_Ok in H. cbv zeta in H. destruct H as (-> & -> & _).
    set (new := Department.mk _ full_name code_name None).
    destruct (inserted_row_is_live Department.id (department_table st) new eq_refl)
      as [Hf Hl].
    unfold DepartmentService.find_department,
      DepartmentRepository.serialize_department at 1.
    cbn [department_table set_department_table]. rewrite Hl. cbn [Department.s_id].
    erewrite bind_run_Ok by (apply lookup_run_Some; exact Hf). reflexivity.
  - intros st name floor is_private st' out H.
    apply create_classroom_Ok in H. cbv zeta in H. destruct H as (-> & -> & _).
    set (new := Classroom.mk _ name floor is_private None None None).
    destruct (inserted_row_is_live Classroom.id (classroom_table st) new eq_refl)
      as [Hf Hl].
    unfold ClassroomService.find_classroom, ClassroomRepository.serialize_classroom at 1.
    cbn [classroom_table set_classroom_table]. rewrite Hl. cbn [Classroom.s_id].
    erewrite bind_run_Ok by (apply lookup_run_Some; exact Hf). reflexivity.
  - intros st now first_name last_name login is_admin st' out H.
    apply create_user_Ok in H. cbv zeta in H. destruct H as (-> & -> & _).
    set (new := User.mk _ first_name last_name login now is_admin None).
    destruct (inserted_row_is_live User.id (user_table st) new eq_refl) as [Hf Hl].
    unfold UserService.find_user, UserRepository.serialize_user at 1.
    cbn [user_table set_user_table]. rewrite Hl. cbn [User.s_id].
    erewrite bind_run_Ok by (apply lookup_run_Some; exact Hf). reflexivity.
  - intros st now start_date end_date author_id classroom_id logins st' out H.
    apply create_reservation_request_Ok in H.
    destruct H as (author & classroom & users & _ & _ & _ & H). cbv zeta in H.
    destruct H as (Htable & _ & _ & _ & ->).
    set (stored := Request.mk _ start_date end_date now false _ _) in *.
    destruct (inserted_row_is_live Request.id (request_table st) stored eq_refl)
      as [Hf Hl].
    rewrite <- Htable in Hf, Hl.
    unfold RequestService.find_request, RequestRepository.serialize_request at 1.
    rewrite Hl. cbn [Request.s_id].
    erewrite bind_run_Ok by (apply lookup_run_Some; exact Hf). reflexivity.
Qed.

Lemma created_entity_is_found_witness :
  exists st' out,
    BuildingService.create_building "Library" "3 Park Lane" campus = (st', Ok out)
    /\ BuildingService.find_building (Building.s_id out) st' = (st', Ok out).
Proof.
  eexists. eexists. split; [reflexivity|].
  apply (proj1 created_entity_is_found campus "Library" "3 Park Lane"). reflexivity.
Defined.

End Creation.

(** ** Unique keys *)

Section Uniqueness.

Lemma find_app_none {A} (p : A -> bool) (l1 l2 : list A) :
  find p l1 = None -> find p (l1 ++ l2) = find p l2.
Proof.
  induction l1 as [|x l1 IH]; simpl; [reflexivity|].
  destruct (p x); [discriminate | exact IH].
Qed.

Lemma find_app_some {A} (p : A -> bool) (l1 l2 : list A) (x : A) :
  find p l1 = Some x -> find p (l1 ++ l2) = Some x.
Proof.
  induction l1 as [|y l1 IH]; simpl; [discriminate|].
  destruct (p y); [trivial | exact IH].
Qed.

Lemma find_none_iff {A} (p : A -> bool) (l : list A) :
  (forall x, In x l -> p x = false) -> find p l = None.
Proof.
  induction l as [|y l IH]; simpl; intros H; [reflexivity|].
  rewrite (H y (or_introl eq_refl)). apply IH. intros x Hx. apply H. right. exact Hx.
Qed.

Lemma NoDup_snoc {A} (l : list A) (x : A) :
  NoDup l -> ~ In x l -> NoDup (l ++ [x]).
Proof.
  induction l as [|y l IH]; simpl; intros Hnd Hx.
  - constructor; [intros [] | constructor].
  - inversion Hnd as [|? ? Hy Hl]; subst. constructor.
    + rewrite in_app_iff. simpl. intros [H|[H|[]]]; [contradiction|].
      apply Hx. left. symmetry. exact H.
    + apply IH; [exact Hl|]. intros H. apply Hx. right. exact H.
Qed.

(** Once a user is created, the login is taken: the login authenticates,
    and a later creation with the same login fails with the conflict error
    and writes nothing, whatever the names and the admin flag are. *)
Theorem created_login_is_taken st now first_name last_name login is_admin st' out :
  UserService.create_user now first_name last_name login is_admin st = (st', Ok out) ->
  AuthenticationService.is_user_authenticated st' login = Ok true
  /\ forall now' first_name' last_name' is_admin',
       UserRepository.validate_name first_name' = true ->
       UserRepository.validate_name last_name' = true ->
       UserService.create_user now' first_name' last_name' login is_admin' st'
       = (st', Raise ConflictError).
Proof.
  intros H. apply create_user_Ok in H. cbv zeta in H.
  destruct H as (-> & _ & Hfree & Hvalid).
  set (new := User.mk _ first_name last_name login now is_admin None).
  assert (Hfound : UserRepository.get_user_by_login
                     (set_user_table st (user_table st ++ [new])) login = Some new).
  { unfold UserRepository.get_user_by_login in *. cbn [user_table set_user_table].
    rewrite find_app_none by exact Hfree. simpl. rewrite String.eqb_refl. reflexivity. }
  split.
  - unfold AuthenticationService.is_user_authenticated. rewrite Hfound. reflexivity.
  - intros now' first_name' last_name' is_admin' Hf Hl.
    unfold UserService.create_user. rewrite Hf, Hl, Hvalid. cbn [check].
    rewrite !bind_ret. cbv beta iota delta [bind query]. rewrite Hfound. reflexivity.
Qed.

Lemma created_login_is_taken_witness :
  exists st' out,
    UserService.create_user 500 "Carol" "Jones" "carol" false campus = (st', Ok out)
    /\ AuthenticationService.is_user_authenticated st' "carol" = Ok true
    /\ UserService.create_user 501 "Caroline" "Smith" "carol" true st'
       = (st', Raise ConflictError).
Proof.
  eexists. eexists. split; [reflexivity|].
  destruct (@created_login_is_taken campus 500 "Carol" "Jones" "carol" false _ _ eq_refl)
    as [Hauth Hagain].
  split; [exact Hauth | apply Hagain; reflexivity].
Defined.

(** Logins stay unique: when no two users share a login, none do after
    [create_user] or [update_user], whether the call returns or raises. *)
Theorem logins_stay_unique st :
  NoDup (map User.login (user_table st)) ->
  (forall now first_name last_name login is_admin,
     NoDup (map User.login
              (user_table (fst (UserService.create_user now first_name last_name login
                                  is_admin st)))))
  /\ (forall user_id new_first_name new_last_name new_department_id
             new_occupied_classroom_ids,
        NoDup (map User.login
                 (user_table (fst (UserService.update_user user_id new_first_name
                                     new_last_name new_department_id
                                     new_occupied_classroom_ids st))))).
Proof.
  intros Hnd. split.
  - intros now first_name last_name login is_admin.
    destruct (UserService.create_user now first_name last_name login is_admin st)
      as [st' [out|e]] eqn:H; simpl.
    + apply create_user_Ok in H. cbv zeta in H. destruct H as (-> & _ & Hfree & _).
      cbn [user_table set_user_table]. rewrite map_app. simpl.
      apply NoDup_snoc; [exact Hnd|].
      intros Hin. apply in_map_iff in Hin. destruct Hin as (u & Hlogin & Hu).
      unfold UserRepository.get_user_by_login in Hfree.
      apply (find_none _ _ Hfree) in Hu. rewrite Hlogin, String.eqb_refl in Hu.
      discriminate Hu.
    + rewrite (@create_user_atomic _ _ _ _ _ _ _ _ H). exact Hnd.
  - intros user_id new_first_name new_last_name new_department_id
      new_occupied_classroom_ids.
    assert (K : keeps (fun st => map User.login (user_table st))
                  (UserService.update_user user_id new_first_name new_last_name
                     new_department_id new_occupied_classroom_ids)).
    { unfold UserService.update_user, UserRepository.update_user_occupied_classrooms.
      keeps_steps; apply keeps_commit; intros s; cbn [user_table set_user_table
        set_user_occupied_classroom_association]; try reflexivity;
        apply map_update_by_id; reflexivity. }
    rewrite (K st). exact Hnd.
Qed.

Lemma logins_stay_unique_witness :
  NoDup (map User.login
           (user_table (fst (UserService.create_user 500 "Carol" "Jones" "carol" false
                               campus)))).
Proof.
  apply (proj1 (@logins_stay_unique campus
                  ltac:(repeat constructor; simpl; intuition discriminate))).
Defined.

Lemma create_building_new_pair_succeeds_witness :
  exists st' out,
    BuildingService.create_building "Main Hall" "5 Mill Lane" campus = (st', Ok out)
    /\ Building.s_name out = "Main Hall"
    /\ Building.s_address out = "5 Mill Lane".
Proof.
  destruct (@create_building_new_pair_succeeds campus "Main Hall" "5 Mill Lane")
    as (st' & out & Hrun & Hname & Haddress & _).
  - repeat constructor. simpl. intuition.
  - reflexivity.
  - reflexivity.
  - intros b [<-|[]]. right. discriminate.
  - exists st', out. repeat split; assumption.
Defined.

Lemma create_building_conflict_is_sound_witness :
  exists b, In b (building_table campus)
            /\ Building.name b = "Main Hall" /\ Building.address b = "1 College Road".
Proof.
  apply (@create_building_conflict_is_sound campus "Main Hall" "1 College Road" campus).
  - repeat constructor. simpl. intuition.
  - reflexivity.
Defined.

(** A department whose pair of names is carried by no stored department is
    accepted, and a conflict is reported only for a stored pair (keys being
    unique). *)
Theorem create_department_conflict_check st (full_name code_name : string) :
  NoDup (map Department.id (department_table st)) ->
  (DepartmentRepository.validate_full_name full_name = true ->
   DepartmentRepository.validate_code_name code_name = true ->
   (forall d, In d (department_table st) ->
              Department.full_name d <> full_name \/ Department.code_name d <> code_name) ->
   exists st' out,
     DepartmentService.create_department full_name code_name st = (st', Ok out)
     /\ Department.s_full_name out = full_name
     /\ Department.s_code_name out = code_name
     /\ Department.s_manager out = None)
  /\ (forall st',
        DepartmentService.create_department full_name code_name st
        = (st', Raise ConflictError) ->
        exists d, In d (department_table st)
                  /\ Department.full_name d = full_name
                  /\ Department.code_name d = code_name).
Proof.
  intros Hnd. split.
  - intros Hfull Hcode Hnew. unfold DepartmentService.create_department.
    rewrite Hfull, Hcode. cbn [check]. rewrite !bind_ret.
    cbv beta iota delta [bind query].
    assert (Hpass :
              (match DepartmentRepository.get_department_by_full_name st full_name,
                     DepartmentRepository.get_department_by_code_name st code_name with
               | Some by_full_name, Some by_code_name =>
                   check (negb (Department.id by_full_name =? Department.id by_code_name))
                         ConflictError
               | _, _ => ret tt
               end) st = (st, Ok tt)).
    { destruct (DepartmentRepository.get_department_by_full_name st full_name)
        as [a|] eqn:Ha; [|reflexivity].
      destruct (DepartmentRepository.get_department_by_code_name st code_name)
        as [b|] eqn:Hb; [|reflexivity].
      apply find_some in Ha, Hb. destruct Ha as [Ha Hna], Hb as [Hb Hab].
      apply String.eqb_eq in Hna, Hab.
      destruct (Department.id a =? Department.id b) eqn:E; [|reflexivity].
      apply Z.eqb_eq in E.
      pose proof (same_key_same_row Department.id _ _ _ Hnd Ha Hb E) as Heq. subst b.
      destruct (Hnew a Ha); contradiction. }
    rewrite Hpass.
    unfold DepartmentRepository.create_department,
      DepartmentRepository.serialize_department.
    set (new := Department.mk (next_id Department.id (department_table st))
                              full_name code_name None).
    eexists. eexists. split; [reflexivity|].
    cbn [department_table set_department_table].
    rewrite (proj2 (inserted_row_is_live Department.id (department_table st) new eq_refl)).
    repeat split.
  - intros st' Hrun. unfold DepartmentService.create_department in Hrun.
    apply bind_Raise in Hrun as [H|(st1 & [] & H1 & Hrun)];
      [apply check_Raise in H as (_ & H & _); discriminate H|].
    apply check_Ok in H1 as [-> _].
    apply bind_Raise in Hrun as [H|(st1 & [] & H1 & Hrun)];
      [apply check_Raise in H as (_ & H & _); discriminate H|].
    apply check_Ok in H1 as [-> _].
    cbv beta iota delta [bind query] in Hrun.
    destruct (DepartmentRepository.get_department_by_full_name st full_name)
      as [a|] eqn:Ha; [|discriminate Hrun].
    destruct (DepartmentRepository.get_department_by_code_name st code_name)
      as [b|] eqn:Hb; [|discriminate Hrun].
    unfold check in Hrun.
    destruct (Department.id a =? Department.id b) eqn:E; [|discriminate Hrun].
    apply find_some in Ha, Hb. destruct Ha as [Ha Hna], Hb as [Hb Hab].
    apply String.eqb_eq in Hna, Hab. apply Z.eqb_eq in E.
    pose proof (same_key_same_row Department.id _ _ _ Hnd Ha Hb E) as Heq. subst b.
    exists a. auto.
Qed.

Lemma create_department_conflict_check_witness :
  (exists st' out,
     DepartmentService.create_department "Chemistry" "CHE" campus = (st', Ok out)
     /\ Department.s_manager out = None)
  /\ exists d, In d (department_table campus)
               /\ Department.full_name d = "Physics" /\ Department.code_name d = "PHY".
Proof.
  assert (Hnd : NoDup (map Department.id (department_table campus))).
  { repeat constructor; simpl; intuition discriminate. }
  split.
  - destruct (proj1 (@create_department_conflict_check campus "Chemistry" "CHE" Hnd))
      as (st' & out & Hrun & _ & _ & Hm).
    + reflexivity.
    + reflexivity.
    + intros d [<-|[<-|[]]]; left; discriminate.
    + exists st', out. split; assumption.
  - apply (proj2 (@create_department_conflict_check campus "Physics" "PHY" Hnd) campus).
    reflexivity.
Defined.

(** A pair whose two values were both unused is refused when it is created
    a second time in a row, for buildings and for departments. *)
Theorem repeated_creation_conflicts :
  (forall st name address st' out,
     (forall b, In b (building_table st) -> Building.name b <> name) ->
     (forall b, In b (building_table st) -> Building.address b <> address) ->
     BuildingService.create_building name address st = (st', Ok out) ->
     BuildingService.create_building name address st' = (st', Raise ConflictError))
  /\ (forall st full_name code_name st' out,
        (forall d, In d (department_table st) -> Department.full_name d <> full_name) ->
        (forall d, In d (department_table st) -> Department.code_name d <> code_name) ->
        DepartmentService.create_department full_name code_name st = (st', Ok out) ->
        DepartmentService.create_department full_name code_name st'
        = (st', Raise ConflictError)).
Proof.
  split.
  - intros st name address st' out Hname Haddress H.
    apply create_building_Ok in H. cbv zeta in H. destruct H as (-> & _ & Hv1 & Hv2).
    set (new := Building.mk _ name address).
    unfold BuildingService.create_building. rewrite Hv1, Hv2. cbn [check].
    rewrite !bind_ret. cbv beta iota delta [bind query].
    unfold BuildingRepository.get_building_by_name,
      BuildingRepository.get_building_by_address.
    cbn [building_table set_building_table].
    rewrite !find_app_none.
    + simpl. rewrite !String.eqb_refl, Z.eqb_refl. reflexivity.
    + apply find_none_iff. intros b Hb. apply String.eqb_neq. apply Haddress. exact Hb.
    + apply find_none_iff. intros b Hb. apply String.eqb_neq. apply Hname. exact Hb.
  - intros st full_name code_name st' out Hname Hcode H.
    apply create_department_Ok in H. cbv zeta in H. destruct H as (-> & _ & Hv1 & Hv2).
    set (new := Department.mk _ full_name code_name None).
    unfold DepartmentService.create_department. rewrite Hv1, Hv2. cbn [check].
    rewrite !bind_ret. cbv beta iota delta [bind query].
    unfold DepartmentRepository.get_department_by_full_name,
      DepartmentRepository.get_department_by_code_name.
    cbn [department_table set_department_table].
    rewrite !find_app_none.
    + simpl. rewrite !String.eqb_refl, Z.eqb_refl. reflexivity.
    + apply find_none_iff. intros d Hd. apply String.eqb_neq. apply Hcode. exact Hd.
    + apply find_none_iff. intros d Hd. apply String.eqb_neq. apply Hname. exact Hd.
Qed.

Lemma repeated_creation_conflicts_witness :
  exists st' out,
    BuildingService.create_building "Library" "3 Park Lane" campus = (st', Ok out)
    /\ BuildingService.create_building "Library" "3 Park Lane" st'
       = (st', Raise ConflictError).
Proof.
  eexists. eexists. split; [reflexivity|].
  eapply (proj1 repeated_creation_conflicts campus "Library" "3 Park Lane").
  - intros b [<-|[]]. discriminate.
  - intros b [<-|[]]. discriminate.
  - reflexivity.
Defined.

End Uniqueness.

(** ** More on the request service *)

Section RequestContent.
Import RequestService RequestRepository.

Lemma Forall2_In_l {A B} (R : A -> B -> Prop) (xs : list A) (ys : list B) (x : A) :
  Forall2 R xs ys -> In x xs -> exists y, In y ys /\ R x y.
Proof.
  induction 1 as [|a b xs ys Hab _ IH]; simpl; intros Hin; [contradiction|].
  destruct Hin as [<-|Hin].
  - exists b. auto.
  - destruct (IH Hin) as (y & Hy & Hxy). exists y. auto.
Qed.

Lemma Forall2_In_r {A B} (R : A -> B -> Prop) (xs : list A) (ys : list B) (y : B) :
  Forall2 R xs ys -> In y ys -> exists x, In x xs /\ R x y.
Proof.
  induction 1 as [|a b xs ys Hab _ IH]; simpl; intros Hin; [contradiction|].
  destruct Hin as [<-|Hin].
  - exists a. auto.
  - destruct (IH Hin) as (x & Hx & Hxy). exists x. auto.
Qed.



Lemma has_pair_app (a b : Z) (l1 l2 : list (Z * Z)) :
  has_pair a b (l1 ++ l2) = has_pair a b l1 || has_pair a b l2.
Proof. unfold has_pair. apply existsb_app. Qed.


Lemma has_pair_new_request (a id : Z) (users : list User.t) :
  has_pair a id (map (fun u => (User.id u, id)) users) = true
  <-> exists u, In u users /\ User.id u = a.
Proof.
  unfold has_pair. rewrite existsb_exists. split.
  - intros (p & Hin & Hp). apply in_map_iff in Hin. destruct Hin as (u & <- & Hu).
    simpl in Hp. apply andb_true_iff in Hp. destruct Hp as [Hp _].
    apply Z.eqb_eq in Hp. exists u. auto.
  - intros (u & Hu & <-). exists (User.id u, id). split.
    + apply in_map_iff. exists u. auto.
    + simpl. rewrite !Z.eqb_refl. reflexivity.
Qed.



(** The requests of a user: an id that names no user gives the empty list,
    and a user named by a requesting login of a created request has that
    request in the list right after the creation. *)
Theorem requesting_users_get_the_request st :
  (forall user_id,
     UserRepository.get_user_by_id st (Some user_id) = None ->
     UserService.get_user_requests_by_id st user_id = [])
  /\ (forall now start_date end_date author_id classroom_id logins st' out login user,
        create_reservation_request now start_date end_date author_id classroom_id logins st
        = (st', Ok out) ->
        In login logins ->
        UserRepository.get_user_by_login st login = Some user ->
        In (Request.s_id out)
           (map Request.id (UserService.get_user_requests_by_id st' (User.id user)))).
Proof.
  split.
  - intros user_id Hnone. unfold UserService.get_user_requests_by_id.
    rewrite Hnone. reflexivity.
  - intros now start_date end_date author_id classroom_id logins st' out login user
      H Hlogin Hget.
    apply create_reservation_request_Ok in H.
    destruct H as (author & classroom & users & _ & _ & Hu & H). cbv zeta in H.
    destruct H as (Htable & Hpairs & Husers & _ & ->).
    set (id := next_id Request.id (request_table st)) in *.
    set (stored := Request.mk id start_date end_date now false _ _) in *.
    destruct (inserted_row_is_live Request.id (request_table st) stored eq_refl) as [_ Hl].
    rewrite <- Htable in Hl.
    unfold serialize_request. rewrite Hl. cbn [Request.s_id].
    unfold UserService.get_user_requests_by_id, UserRepository.get_user_by_id.
    rewrite Husers.
    destruct (first_by_id User.id (Some (User.id user)) (user_table st)) as [row|] eqn:Hrow.
    2:{ exfalso. apply find_some in Hget. destruct Hget as [Hin _].
        simpl in Hrow. apply (find_none _ _ Hrow) in Hin.
        rewrite Z.eqb_refl in Hin. discriminate Hin. }
    apply first_by_id_key in Hrow.
    apply in_map_iff. exists stored. split; [reflexivity|].
    unfold user_model.get_requests. apply filter_In. split.
    + rewrite Htable. apply in_or_app. right. left. reflexivity.
    + rewrite Hpairs, Hrow. change (Request.id stored) with id.
      rewrite has_pair_app. apply orb_true_iff. right. apply has_pair_new_request.
      destruct (Forall2_In_l _ Hu Hlogin) as (u' & Hin' & Hget').
      exists u'. split; [exact Hin' | congruence].
Qed.

Lemma requesting_users_get_the_request_witness :
  UserService.get_user_requests_by_id campus 9 = []
  /\ exists st' out,
       create_reservation_request 300 "2024-06-03T09:00:00" "2024-06-03T10:00:00" 1 1
         ["bob"] campus = (st', Ok out)
       /\ In (Request.s_id out)
             (map Request.id (UserService.get_user_requests_by_id st' 2)).
Proof.
  split.
  - apply (proj1 (requesting_users_get_the_request campus)). reflexivity.
  - eexists. eexists. split; [reflexivity|].
    apply (proj2 (requesting_users_get_the_request campus)
             300 "2024-06-03T09:00:00" "2024-06-03T10:00:00" 1 1 ["bob"] _ _ "bob" bob);
      [reflexivity | | reflexivity].
    left. reflexivity.
Defined.

Lemma approve_reservation_request_Ok st request_id manager_id st' out :
  approve_reservation_request request_id manager_id st = (st', Ok out) ->
  exists request manager,
    get_request_by_id st (Some request_id) = Some request
    /\ UserRepository.get_user_by_id st (Some manager_id) = Some manager
    /\ st' = set_request_table st
               (update_by_id Request.id request_id
                  (fun r => Request.with_is_approved r true) (request_table st))
    /\ out = serialize_request st' request.
Proof.
  unfold approve_reservation_request. intros H.
  apply bind_Ok in H as (st1 & request & H1 & H). apply lookup_Ok in H1 as [-> Hr].
  apply bind_Ok in H as (st1 & manager & H1 & H). apply lookup_Ok in H1 as [-> Hm].
  cbv beta iota delta [bind commit ret query update_request_approval
                       request_model.set_is_approved] in H.
  injection H as <- <-. exists request, manager.
  rewrite (first_by_id_key _ _ _ Hr). repeat split; assumption.
Qed.

Lemma update_by_id_idempotent {A} (pk : A -> Z) (id : Z) (setter : A -> A) (table : list A) :
  (forall row, pk (setter row) = pk row) ->
  (forall row, setter (setter row) = setter row) ->
  update_by_id pk id setter (update_by_id pk id setter table)
  = update_by_id pk id setter table.
Proof.
  intros Hpk Hidem. unfold update_by_id. rewrite map_map. apply map_ext.
  intros row. destruct (pk row =? id) eqn:E.
  - rewrite Hpk, E. apply Hidem.
  - rewrite E. reflexivity.
Qed.

Lemma first_by_id_other {A} (pk : A -> Z) (id i : Z) (setter : A -> A) (table : list A) :
  (forall row, pk (setter row) = pk row) ->
  i <> id ->
  first_by_id pk (Some i) (update_by_id pk id setter table)
  = first_by_id pk (Some i) table.
Proof.
  intros Hpk Hne. rewrite first_by_id_update_by_id by exact Hpk.
  destruct (first_by_id pk (Some i) table) as [row|] eqn:Hrow; [|reflexivity].
  simpl. apply first_by_id_key in Hrow.
  destruct (pk row =? id) eqn:E; [|reflexivity].
  apply Z.eqb_eq in E. congruence.
Qed.

(** Approving an approved request again changes nothing and returns the
    same serialization; an approval leaves every other request, and every
    other table, as it was. *)
Theorem approval_is_idempotent_and_local st request_id manager_id st' out :
  approve_reservation_request request_id manager_id st = (st', Ok out) ->
  approve_reservation_request request_id manager_id st' = (st', Ok out)
  /\ (forall i, i <> request_id ->
                get_request_by_id st' (Some i) = get_request_by_id st (Some i))
  /\ set_request_table st' (request_table st) = st.
Proof.
  intros H. apply approve_reservation_request_Ok in H.
  destruct H as (request & manager & Hr & Hm & -> & ->).
  pose proof (first_by_id_key _ _ _ Hr) as Hid. subst request_id.
  set (setter := fun r => Request.with_is_approved r true).
  set (st' := set_request_table st _).
  assert (Hr' : get_request_by_id st' (Some (Request.id request)) = Some (setter request)).
  { unfold get_request_by_id, st'. cbn [request_table set_request_table].
    rewrite first_by_id_update_by_id by reflexivity.
    unfold get_request_by_id in Hr. rewrite Hr. simpl. rewrite Z.eqb_refl.
    reflexivity. }
  split; [|split].
  - unfold approve_reservation_request.
    erewrite bind_run_Ok by (apply lookup_run_Some; exact Hr').
    erewrite bind_run_Ok by (apply lookup_run_Some; exact Hm).
    cbv beta iota delta [bind commit ret query update_request_approval
                         request_model.set_is_approved].
    change (Request.id (setter request)) with (Request.id request).
    assert (Hsame : set_request_table st'
                      (update_by_id Request.id (Request.id request) setter
                         (request_table st'))
                    = st').
    { unfold st'. cbn [request_table set_request_table]. unfold set_request_table.
      cbn [user_table department_table building_table classroom_table
           user_occupied_classroom_association user_request_association].
      rewrite update_by_id_idempotent by reflexivity. reflexivity. }
    fold setter. rewrite Hsame. f_equal. f_equal.
    unfold serialize_request.
    rewrite (@live_found _ Request.id (request_table st') (setter request)
               (setter request) Hr').
    rewrite (@live_found _ Request.id (request_table st') request (setter request) Hr').
    reflexivity.
  - intros i Hi. unfold get_request_by_id, st'. cbn [request_table set_request_table].
    apply first_by_id_other; [reflexivity | exact Hi].
  - unfold st', set_request_table. cbn. destruct st. reflexivity.
Qed.

Lemma approval_is_idempotent_and_local_witness :
  exists st' out,
    approve_reservation_request 1 3 campus = (st', Ok out)
    /\ approve_reservation_request 1 3 st' = (st', Ok out).
Proof.
  eexists. eexists. split; [reflexivity|].
  apply (@approval_is_idempotent_and_local campus 1 3 _ _ eq_refl).
Defined.

End RequestContent.

(** ** What a request update leaves alone *)

Section RequestInvariants.
Import RequestService RequestRepository.

Lemma update_reservation_request_keeps_facts request_id new_author_id new_classroom_id
    new_requesting_user_logins :
  keeps (fun st => map (fun r => (Request.id r, Request.start_date r, Request.end_date r,
                                  Request.registration_date r, Request.is_approved r))
                       (request_table st))
        (update_reservation_request request_id new_author_id new_classroom_id
           new_requesting_user_logins).
Proof.
  unfold update_reservation_request, update_request_author, update_request_classroom,
    update_requesting_users.
  keeps_steps; apply keeps_commit; intros st;
    cbn [request_table set_request_table set_user_request_association];
    try reflexivity; apply map_update_by_id; reflexivity.
Qed.

(** An update of a request never changes the dates, the registration date
    or the approval of any request, and adds or removes none: an approval
    is not undone by an update, whether the update returns or raises. *)
Theorem update_keeps_dates_and_approval request_id new_author_id new_classroom_id
    new_requesting_user_logins st :
  map (fun r => (Request.id r, Request.start_date r, Request.end_date r,
                 Request.registration_date r, Request.is_approved r))
      (request_table (fst (update_reservation_request request_id new_author_id
                             new_classroom_id new_requesting_user_logins st)))
  = map (fun r => (Request.id r, Request.start_date r, Request.end_date r,
                   Request.registration_date r, Request.is_approved r))
        (request_table st).
Proof.
  apply (update_reservation_request_keeps_facts request_id new_author_id new_classroom_id
           new_requesting_user_logins st).
Qed.

End RequestInvariants.

(** ** Updates *)

Section UpdateFrames.

(** An update whose optional arguments are all absent or falsy (the empty
    string, 0, [False], the empty list) does what the find by id does: it
    returns the current serialization and writes nothing. *)
Theorem update_with_nothing_supplied_is_find :
  (forall id new_name new_address st,
     supplied new_name = None -> supplied new_address = None ->
     BuildingService.update_building id new_name new_address st
     = BuildingService.find_building id st)
  /\ (forall id new_full_name new_code_name new_manager_id st,
        supplied new_full_name = None -> supplied new_code_name = None ->
        supplied new_manager_id = None ->
        DepartmentService.update_department id new_full_name new_code_name new_manager_id st
        = DepartmentService.find_department id st)
  /\ (forall id new_name new_building_id new_department_id new_manager_id new_is_private st,
        supplied new_name = None -> supplied new_building_id = None ->
        supplied new_department_id = None -> supplied new_manager_id = None ->
        supplied new_is_private = None ->
        ClassroomService.update_classroom id new_name new_building_id new_department_id
          new_manager_id new_is_private st
        = ClassroomService.find_classroom id st)
  /\ (forall id new_first_name new_last_name new_department_id new_occupied_classroom_ids st,
        supplied new_first_name = None -> supplied new_last_name = None ->
        supplied new_department_id = None -> supplied new_occupied_classroom_ids = None ->
        UserService.update_user id new_first_name new_last_name new_department_id
          new_occupied_classroom_ids st
        = UserService.find_user id st)
  /\ (forall id new_author_id new_classroom_id new_requesting_user_logins st,
        supplied new_author_id = None -> supplied new_classroom_id = None ->
        supplied new_requesting_user_logins = None ->
        RequestService.update_reservation_request id new_author_id new_classroom_id
          new_requesting_user_logins st
        = RequestService.find_request id st).
Proof.
  repeat split; intros;
    unfold BuildingService.update_building, DepartmentService.update_department,
      ClassroomService.update_classroom, UserService.update_user,
      RequestService.update_reservation_request, when_supplied;
    repeat match goal with H : supplied _ = None |- _ => rewrite H; clear H end;
    reflexivity.
Qed.

Lemma update_with_nothing_supplied_is_find_witness :
  ClassroomService.update_classroom 1 (Some "") (Some 0) (Some 0) (Some 0) (Some false) campus
  = ClassroomService.find_classroom 1 campus
  /\ UserService.update_user 1 (Some "") None (Some 0) (Some []) campus
     = UserService.find_user 1 campus.
Proof.
  destruct update_with_nothing_supplied_is_find as (_ & _ & Hroom & Huser & _).
  split; [apply Hroom | apply Huser]; reflexivity.
Defined.

Lemma keeps_bind_lookup_by_id {X A B} (proj : Store -> X) (pk : A -> Z)
    (table : Store -> list A) (id : Z) (e : error) (k : A -> M B) :
  (forall obj, pk obj = id -> keeps proj (k obj)) ->
  keeps proj (bind (lookup (fun st => first_by_id pk (Some id) (table st)) e) k).
Proof.
  intros Hk st. unfold bind, lookup.
  destruct (first_by_id pk (Some id) (table st)) as [obj|] eqn:Hobj; [|reflexivity].
  apply (Hk obj (first_by_id_key _ _ _ Hobj)).
Qed.

Lemma others_update_by_id {A} (pk : A -> Z) (id : Z) (setter : A -> A) (table : list A) :
  (forall row, pk (setter row) = pk row) ->
  others pk id (update_by_id pk id setter table) = others pk id table.
Proof.
  intros Hpk. unfold others, update_by_id.
  induction table as [|row table IH]; simpl; [reflexivity|].
  destruct (pk row =? id) eqn:E.
  - rewrite Hpk, E. simpl. exact IH.
  - rewrite E. simpl. rewrite IH. reflexivity.
Qed.

Lemma first_by_id_others {A} (pk : A -> Z) (id i : Z) (t t' : list A) :
  others pk id t' = others pk id t ->
  i <> id ->
  first_by_id pk (Some i) t' = first_by_id pk (Some i) t.
Proof.
  intros Heq Hne.
  assert (H : forall table, first_by_id pk (Some i) table
                            = first_by_id pk (Some i) (others pk id table)).
  { intros table. unfold others. simpl.
    induction table as [|row table IH]; simpl; [reflexivity|].
    destruct (pk row =? id) eqn:E; simpl.
    - destruct (pk row =? i) eqn:E'; [|exact IH].
      apply Z.eqb_eq in E, E'. congruence.
    - destruct (pk row =? i); [reflexivity | exact IH]. }
  rewrite (H t'), (H t), Heq. reflexivity.
Qed.

Lemma keeps_set_manager_id {X} (proj : Store -> X) (department : Department.t) (user_id : Z) :
  (forall st, proj (set_department_table st
                      (update_by_id Department.id (Department.id department)
                         (fun d => Department.with_manager_id d (Some user_id))
                         (department_table st))) = proj st) ->
  keeps proj (department_model.set_manager_id department user_id).
Proof.
  intros H st. unfold department_model.set_manager_id.
  destruct (existsb _ _); [reflexivity | apply H].
Qed.

Ltac frame_write :=
  first [ apply keeps_set_manager_id | apply keeps_commit ];
  intros ?;
  cbn [user_table department_table building_table classroom_table request_table
       user_occupied_classroom_association user_request_association
       set_user_table set_department_table set_building_table set_classroom_table
       set_request_table set_user_occupied_classroom_association
       set_user_request_association];
  rewrite ?others_update_by_id by reflexivity;
  try reflexivity.

Lemma filter_replaced_pairs (keep : Z * Z -> bool) (pairs added : list (Z * Z)) :
  (forall p, In p added -> keep p = false) ->
  filter keep (filter keep pairs ++ added) = filter keep pairs.
Proof.
  intros Hadded. rewrite filter_app.
  assert (H1 : filter keep (filter keep pairs) = filter keep pairs).
  { induction pairs as [|p pairs IH]; simpl; [reflexivity|].
    destruct (keep p) eqn:E; simpl; [rewrite E, IH; reflexivity | exact IH]. }
  assert (H2 : filter keep added = []).
  { induction added as [|p added IH]; simpl; [reflexivity|].
    rewrite (Hadded p (or_introl eq_refl)). apply IH.
    intros q Hq. apply Hadded. right. exact Hq. }
  rewrite H1, H2. apply app_nil_r.
Qed.

(** An update touches one entity: the rows of its table that carry another
    id, and every other table, are the same after the call, whether it
    returns or raises.  A user update may also replace that user's pairs of
    the occupancy table, a request update that request's pairs of the
    requesting-users table; the pairs of the others stay. *)
Theorem updates_touch_one_entity :
  (forall id new_name new_address,
     keeps (fun st => (user_table st, department_table st, classroom_table st,
                       request_table st, user_occupied_classroom_association st,
                       user_request_association st,
                       others Building.id id (building_table st)))
           (BuildingService.update_building id new_name new_address))
  /\ (forall id new_full_name new_code_name new_manager_id,
        keeps (fun st => (user_table st, building_table st, classroom_table st,
                          request_table st, user_occupied_classroom_association st,
                          user_request_association st,
                          others Department.id id (department_table st)))
              (DepartmentService.update_department id new_full_name new_code_name
                 new_manager_id))
  /\ (forall id new_name new_building_id new_department_id new_manager_id new_is_private,
        keeps (fun st => (user_table st, department_table st, building_table st,
                          request_table st, user_occupied_classroom_association st,
                          user_request_association st,
                          others Classroom.id id (classroom_table st)))
              (ClassroomService.update_classroom id new_name new_building_id
                 new_department_id new_manager_id new_is_private))
  /\ (forall id new_first_name new_last_name new_department_id new_occupied_classroom_ids,
        keeps (fun st => (department_table st, building_table st, classroom_table st,
                          request_table st, user_request_association st,
                          filter (fun p => negb (fst p =? id))
                                 (user_occupied_classroom_association st),
                          others User.id id (user_table st)))
              (UserService.update_user id new_first_name new_last_name new_department_id
                 new_occupied_classroom_ids))
  /\ (forall id new_author_id new_classroom_id new_requesting_user_logins,
        keeps (fun st => (user_table st, department_table st, building_table st,
                          classroom_table st, user_occupied_classroom_association st,
                          filter (fun p => negb (snd p =? id)) (user_request_association st),
                          others Request.id id (request_table st)))
              (RequestService.update_reservation_request id new_author_id new_classroom_id
                 new_requesting_user_logins)).
Proof.
  split; [|split; [|split; [|split]]]; intros.
  - unfold BuildingService.update_building, BuildingRepository.get_building_by_id.
    apply keeps_bind_lookup_by_id. intros obj <-.
    keeps_steps; frame_write.
  - unfold DepartmentService.update_department, DepartmentRepository.get_department_by_id,
      DepartmentRepository.update_department_full_name,
      DepartmentRepository.update_department_code_name,
      DepartmentRepository.update_department_manager.
    apply keeps_bind_lookup_by_id. intros obj <-.
    keeps_steps; frame_write.
  - unfold ClassroomService.update_classroom, ClassroomRepository.get_classroom_by_id.
    apply keeps_bind_lookup_by_id. intros obj <-.
    keeps_steps; frame_write.
  - unfold UserService.update_user, UserRepository.get_user_by_id,
      UserRepository.update_user_occupied_classrooms.
    apply keeps_bind_lookup_by_id. intros obj <-.
    keeps_steps; frame_write.
    rewrite filter_replaced_pairs; [reflexivity|].
    intros p Hp. apply in_map_iff in Hp.
    destruct Hp as (c & <- & _). simpl. rewrite Z.eqb_refl. reflexivity.
  - unfold RequestService.update_reservation_request, RequestRepository.get_request_by_id,
      RequestRepository.update_request_author, RequestRepository.update_request_classroom,
      RequestRepository.update_requesting_users.
    apply keeps_bind_lookup_by_id. intros obj <-.
    keeps_steps; frame_write.
    rewrite filter_replaced_pairs; [reflexivity|].
    intros p Hp. apply in_map_iff in Hp.
    destruct Hp as (u & <- & _). simpl. rewrite Z.eqb_refl. reflexivity.
Qed.

End UpdateFrames.

(** ** Relationships after an update *)

Section Relationships.

Lemma live_key {A} (pk : A -> Z) (table : list A) (obj : A) :
  pk (live pk table obj) = pk obj.
Proof.
  unfold live. destruct (first_by_id pk (Some (pk obj)) table) as [row|] eqn:H;
    [exact (first_by_id_key _ _ _ H) | reflexivity].
Qed.

Lemma live_self {A} (pk : A -> Z) (table : list A) (obj : A) :
  NoDup (map pk table) -> In obj table -> live pk table obj = obj.
Proof.
  intros Hnd Hin. unfold live.
  destruct (first_by_id pk (Some (pk obj)) table) as [row|] eqn:H.
  - pose proof (first_by_id_key _ _ _ H) as Hkey. simpl in H.
    apply find_some in H. destruct H as [Hrow _].
    exact (same_key_same_row pk _ _ _ Hnd Hrow Hin Hkey).
  - simpl in H. apply (find_none _ _ H) in Hin. rewrite Z.eqb_refl in Hin.
    discriminate Hin.
Qed.

Lemma has_pair_other_users (id b : Z) (pairs : list (Z * Z)) :
  has_pair id b (filter (fun p => negb (fst p =? id)) pairs) = false.
Proof.
  unfold has_pair. apply not_true_is_false. intros H.
  apply existsb_exists in H. destruct H as (p & Hin & Hp).
  apply filter_In in Hin. destruct Hin as [_ Hne].
  apply andb_true_iff in Hp. destruct Hp as [Hp _]. rewrite Hp in Hne. discriminate Hne.
Qed.

Lemma has_pair_new_classrooms (id b : Z) (classrooms : list Classroom.t) :
  has_pair id b (map (fun c => (id, Classroom.id c)) classrooms) = true
  <-> exists c, In c classrooms /\ Classroom.id c = b.
Proof.
  unfold has_pair. rewrite existsb_exists. split.
  - intros (p & Hin & Hp). apply in_map_iff in Hin. destruct Hin as (c & <- & Hc).
    simpl in Hp. apply andb_true_iff in Hp. destruct Hp as [_ Hp].
    apply Z.eqb_eq in Hp. exists c. auto.
  - intros (c & Hc & <-). exists (id, Classroom.id c). split.
    + apply in_map_iff. exists c. auto.
    + simpl. rewrite !Z.eqb_refl. reflexivity.
Qed.

(** A user update that supplies a non-empty list of classroom ids replaces
    the classrooms the user occupies: the returned occupied classrooms are
    exactly the supplied ids, whatever the user occupied before. *)
Theorem update_user_replaces_occupied_classrooms st user_id new_first_name new_last_name
    new_department_id (classroom_ids : list Z) st' out :
  classroom_ids <> [] ->
  UserService.update_user user_id new_first_name new_last_name new_department_id
    (Some classroom_ids) st = (st', Ok out) ->
  forall id, In id (User.s_occupied_classrooms out) <-> In id classroom_ids.
Proof.
  intros Hne H. unfold UserService.update_user in H.
  apply bind_Ok in H as (st0 & user & H0 & H). apply lookup_Ok in H0 as [-> Hu].
  apply first_by_id_key in Hu.
  apply bind_Ok in H as (st1 & [] & _ & H).
  apply bind_Ok in H as (st2 & [] & _ & H).
  apply bind_Ok in H as (st3 & [] & _ & H).
  rewrite when_supplied_truthy in H by (destruct classroom_ids; [contradiction|reflexivity]).
  apply bind_Ok in H as (st4 & [] & H4 & H). injection H as <- <-.
  apply bind_Ok in H4 as (st5 & classrooms & H5 & H4).
  apply resolve_all_Ok in H5 as [-> Hres].
  cbv beta iota delta [bind commit ret UserRepository.update_user_occupied_classrooms
                       user_model.set_occupied_classrooms] in H4.
  injection H4 as <-.
  intros id. unfold UserRepository.serialize_user.
  cbn [User.s_occupied_classrooms]. unfold user_model.get_occupied_classrooms.
  rewrite live_key.
  cbn [classroom_table user_occupied_classroom_association
       set_user_occupied_classroom_association].
  rewrite in_map_iff. split.
  - intros (c & <- & Hin). apply filter_In in Hin. destruct Hin as [_ Hpair].
    rewrite has_pair_app, has_pair_other_users in Hpair. simpl in Hpair.
    apply has_pair_new_classrooms in Hpair. destruct Hpair as (c' & Hc' & <-).
    destruct (Forall2_In_r _ Hres Hc') as (k & Hk & Hget).
    apply first_by_id_key in Hget. rewrite Hget. exact Hk.
  - intros Hin. destruct (Forall2_In_l _ Hres Hin) as (c & Hc & Hget).
    pose proof (first_by_id_key _ _ _ Hget) as Hkey.
    exists c. split; [exact Hkey|]. apply filter_In. split.
    + unfold ClassroomRepository.get_classroom_by_id in Hget. simpl in Hget.
      apply find_some in Hget. apply Hget.
    + rewrite has_pair_app. apply orb_true_iff. right.
      apply has_pair_new_classrooms. exists c. auto.
Qed.

Lemma update_user_replaces_occupied_classrooms_witness :
  exists st' out,
    UserService.update_user 1 None None None (Some [1]) campus = (st', Ok out)
    /\ (In 1 (User.s_occupied_classrooms out) <-> In 1 [1]).
Proof.
  eexists. eexists. split; [reflexivity|].
  eapply (@update_user_replaces_occupied_classrooms campus 1 None None None [1]);
    [discriminate | reflexivity].
Defined.

Lemma bind_query {A B} (q : Store -> A) (k : A -> M B) st :
  bind (query q) k st = k (q st) st.
Proof. reflexivity. Qed.

(** The listing of non-private classrooms raises the empty-result error
    exactly when every classroom is private; otherwise (keys being unique)
    it returns the non-private classrooms in table order, and none of the
    returned entries is private. *)
Theorem non_private_listing st :
  NoDup (map Classroom.id (classroom_table st)) ->
  (ClassroomService.find_all_non_private_classrooms st = (st, Raise EmptyResultError)
   <-> forall c, In c (classroom_table st) -> Classroom.is_private c = true)
  /\ (forall st' outs,
        ClassroomService.find_all_non_private_classrooms st = (st', Ok outs) ->
        st' = st
        /\ map Classroom.s_id outs
           = map Classroom.id
               (filter (fun c => negb (Classroom.is_private c)) (classroom_table st))
        /\ forall out, In out outs -> Classroom.s_is_private out = false).
Proof.
  intros Hnd. unfold ClassroomService.find_all_non_private_classrooms.
  rewrite bind_query. unfold ClassroomRepository.get_all_classrooms.
  set (rooms := filter (fun c => negb (Classroom.is_private c)) (classroom_table st)).
  assert (Hlive : forall c, In c rooms ->
                            live Classroom.id (classroom_table st) c = c).
  { intros c Hc. apply live_self; [exact Hnd|]. apply filter_In in Hc. apply Hc. }
  split.
  - split.
    + intros H c Hc. destruct (Classroom.is_private c) eqn:E; [reflexivity|].
      assert (Hin : In c rooms) by (apply filter_In; rewrite E; auto).
      destruct rooms; [contradiction | discriminate H].
    + intros Hall. assert (Hrooms : rooms = []).
      { destruct rooms as [|c rest] eqn:E; [reflexivity|].
        assert (Hin : In c rooms) by (rewrite E; left; reflexivity).
        apply filter_In in Hin. destruct Hin as [Hin Hp].
        rewrite (Hall c Hin) in Hp. discriminate Hp. }
      rewrite Hrooms. reflexivity.
  - intros st' outs H.
    destruct rooms as [|c rest] eqn:E; [discriminate H|].
    rewrite <- E in *. assert (Htruthy : truthy rooms = true) by (rewrite E; reflexivity).
    rewrite Htruthy in H. cbn [check] in H. rewrite bind_ret in H.
    injection H as <- <-. split; [reflexivity|]. split.
    + rewrite map_map. apply map_ext_in. intros r Hr.
      unfold ClassroomRepository.serialize_classroom. rewrite (Hlive r Hr). reflexivity.
    + intros out Hout. apply in_map_iff in Hout. destruct Hout as (r & <- & Hr).
      unfold ClassroomRepository.serialize_classroom. rewrite (Hlive r Hr).
      cbn [Classroom.s_is_private]. apply filter_In in Hr. destruct Hr as [_ Hr].
      apply negb_true_iff. exact Hr.
Qed.

Lemma non_private_listing_witness :
  exists outs,
    ClassroomService.find_all_non_private_classrooms campus = (campus, Ok outs)
    /\ map Classroom.s_id outs = [1].
Proof.
  eexists. split; [vm_compute; reflexivity|].
  apply (proj2 (@non_private_listing campus
                  ltac:(repeat constructor; simpl; intuition)) campus _ eq_refl).
Defined.

End Relationships.

(** ** Appointing a department manager *)

Section Appointment.
Import AuthenticationService.
Import UserRepository DepartmentRepository ClassroomRepository.

Lemma update_department_names_keep_keys (department : Department.t)
    (new_full_name new_code_name : option string) :
  let view := fun st => (user_table st, classroom_table st,
                         map (fun d => (Department.id d, tt)) (department_table st)) in
  keeps view
    (when_supplied new_full_name (fun new_full_name =>
       check (validate_full_name new_full_name) (ValidationError "full_name") ;;
       update_department_full_name department new_full_name ;; ret tt))
  /\ keeps view
       (when_supplied new_code_name (fun new_code_name =>
          check (validate_code_name new_code_name) (ValidationError "code_name") ;;
          update_department_code_name department new_code_name ;; ret tt)).
Proof.
  intros view. unfold update_department_full_name, update_department_code_name.
  split; keeps_steps; apply keeps_commit; intros st; unfold view;
    cbn [user_table classroom_table department_table set_department_table];
    f_equal; apply map_update_by_id; reflexivity.
Qed.

(** Once [update_department] has stored a user as manager of a department,
    that user passes the department-manager check of the department and the
    classroom gate of every classroom of the department. *)
Theorem appointed_manager_passes_gates st department_id new_full_name new_code_name
    (new_manager_id : Z) st' out (manager : User.t) :
  new_manager_id <> 0 ->
  DepartmentService.update_department department_id new_full_name new_code_name
    (Some new_manager_id) st = (st', Ok out) ->
  get_user_by_id st (Some new_manager_id) = Some manager ->
  get_user_by_login st (User.login manager) = Some manager ->
  is_user_department_manager st' (User.login manager) (Some department_id) = Ok true
  /\ forall classroom_id classroom,
       get_classroom_by_id st classroom_id = Some classroom ->
       Classroom.department_id classroom = Some department_id ->
       is_user_admin_or_manager_of_department_by_classroom st' (User.login manager)
         classroom_id = Ok true.
Proof.
  intros Hnz H Hm Hlogin. unfold DepartmentService.update_department in H.
  apply bind_Ok in H as (st0 & d & H0 & H). apply lookup_Ok in H0 as [-> Hd].
  cbv beta in Hd. pose proof (first_by_id_key _ _ _ Hd) as Hkey.
  destruct (update_department_names_keep_keys d new_full_name new_code_name) as [K1 K2].
  apply bind_Ok in H as (st1 & [] & H1 & H).
  specialize (K1 st). rewrite H1 in K1. clear H1.
  apply bind_Ok in H as (st2 & [] & H2 & H).
  specialize (K2 st1). rewrite H2 in K2. clear H2.
  cbn [fst] in K1, K2. rewrite K1 in K2. clear K1.
  injection K2 as Husers Hrooms Hkeys.
  rewrite when_supplied_truthy in H by (apply truthy_int; exact Hnz).
  apply bind_Ok in H as (st3 & [] & H3 & H). injection H as <- _.
  apply bind_Ok in H3 as (st4 & m & H4 & H3). apply lookup_Ok in H4 as [-> _].
  apply bind_Ok in H3 as (st5 & d' & H5 & H3). injection H3 as <-.
  unfold update_department_manager in H5.
  apply bind_Ok in H5 as (st6 & [] & H6 & H5). injection H5 as <- _.
  unfold department_model.set_manager_id in H6.
  destruct (existsb _ (department_table st2)); [discriminate H6|].
  injection H6 as <-.
  set (setter := fun d0 => Department.with_manager_id d0 (Some new_manager_id)).
  set (st' := set_department_table st2 _).
  assert (Hlogin' : get_user_by_login st' (User.login manager) = Some manager).
  { unfold get_user_by_login, st' in *. cbn [user_table set_department_table].
    rewrite Husers. exact Hlogin. }
  assert (Hdept : exists d2,
             get_department_by_id st' (Some department_id) = Some (setter d2)).
  { pose proof (first_by_id_view Department.id (fun _ => tt) (Some department_id)
                  (department_table st) (department_table st2) Hkeys) as Hview.
    unfold get_department_by_id in *. rewrite Hd in Hview.
    destruct (first_by_id Department.id (Some department_id) (department_table st2))
      as [d2|] eqn:Hd2; [|discriminate Hview].
    exists d2. unfold st'. cbn [department_table set_department_table].
    rewrite first_by_id_update_by_id by reflexivity. rewrite Hd2. simpl.
    rewrite (first_by_id_key _ _ _ Hd2), Hkey, Z.eqb_refl. reflexivity. }
  destruct Hdept as (d2 & Hdept).
  assert (Hmanager : py_eq (py_int_or_none (Department.manager_id (setter d2)))
                           (PyInt (User.id manager)) = true).
  { simpl. rewrite (first_by_id_key _ _ _ Hm). apply Z.eqb_refl. }
  split.
  - unfold is_user_department_manager. rewrite Hlogin', Hdept, Hmanager. reflexivity.
  - intros classroom_id classroom Hroom Hdid.
    assert (Hroom' : get_classroom_by_id st' classroom_id = Some classroom).
    { unfold get_classroom_by_id, st' in *. cbn [classroom_table set_department_table].
      rewrite Hrooms. exact Hroom. }
    unfold is_user_admin_or_manager_of_department_by_classroom, is_user_admin,
      is_user_manager_of_department_by_classroom.
    rewrite Hlogin', Hroom', Hdid, Hdept, Hmanager.
    destruct (User.is_admin manager); reflexivity.
Qed.

Lemma appointed_manager_passes_gates_witness :
  exists st' out,
    DepartmentService.update_department 1 None None (Some 2) campus = (st', Ok out)
    /\ is_user_department_manager st' "bob" (Some 1) = Ok true.
Proof.
  eexists. eexists. split; [reflexivity|].
  refine (proj1 (@appointed_manager_passes_gates campus 1 None None 2 _ _ bob
                   _ eq_refl eq_refl eq_refl)).
  discriminate.
Defined.

End Appointment.

(** ** Routes *)

Section Routes.
Import AuthenticationService.
Import building_routes classroom_routes department_routes request_routes user_routes.

Lemma classroom_gate_outcome st login id :
  grants_or_denies (is_user_admin_or_manager_of_department_by_classroom st login id).
Proof.
  apply try_grant_outcome; [apply is_user_admin_raises_ValueError|].
  apply try_grant_outcome;
    [apply is_user_manager_of_department_by_classroom_raises_ValueError|].
  right. reflexivity.
Qed.

Lemma user_gate_outcome st login id :
  grants_or_denies (is_user_admin_or_manager_of_another_user_department st login id).
Proof.
  apply try_grant_outcome; [apply is_user_admin_raises_ValueError|].
  apply try_grant_outcome;
    [apply is_user_manager_of_another_user_department_raises_ValueError|].
  right. reflexivity.
Qed.

Lemma request_gate_outcome st login id :
  grants_or_denies (is_user_admin_or_manager_in_request st login id).
Proof.
  apply try_grant_outcome; [apply is_user_admin_raises_ValueError|].
  apply try_grant_outcome; [apply is_user_classroom_manager_in_request_raises_ValueError|].
  apply try_grant_outcome; [apply is_user_department_manager_in_request_raises_ValueError|].
  right. reflexivity.
Qed.

Lemma admin_gate_outcome st login :
  is_user_admin st login = Ok true
  \/ exists reason, is_user_admin st login = Raise (UnauthorizedError reason).
Proof.
  unfold is_user_admin. destruct (UserRepository.get_user_by_login st login) as [u|].
  - destruct (negb (User.is_admin u)); [right; eexists; reflexivity | left; reflexivity].
  - right. eexists. reflexivity.
Qed.

(** The handlers that write behind a check either had the check return
    [True], or answer 400 with the message of the check and leave the store
    as it was: the dropped return value of the check is never [False]. *)
Theorem writing_routes_are_gated st login :
  (forall name address,
     is_user_admin st login = Ok true
     \/ exists reason, BuildingRoute_post login name address st
                       = (st, Message (UnauthorizedError reason) 400))
  /\ (forall id new_name new_address,
        is_user_admin st login = Ok true
        \/ exists reason, BuildingIdRoute_put login id new_name new_address st
                          = (st, Message (UnauthorizedError reason) 400))
  /\ (forall full_name code_name,
        is_user_admin st login = Ok true
        \/ exists reason, DepartmentCreateRoute_post login full_name code_name st
                          = (st, Message (UnauthorizedError reason) 400))
  /\ (forall id new_full_name new_code_name new_manager_id,
        is_user_admin st login = Ok true
        \/ exists reason,
             DepartmentIdRoute_put login id new_full_name new_code_name new_manager_id st
             = (st, Message (UnauthorizedError reason) 400))
  /\ (forall name floor is_private,
        is_user_admin st login = Ok true
        \/ exists reason, ClassroomRoute_post login name floor is_private st
                          = (st, Message (UnauthorizedError reason) 400))
  /\ (forall id new_name new_building_id new_department_id new_manager_id new_is_private,
        is_user_admin_or_manager_of_department_by_classroom st login (Some id) = Ok true
        \/ ClassroomIdRoute_put login id new_name new_building_id new_department_id
             new_manager_id new_is_private st
           = (st, Message AccessDeniedError 400))
  /\ (forall id new_first_name new_last_name new_department_id new_occupied_classroom_ids,
        is_user_admin_or_manager_of_another_user_department st login (Some id) = Ok true
        \/ UserIdRoute_put login id new_first_name new_last_name new_department_id
             new_occupied_classroom_ids st
           = (st, Message AccessDeniedError 400))
  /\ (forall id new_author_id new_classroom_id new_requesting_user_logins,
        is_user_admin_or_manager_in_request st login (Some id) = Ok true
        \/ RequestIdRoute_put login id new_author_id new_classroom_id
             new_requesting_user_logins st
           = (st, Message AccessDeniedError 400))
  /\ (forall id manager_id,
        is_user_admin_or_manager_in_request st login (Some id) = Ok true
        \/ RequestIdApproveRoute_put login id manager_id st
           = (st, Message AccessDeniedError 400)).
Proof.
  repeat split; intros.
  1-5: destruct (admin_gate_outcome st login) as [H|(reason & H)];
    [left; exact H
    | right; exists reason;
      unfold BuildingRoute_post, BuildingIdRoute_put, DepartmentCreateRoute_post,
        DepartmentIdRoute_put, ClassroomRoute_post, gated; rewrite H; reflexivity].
  - destruct (classroom_gate_outcome st login (Some id)) as [H|H];
      [left; exact H | right; unfold ClassroomIdRoute_put, gated; rewrite H; reflexivity].
  - destruct (user_gate_outcome st login (Some id)) as [H|H];
      [left; exact H | right; unfold UserIdRoute_put, gated; rewrite H; reflexivity].
  - destruct (request_gate_outcome st login (Some id)) as [H|H];
      [left; exact H | right; unfold RequestIdRoute_put, gated; rewrite H; reflexivity].
  - destruct (request_gate_outcome st login (Some id)) as [H|H];
      [left; exact H
      | right; unfold RequestIdApproveRoute_put, gated; rewrite H; reflexivity].
Qed.

(** The user-creation handler makes no check: with valid names and a free
    valid login it answers 201 for any store, also for [is_admin = True],
    and the created login then passes the administrator check and the three
    composite checks for any target. *)
Theorem user_creation_route_is_open st now first_name last_name login :
  UserRepository.validate_name first_name = true ->
  UserRepository.validate_name last_name = true ->
  UserRepository.validate_login login = true ->
  UserRepository.get_user_by_login st login = None ->
  exists st' out,
    UserRoute_post now first_name last_name login true st = (st', Reply out 201)
    /\ User.s_is_admin out = true
    /\ is_user_admin st' login = Ok true
    /\ forall id,
         is_user_admin_or_manager_of_department_by_classroom st' login id = Ok true
         /\ is_user_admin_or_manager_of_another_user_department st' login id = Ok true
         /\ is_user_admin_or_manager_in_request st' login id = Ok true.
Proof.
  intros Hf Hl Hlogin Hfree.
  set (new := User.mk (next_id User.id (user_table st)) first_name last_name login now
                      true None).
  set (st' := set_user_table st (user_table st ++ [new])).
  assert (Hrun : UserService.create_user now first_name last_name login true st
                 = (st', Ok (UserRepository.serialize_user st' new))).
  { unfold UserService.create_user. rewrite Hf, Hl, Hlogin. cbn [check].
    rewrite !bind_ret. cbv beta iota delta [bind query]. rewrite Hfree.
    reflexivity. }
  assert (Hfound : UserRepository.get_user_by_login st' login = Some new).
  { unfold UserRepository.get_user_by_login in *. unfold st'.
    cbn [user_table set_user_table].
    rewrite find_app_none by exact Hfree. simpl. rewrite String.eqb_refl. reflexivity. }
  exists st', (UserRepository.serialize_user st' new).
  split; [unfold UserRoute_post, ungated; rewrite Hrun; reflexivity|].
  split.
  - unfold UserRepository.serialize_user, st'. cbn [user_table set_user_table].
    rewrite (proj2 (inserted_row_is_live User.id (user_table st) new eq_refl)).
    reflexivity.
  - unfold is_user_admin_or_manager_of_department_by_classroom,
      is_user_admin_or_manager_of_another_user_department,
      is_user_admin_or_manager_in_request, is_user_admin.
    rewrite Hfound. repeat split.
Qed.

Lemma user_creation_route_is_open_witness :
  exists st' out,
    UserRoute_post 500 "Eve" "Adams" "eve" true campus = (st', Reply out 201)
    /\ User.s_is_admin out = true
    /\ is_user_admin st' "eve" = Ok true.
Proof.
  destruct (@user_creation_route_is_open campus 500 "Eve" "Adams" "eve"
              eq_refl eq_refl eq_refl eq_refl) as (st' & out & Hrun & Hadm & Hgate & _).
  exists st', out. repeat split; assumption.
Defined.

(** The approval handler answers with a body only with status 200, after
    its check returned [True] and with the request stored as approved; and
    for an administrator it approves any existing request with any existing
    user named as the manager. *)
Theorem approval_route st login (id manager_id : Z) :
  (forall st' body status,
     RequestIdApproveRoute_put login id manager_id st = (st', Reply body status) ->
     status = 200
     /\ is_user_admin_or_manager_in_request st login (Some id) = Ok true
     /\ option_map Request.is_approved (RequestRepository.get_request_by_id st' (Some id))
        = Some true)
  /\ (forall caller request manager,
        UserRepository.get_user_by_login st login = Some caller ->
        User.is_admin caller = true ->
        RequestRepository.get_request_by_id st (Some id) = Some request ->
        UserRepository.get_user_by_id st (Some manager_id) = Some manager ->
        exists st' body,
          RequestIdApproveRoute_put login id manager_id st = (st', Reply body 200)
          /\ Request.s_is_approved body = true).
Proof.
  split.
  - intros st' body status H. unfold RequestIdApproveRoute_put, gated in H.
    destruct (request_gate_outcome st login (Some id)) as [Hgate|Hgate];
      rewrite Hgate in H; [|discriminate H].
    destruct (RequestService.approve_reservation_request id manager_id st)
      as [st1 [out|e]] eqn:Hrun; [|unfold rescue in H; destruct (is_ValueError e);
                                    discriminate H].
    injection H as <- <- <-. split; [reflexivity|]. split; [exact Hgate|].
    apply approve_reservation_request_Ok in Hrun.
    destruct Hrun as (request & manager & Hr & _ & -> & _).
    unfold RequestRepository.get_request_by_id in *.
    cbn [request_table set_request_table].
    rewrite first_by_id_update_by_id by reflexivity. rewrite Hr. simpl.
    rewrite (first_by_id_key _ _ _ Hr), Z.eqb_refl. reflexivity.
  - intros caller request manager Hcaller Hadm Hr Hm.
    unfold RequestIdApproveRoute_put, gated, is_user_admin_or_manager_in_request,
      is_user_admin.
    rewrite Hcaller, Hadm. cbn [negb try_grant].
    unfold RequestService.approve_reservation_request.
    erewrite bind_run_Ok by (apply lookup_run_Some; exact Hr).
    erewrite bind_run_Ok by (apply lookup_run_Some; exact Hm).
    cbv beta iota delta [bind commit ret query RequestRepository.update_request_approval
                         request_model.set_is_approved].
    eexists. eexists. split; [reflexivity|].
    unfold RequestRepository.serialize_request.
    rewrite (@live_found _ Request.id _ request (Request.with_is_approved request true)).
    + reflexivity.
    + cbn [request_table set_request_table].
      rewrite first_by_id_update_by_id by reflexivity.
      unfold RequestRepository.get_request_by_id in Hr.
      rewrite (first_by_id_key _ _ _ Hr), Hr. simpl.
      rewrite (first_by_id_key _ _ _ Hr), Z.eqb_refl. reflexivity.
Qed.

Lemma approval_route_witness :
  exists st' body,
    RequestIdApproveRoute_put "root" 1 2 campus = (st', Reply body 200)
    /\ Request.s_is_approved body = true.
Proof.
  apply (proj2 (approval_route campus "root" 1 2) root seminar bob); reflexivity.
Defined.

End Routes.
